(** * filrewardsd: the reward ledger, the claim ledger and their caches

    A shallow embedding of [api/filrewardsd/service/service.go]: the
    grant protocol ([ProcessAnalyticsEvent]), the cache seeding of [New],
    the balance aggregation ([totalRewarded], [totalClaimed], [Balance],
    [Claim]) and the keyset pagination of [ListRewards] / [ListClaims].

    The document store is modelled by the two collections the service
    writes, each a list of records in insertion order, together with the
    fragment of the query language the service uses. *)

From Stdlib Require Import ZArith Lia.
From stdpp Require Import gmap strings list fin_maps sorting.

Local Open Scope string_scope.
Local Open Scope list_scope.
Local Open Scope Z_scope.

(** ** Outcomes of Go calls

    A call returns a value, returns an error, or panics (the two panics
    of this file are a write to a nil map and [Value.Int32] on a value
    that is not an int32). *)

Inductive outcome (E A : Type) : Type :=
| Ok (a : A)
| Err (e : E)
| Panic.
Arguments Ok {E A} a.
Arguments Err {E A} e.
Arguments Panic {E A}.

(** gRPC status codes the handlers use. *)
Inductive codes := InvalidArgument | Internal.

(** ** 32-bit integers

    [int32] values are integers; Go's subtraction wraps around. *)

Definition min_int32 : Z := - 2 ^ 31.
Definition max_int32 : Z := 2 ^ 31 - 1.
Definition in_int32 (z : Z) : bool := (min_int32 <=? z) && (z <=? max_int32).
Definition wrap32 (z : Z) : Z := (z + 2 ^ 31) mod 2 ^ 32 - 2 ^ 31.
Definition sub32 (a b : Z) : Z := wrap32 (a - b).

(** ** Enumerations *)

Inductive RewardType :=
| REWARD_TYPE_UNSPECIFIED
| REWARD_TYPE_FIRST_KEY_ACCOUNT_CREATED
| REWARD_TYPE_FIRST_KEY_USER_CREATED
| REWARD_TYPE_FIRST_ORG_CREATED
| REWARD_TYPE_INITIAL_BILLING_SETUP
| REWARD_TYPE_FIRST_BUCKET_CREATED
| REWARD_TYPE_FIRST_BUCKET_ARCHIVE_CREATED
| REWARD_TYPE_FIRST_MAILBOX_CREATED
| REWARD_TYPE_FIRST_THREAD_DB_CREATED.

(** The wire number of a reward type. The generated [pb] package is not
    part of the sources at hand; the numbers follow the order in which
    the service lists the types, and nothing below depends on them
    beyond their being distinct. *)
Definition RewardType_number (t : RewardType) : nat :=
  match t with
  | REWARD_TYPE_UNSPECIFIED => 0
  | REWARD_TYPE_FIRST_KEY_ACCOUNT_CREATED => 1
  | REWARD_TYPE_FIRST_KEY_USER_CREATED => 2
  | REWARD_TYPE_FIRST_ORG_CREATED => 3
  | REWARD_TYPE_INITIAL_BILLING_SETUP => 4
  | REWARD_TYPE_FIRST_BUCKET_CREATED => 5
  | REWARD_TYPE_FIRST_BUCKET_ARCHIVE_CREATED => 6
  | REWARD_TYPE_FIRST_MAILBOX_CREATED => 7
  | REWARD_TYPE_FIRST_THREAD_DB_CREATED => 8
  end%nat.

Definition RewardType_of_number (n : nat) : RewardType :=
  match n with
  | 1 => REWARD_TYPE_FIRST_KEY_ACCOUNT_CREATED
  | 2 => REWARD_TYPE_FIRST_KEY_USER_CREATED
  | 3 => REWARD_TYPE_FIRST_ORG_CREATED
  | 4 => REWARD_TYPE_INITIAL_BILLING_SETUP
  | 5 => REWARD_TYPE_FIRST_BUCKET_CREATED
  | 6 => REWARD_TYPE_FIRST_BUCKET_ARCHIVE_CREATED
  | 7 => REWARD_TYPE_FIRST_MAILBOX_CREATED
  | 8 => REWARD_TYPE_FIRST_THREAD_DB_CREATED
  | _ => REWARD_TYPE_UNSPECIFIED
  end%nat.

#[global] Instance RewardType_eq_dec : EqDecision RewardType.
Proof. solve_decision. Defined.

#[global] Instance RewardType_countable : Countable RewardType.
Proof.
  apply (inj_countable' RewardType_number RewardType_of_number).
  intros []; reflexivity.
Defined.

(** The analytics events the service names. *)
Inductive Event :=
| EVENT_UNSPECIFIED
| EVENT_KEY_ACCOUNT_CREATED
| EVENT_KEY_USER_CREATED
| EVENT_ORG_CREATED
| EVENT_BILLING_SETUP
| EVENT_BUCKET_CREATED
| EVENT_BUCKET_ARCHIVE_CREATED
| EVENT_MAILBOX_CREATED
| EVENT_THREAD_DB_CREATED
| EVENT_FIL_REWARD
| EVENT_FIL_CLAIM.

#[global] Instance Event_eq_dec : EqDecision Event.
Proof. solve_decision. Defined.

(** ** Records *)

Record meta := { factor : Z }.

(** [rewardTypeMeta] is a Go map: a key that is absent reads as the zero
    [meta]. *)
Definition rewardTypeMeta (t : RewardType) : option meta :=
  match t with
  | REWARD_TYPE_FIRST_KEY_ACCOUNT_CREATED => Some {| factor := 3 |}
  | REWARD_TYPE_FIRST_KEY_USER_CREATED => Some {| factor := 1 |}
  | REWARD_TYPE_FIRST_ORG_CREATED => Some {| factor := 3 |}
  | REWARD_TYPE_INITIAL_BILLING_SETUP => Some {| factor := 1 |}
  | REWARD_TYPE_FIRST_BUCKET_CREATED => Some {| factor := 2 |}
  | REWARD_TYPE_FIRST_BUCKET_ARCHIVE_CREATED => Some {| factor := 2 |}
  | REWARD_TYPE_FIRST_MAILBOX_CREATED => Some {| factor := 1 |}
  | REWARD_TYPE_FIRST_THREAD_DB_CREATED => Some {| factor := 1 |}
  | REWARD_TYPE_UNSPECIFIED => None
  end.

Definition meta_of (t : RewardType) : meta :=
  default {| factor := 0 |} (rewardTypeMeta t).

(** Timestamps are integers, in the resolution the store keeps. *)
Definition time := Z.

Record reward := {
  reward_OrgKey : string;
  reward_DevKey : string;
  reward_Type : RewardType;
  reward_Factor : Z;
  reward_BaseAttoFILReward : Z;
  reward_CreatedAt : time
}.

Record claim := {
  claim_OrgKey : string;
  claim_ClaimedBy : string;
  claim_Amount : Z;
  claim_CreatedAt : time
}.

Abbreviation cache := (gmap string (gset RewardType)).

(** The service with the two collections it owns handles to. *)
Record Service := {
  rewardsCol : list reward;
  claimsCol : list claim;
  rewardsCacheOrg : cache;
  rewardsCacheDev : cache;
  baseAttoFILReward : Z
}.

(** ** Documents and the aggregation pipeline

    What [Aggregate] sees of a collection is its documents: field names
    with values, as the [bson] tags of the structs give them. *)

Inductive bval :=
| BNull
| BString (s : string)
| BInt32 (z : Z)
| BInt64 (z : Z)
| BDateTime (t : time).

Definition document := list (string * bval).

Fixpoint doc_get (d : document) (k : string) : option bval :=
  match d with
  | [] => None
  | (k', v) :: d' => if String.eqb k' k then Some v else doc_get d' k
  end.

Definition bval_eqb (a b : bval) : bool :=
  match a, b with
  | BNull, BNull => true
  | BString x, BString y => String.eqb x y
  | BInt32 x, BInt32 y | BInt64 x, BInt64 y
  | BInt32 x, BInt64 y | BInt64 x, BInt32 y => x =? y
  | BDateTime x, BDateTime y => x =? y
  | _, _ => false
  end.

Definition reward_bson (r : reward) : document :=
  [ ("org_key", BString (reward_OrgKey r));
    ("dev_key", BString (reward_DevKey r));
    ("type", BInt32 (Z.of_nat (RewardType_number (reward_Type r))));
    ("factor", BInt32 (reward_Factor r));
    ("base_atto_fil_reward", BInt32 (reward_BaseAttoFILReward r));
    ("created_at", BDateTime (reward_CreatedAt r)) ].

Definition claim_bson (c : claim) : document :=
  [ ("org_key", BString (claim_OrgKey c));
    ("claimed_by", BString (claim_ClaimedBy c));
    ("amount", BInt32 (claim_Amount c));
    ("created_at", BDateTime (claim_CreatedAt c)) ].

(** A number produced by the store is an int32 while it fits and is
    widened (to a long, or beyond) once it does not. *)
Definition int_or_long (z : Z) : bval :=
  if in_int32 z then BInt32 z else BInt64 z.

(** [{"$match": {field: v}}] *)
Definition stage_match (field : string) (v : bval) (ds : list document)
  : list document :=
  List.filter
    (fun d => match doc_get d field with
              | Some w => bval_eqb w v
              | None => false
              end) ds.

(** [{"$multiply": [a, b]}]: a missing operand makes the product null. *)
Definition bson_multiply (a b : option bval) : bval :=
  match a, b with
  | Some (BInt32 x), Some (BInt32 y) => int_or_long (x * y)
  | Some (BInt32 x), Some (BInt64 y)
  | Some (BInt64 x), Some (BInt32 y)
  | Some (BInt64 x), Some (BInt64 y) => BInt64 (x * y)
  | _, _ => BNull
  end.

(** [{"$project": {out: {"$multiply": ["$f1", "$f2"]}}}] *)
Definition stage_project_multiply (out f1 f2 : string) (ds : list document)
  : list document :=
  map (fun d => [ (out, bson_multiply (doc_get d f1) (doc_get d f2)) ]) ds.

(** The [$sum] accumulator: non-numeric and missing values are skipped;
    the running total remembers whether a long was seen. *)
Definition sum_step (a : Z * bool) (v : option bval) : Z * bool :=
  match v with
  | Some (BInt32 x) => (fst a + x, snd a)
  | Some (BInt64 x) => (fst a + x, true)
  | _ => a
  end.

Definition sum_field (field : string) (ds : list document) : Z * bool :=
  fold_left (fun a d => sum_step a (doc_get d field)) ds (0, false).

Definition sum_result (a : Z * bool) : bval :=
  if snd a then BInt64 (fst a) else int_or_long (fst a).

(** [{"$group": {"_id": nil, "total": {"$sum": "$field"}}}]: one group
    for all input documents, and no group when there is no input. *)
Definition stage_group_sum (field : string) (ds : list document)
  : list document :=
  match ds with
  | [] => []
  | _ :: _ => [ [ ("_id", BNull); ("total", sum_result (sum_field field ds)) ] ]
  end.

(** The reading loop shared by [totalRewarded] and [totalClaimed]: the
    first element named "total" of the first document that has one is
    returned through [Value.Int32], which panics on any other type. *)
Fixpoint read_total_elements (elements : document) : option (outcome string Z) :=
  match elements with
  | [] => None
  | (k, v) :: rest =>
      if String.eqb k "total" then
        Some (match v with BInt32 z => Ok z | _ => Panic end)
      else read_total_elements rest
  end.

Fixpoint read_total (cursor : list document) (missing : string)
  : outcome string Z :=
  match cursor with
  | [] => Err missing
  | d :: rest =>
      match read_total_elements d with
      | Some o => o
      | None => read_total rest missing
      end
  end.

Definition totalRewarded (s : Service) (orgKey : string) : outcome string Z :=
  let cursor :=
    stage_group_sum "amt"
      (stage_project_multiply "amt" "factor" "base_atto_fil_reward"
         (stage_match "org_key" (BString orgKey)
            (map reward_bson (rewardsCol s)))) in
  read_total cursor "no total rewarded calculation found".

(** [totalClaimed] runs its pipeline on [s.rewardsCol]. *)
Definition totalClaimed (s : Service) (orgKey : string) : outcome string Z :=
  let cursor :=
    stage_group_sum "amount"
      (stage_match "org_key" (BString orgKey)
         (map reward_bson (rewardsCol s))) in
  read_total cursor "no total claimed calculation found".

(** ** Balance and Claim *)

Record BalanceResponse := {
  Rewarded : Z;
  Claimed : Z;
  Available : Z
}.

Definition Balance (s : Service) (orgKey : string)
  : outcome codes BalanceResponse :=
  match totalRewarded s orgKey with
  | Err _ => Err Internal
  | Panic => Panic
  | Ok totalRewarded =>
      match totalClaimed s orgKey with
      | Err _ => Err Internal
      | Panic => Panic
      | Ok totalClaimed =>
          Ok {| Rewarded := totalRewarded;
                Claimed := totalClaimed;
                Available := sub32 totalRewarded totalClaimed |}
      end
  end.

Record ClaimRequest := {
  ClaimRequest_OrgKey : string;
  ClaimRequest_ClaimedBy : string;
  ClaimRequest_Amount : Z
}.

(** [InsertOne] on the claims collection, which has no unique index: it
    fails only when the store does ([up = false]). *)
Definition insert_claim (up : bool) (col : list claim) (c : claim)
  : option (list claim) :=
  if up then Some (col ++ [c]) else None.

Definition with_claims (s : Service) (col : list claim) : Service :=
  {| rewardsCol := rewardsCol s;
     claimsCol := col;
     rewardsCacheOrg := rewardsCacheOrg s;
     rewardsCacheDev := rewardsCacheDev s;
     baseAttoFILReward := baseAttoFILReward s |}.

(** The record [Claim] writes for a request at time [now]. *)
Definition new_claim (req : ClaimRequest) (now : time) : claim :=
  {| claim_OrgKey := ClaimRequest_OrgKey req;
     claim_ClaimedBy := ClaimRequest_ClaimedBy req;
     claim_Amount := ClaimRequest_Amount req;
     claim_CreatedAt := now |}.

(** [Claim] at time [now]; [up] says whether the store accepts the
    insert. The tracking call after the insert changes nothing here. *)
Definition Claim (s : Service) (req : ClaimRequest) (now : time) (up : bool)
  : outcome codes unit * Service :=
  match totalRewarded s (ClaimRequest_OrgKey req) with
  | Err _ => (Err Internal, s)
  | Panic => (Panic, s)
  | Ok totalRewarded =>
      match totalClaimed s (ClaimRequest_OrgKey req) with
      | Err _ => (Err Internal, s)
      | Panic => (Panic, s)
      | Ok totalClaimed =>
          let available := sub32 totalRewarded totalClaimed in
          if available <? ClaimRequest_Amount req then
            (Err InvalidArgument, s)
          else
            let c := new_claim req now in
            match insert_claim up (claimsCol s) c with
            | None => (Err Internal, s)
            | Some col => (Ok tt, with_claims s col)
            end
      end
  end.

(** ** The caches *)

Definition ensureKeyRewardCache (keyCache : cache) (key : string) : cache :=
  match keyCache !! key with
  | Some _ => keyCache
  | None => <[key := ∅]> keyCache
  end.

(** [_, exists := keyCache[key][t]]: reading through a missing key reads
    a nil map, which has no entries. *)
Definition cache_has (keyCache : cache) (key : string) (t : RewardType) : bool :=
  match keyCache !! key with
  | Some types => bool_decide (t ∈ types)
  | None => false
  end.

(** [keyCache[key][t] = struct{}{}]: the inner map is shared, so the
    write shows in [keyCache]; writing through a missing key writes to a
    nil map, which panics ([None]). *)
Definition cache_set (keyCache : cache) (key : string) (t : RewardType)
  : option cache :=
  match keyCache !! key with
  | Some types => Some (<[key := {[t]} ∪ types]> keyCache)
  | None => None
  end.

(** The loop of [New] that populates the caches from the records the
    cursor yields. *)
Fixpoint populate (recs : list reward) (cacheOrg cacheDev : cache)
  : outcome string (cache * cache) :=
  match recs with
  | [] => Ok (cacheOrg, cacheDev)
  | rec :: rest =>
      let cacheOrg := ensureKeyRewardCache cacheOrg (reward_OrgKey rec) in
      let cacheDev := ensureKeyRewardCache cacheDev (reward_DevKey rec) in
      match cache_set cacheOrg (reward_OrgKey rec) (reward_Type rec) with
      | None => Panic
      | Some cacheOrg =>
          match cache_set cacheOrg (reward_DevKey rec) (reward_Type rec) with
          | None => Panic
          | Some cacheOrg => populate rest cacheOrg cacheDev
          end
      end
  end.

Record Config := { Config_BaseAttoFILReward : Z }.

(** [New] over a store holding [rewards] and [claims]: connecting,
    index creation and the server are left out. *)
Definition New (rewards : list reward) (claims : list claim) (config : Config)
  : outcome string Service :=
  match populate rewards ∅ ∅ with
  | Ok (cacheOrg, cacheDev) =>
      Ok {| rewardsCol := rewards;
            claimsCol := claims;
            rewardsCacheOrg := cacheOrg;
            rewardsCacheDev := cacheDev;
            baseAttoFILReward := Config_BaseAttoFILReward config |}
  | Err e => Err e
  | Panic => Panic
  end.

(** ** Granting *)

Record pb_Reward := {
  pb_Reward_OrgKey : string;
  pb_Reward_DevKey : string;
  pb_Reward_Type : RewardType;
  pb_Reward_Factor : Z;
  pb_Reward_BaseAttoFilReward : Z;
  pb_Reward_CreatedAt : time
}.

Definition toPbReward (rec : reward) : pb_Reward :=
  {| pb_Reward_OrgKey := reward_OrgKey rec;
     pb_Reward_DevKey := reward_DevKey rec;
     pb_Reward_Type := reward_Type rec;
     pb_Reward_Factor := reward_Factor rec;
     pb_Reward_BaseAttoFilReward := reward_BaseAttoFILReward rec;
     pb_Reward_CreatedAt := reward_CreatedAt rec |}.

Record ProcessAnalyticsEventRequest := {
  Request_OrgKey : string;
  Request_DevKey : string;
  Request_AnalyticsEvent : Event
}.

(** The response: its [Reward] field is nil in the empty response. *)
Record ProcessAnalyticsEventResponse := { Response_Reward : option pb_Reward }.

(** The [switch] of [ProcessAnalyticsEvent]. *)
Definition reward_type_of (e : Event) : RewardType :=
  match e with
  | EVENT_KEY_ACCOUNT_CREATED => REWARD_TYPE_FIRST_KEY_ACCOUNT_CREATED
  | EVENT_KEY_USER_CREATED => REWARD_TYPE_FIRST_KEY_USER_CREATED
  | EVENT_ORG_CREATED => REWARD_TYPE_FIRST_ORG_CREATED
  | EVENT_BILLING_SETUP => REWARD_TYPE_INITIAL_BILLING_SETUP
  | EVENT_BUCKET_CREATED => REWARD_TYPE_FIRST_BUCKET_CREATED
  | EVENT_BUCKET_ARCHIVE_CREATED => REWARD_TYPE_FIRST_BUCKET_ARCHIVE_CREATED
  | EVENT_MAILBOX_CREATED => REWARD_TYPE_FIRST_MAILBOX_CREATED
  | EVENT_THREAD_DB_CREATED => REWARD_TYPE_FIRST_THREAD_DB_CREATED
  | _ => REWARD_TYPE_UNSPECIFIED
  end.

(** The two unique indexes of the rewards collection: over (org_key,
    type) among documents with a non-empty org_key, and over (dev_key,
    type) among documents with a non-empty dev_key. *)
Definition same_org_type (r x : reward) : bool :=
  negb (String.eqb (reward_OrgKey r) "")
  && String.eqb (reward_OrgKey x) (reward_OrgKey r)
  && bool_decide (reward_Type x = reward_Type r).

Definition same_dev_type (r x : reward) : bool :=
  negb (String.eqb (reward_DevKey r) "")
  && String.eqb (reward_DevKey x) (reward_DevKey r)
  && bool_decide (reward_Type x = reward_Type r).

Definition duplicate_key (col : list reward) (r : reward) : bool :=
  existsb (fun x => same_org_type r x || same_dev_type r x) col.

(** [InsertOne] on the rewards collection: it fails when the store does
    ([up = false]) or when a unique index rejects the document. *)
Definition insert_reward (up : bool) (col : list reward) (r : reward)
  : option (list reward) :=
  if up && negb (duplicate_key col r) then Some (col ++ [r]) else None.

Definition with_caches (s : Service) (cacheOrg cacheDev : cache) : Service :=
  {| rewardsCol := rewardsCol s;
     claimsCol := claimsCol s;
     rewardsCacheOrg := cacheOrg;
     rewardsCacheDev := cacheDev;
     baseAttoFILReward := baseAttoFILReward s |}.

Definition with_rewards (s : Service) (col : list reward) : Service :=
  {| rewardsCol := col;
     claimsCol := claimsCol s;
     rewardsCacheOrg := rewardsCacheOrg s;
     rewardsCacheDev := rewardsCacheDev s;
     baseAttoFILReward := baseAttoFILReward s |}.

(** The record [ProcessAnalyticsEvent] builds for a grant of type [t]. *)
Definition new_reward (s : Service) (req : ProcessAnalyticsEventRequest)
    (t : RewardType) (now : time) : reward :=
  {| reward_OrgKey := Request_OrgKey req;
     reward_DevKey := Request_DevKey req;
     reward_Type := t;
     reward_Factor := factor (meta_of t);
     reward_BaseAttoFILReward := baseAttoFILReward s;
     reward_CreatedAt := now |}.

(** [ProcessAnalyticsEvent] at time [now]; [up] says whether the store
    is reachable for the insert. The tracking call after the cache
    update changes nothing here. *)
Definition ProcessAnalyticsEvent (s : Service)
    (req : ProcessAnalyticsEventRequest) (now : time) (up : bool)
  : outcome codes ProcessAnalyticsEventResponse * Service :=
  if String.eqb (Request_OrgKey req) "" then (Err InvalidArgument, s)
  else if bool_decide (Request_AnalyticsEvent req = EVENT_UNSPECIFIED) then
    (Err InvalidArgument, s)
  else
    let t := reward_type_of (Request_AnalyticsEvent req) in
    if bool_decide (t = REWARD_TYPE_UNSPECIFIED) then
      (Ok {| Response_Reward := None |}, s)
    else
      let s := with_caches s
                 (ensureKeyRewardCache (rewardsCacheOrg s) (Request_OrgKey req))
                 (ensureKeyRewardCache (rewardsCacheDev s) (Request_DevKey req)) in
      if cache_has (rewardsCacheOrg s) (Request_OrgKey req) t then
        (Ok {| Response_Reward := None |}, s)
      else if cache_has (rewardsCacheDev s) (Request_DevKey req) t then
        (Ok {| Response_Reward := None |}, s)
      else
        let r := new_reward s req t now in
        match insert_reward up (rewardsCol s) r with
        | None => (Err Internal, s)
        | Some col =>
            let s := with_rewards s col in
            match cache_set (rewardsCacheOrg s) (Request_OrgKey req) t with
            | None => (Panic, s)
            | Some cacheOrg =>
                match cache_set (rewardsCacheDev s) (Request_DevKey req) t with
                | None => (Panic, with_caches s cacheOrg (rewardsCacheDev s))
                | Some cacheDev =>
                    (Ok {| Response_Reward := Some (toPbReward r) |},
                     with_caches s cacheOrg cacheDev)
                end
            end
        end.

(** ** Queries: [Find] and [FindOne]

    A query keeps the documents that match, orders them by [created_at]
    (ascending for [1], descending otherwise; documents with equal
    timestamps stay in insertion order) and cuts the result at the
    limit, when there is one. *)

Section Query.
Context {A : Type} (created_at : A -> time).

Definition goes_first (sort : Z) (x y : A) : bool :=
  if sort =? 1 then created_at x <=? created_at y
  else created_at y <=? created_at x.

Fixpoint sort_insert (sort : Z) (x : A) (l : list A) : list A :=
  match l with
  | [] => [x]
  | y :: l' =>
      if goes_first sort x y then x :: l else y :: sort_insert sort x l'
  end.

Fixpoint sort_by_created_at (sort : Z) (l : list A) : list A :=
  match l with
  | [] => []
  | x :: l' => sort_insert sort x (sort_by_created_at sort l')
  end.

Definition apply_limit (limit : option Z) (l : list A) : list A :=
  match limit with
  | Some n => firstn (Z.to_nat n) l
  | None => l
  end.

Definition Find (matches : A -> bool) (sort : Z) (limit : option Z)
    (col : list A) : list A :=
  apply_limit limit (sort_by_created_at sort (List.filter matches col)).

Definition FindOne (matches : A -> bool) (col : list A) : option A :=
  List.find matches col.
End Query.

(** [if req.Limit > 0 { findOpts.Limit = &req.Limit }] *)
Definition limit_of (limit : Z) : option Z :=
  if 0 <? limit then Some limit else None.

(** A comparison operator of the query language, by its name. *)
Definition compare_time (comp : string) (x t : time) : bool :=
  if String.eqb comp "$lt" then x <? t
  else if String.eqb comp "$gt" then t <? x
  else false.

Definition eq_or_any {B : Type} (eqb : B -> B -> bool) (f : option B) (x : B)
  : bool :=
  match f with
  | Some v => eqb x v
  | None => true
  end.

(** The [bson.M] filter of [ListRewards]: the keys it can hold. *)
Record reward_filter := {
  rf_org_key : option string;
  rf_dev_key : option string;
  rf_type : option RewardType;
  rf_created_at : option (string * time)
}.

Definition rf_set_created_at (f : reward_filter) (c : string * time)
  : reward_filter :=
  {| rf_org_key := rf_org_key f;
     rf_dev_key := rf_dev_key f;
     rf_type := rf_type f;
     rf_created_at := Some c |}.

Definition reward_matches (f : reward_filter) (r : reward) : bool :=
  eq_or_any String.eqb (rf_org_key f) (reward_OrgKey r)
  && eq_or_any String.eqb (rf_dev_key f) (reward_DevKey r)
  && eq_or_any (fun x y => bool_decide (x = y)) (rf_type f) (reward_Type r)
  && match rf_created_at f with
     | Some (comp, t) => compare_time comp (reward_CreatedAt r) t
     | None => true
     end.

Record ListRewardsRequest := {
  LR_OrgKeyFilter : string;
  LR_DevKeyFilter : string;
  LR_RewardTypeFilter : RewardType;
  LR_Ascending : bool;
  LR_StartAt : option time;
  LR_Limit : Z
}.

Record ListRewardsResponse := {
  LR_Rewards : list pb_Reward;
  LR_More : bool;
  LR_MoreStartAt : option time
}.

(** The filter [ListRewards] builds from the request's three filter
    fields, before any cursor is added. *)
Definition LR_filter (req : ListRewardsRequest) : reward_filter :=
  {| rf_org_key :=
       if String.eqb (LR_OrgKeyFilter req) "" then None
       else Some (LR_OrgKeyFilter req);
     rf_dev_key :=
       if String.eqb (LR_DevKeyFilter req) "" then None
       else Some (LR_DevKeyFilter req);
     rf_type :=
       if bool_decide (LR_RewardTypeFilter req = REWARD_TYPE_UNSPECIFIED)
       then None else Some (LR_RewardTypeFilter req);
     rf_created_at := None |}.

(** [ListRewards]; the store answers every read here, so the handler
    returns its response. *)
Definition ListRewards (s : Service) (req : ListRewardsRequest)
  : ListRewardsResponse :=
  let limit := limit_of (LR_Limit req) in
  let sort := if LR_Ascending req then 1 else -1 in
  let filter := LR_filter req in
  let comp :=
    match LR_StartAt req with
    | Some _ => if LR_Ascending req then "$gt" else "$lt"
    | None => "$lt"
    end in
  let filter :=
    match LR_StartAt req with
    | Some t => rf_set_created_at filter (comp, t)
    | None => filter
    end in
  let rewards :=
    Find reward_CreatedAt (reward_matches filter) sort limit (rewardsCol s) in
  match last (A := reward) rewards with
  | None =>
      {| LR_Rewards := map toPbReward rewards;
         LR_More := false; LR_MoreStartAt := None |}
  | Some lastRec =>
      let lastCreatedAt := reward_CreatedAt lastRec in
      let filter := rf_set_created_at filter (comp, lastCreatedAt) in
      match FindOne (reward_matches filter) (rewardsCol s) with
      | Some _ =>
          {| LR_Rewards := map toPbReward rewards;
             LR_More := true; LR_MoreStartAt := Some lastCreatedAt |}
      | None =>
          {| LR_Rewards := map toPbReward rewards;
             LR_More := false; LR_MoreStartAt := None |}
      end
  end.

Record pb_Claim := {
  pb_Claim_OrgKey : string;
  pb_Claim_ClaimedBy : string;
  pb_Claim_Amount : Z;
  pb_Claim_CreatedAt : time
}.

Definition toPbClaim (rec : claim) : pb_Claim :=
  {| pb_Claim_OrgKey := claim_OrgKey rec;
     pb_Claim_ClaimedBy := claim_ClaimedBy rec;
     pb_Claim_Amount := claim_Amount rec;
     pb_Claim_CreatedAt := claim_CreatedAt rec |}.

(** The [bson.M] filter of [ListClaims]. *)
Record claim_filter := {
  cf_org_key : option string;
  cf_claimed_by : option string;
  cf_created_at : option (string * time)
}.

Definition cf_set_created_at (f : claim_filter) (c : string * time)
  : claim_filter :=
  {| cf_org_key := cf_org_key f;
     cf_claimed_by := cf_claimed_by f;
     cf_created_at := Some c |}.

Definition claim_matches (f : claim_filter) (c : claim) : bool :=
  eq_or_any String.eqb (cf_org_key f) (claim_OrgKey c)
  && eq_or_any String.eqb (cf_claimed_by f) (claim_ClaimedBy c)
  && match cf_created_at f with
     | Some (comp, t) => compare_time comp (claim_CreatedAt c) t
     | None => true
     end.

Record ListClaimsRequest := {
  LC_OrgKeyFilter : string;
  LC_ClaimedByFilter : string;
  LC_Ascending : bool;
  LC_StartAt : option time;
  LC_Limit : Z
}.

Record ListClaimsResponse := {
  LC_Claims : list pb_Claim;
  LC_More : bool;
  LC_MoreStartAt : option time
}.

(** The filter [ListClaims] builds from the request's two filter
    fields, before any cursor is added. *)
Definition LC_filter (req : ListClaimsRequest) : claim_filter :=
  {| cf_org_key :=
       if String.eqb (LC_OrgKeyFilter req) "" then None
       else Some (LC_OrgKeyFilter req);
     cf_claimed_by :=
       if String.eqb (LC_ClaimedByFilter req) "" then None
       else Some (LC_ClaimedByFilter req);
     cf_created_at := None |}.

Definition ListClaims (s : Service) (req : ListClaimsRequest)
  : ListClaimsResponse :=
  let limit := limit_of (LC_Limit req) in
  let sort := if LC_Ascending req then 1 else -1 in
  let filter := LC_filter req in
  let comp :=
    match LC_StartAt req with
    | Some _ => if LC_Ascending req then "$gt" else "$lt"
    | None => "$lt"
    end in
  let filter :=
    match LC_StartAt req with
    | Some t => cf_set_created_at filter (comp, t)
    | None => filter
    end in
  let claims :=
    Find claim_CreatedAt (claim_matches filter) sort limit (claimsCol s) in
  match last (A := claim) claims with
  | None =>
      {| LC_Claims := map toPbClaim claims;
         LC_More := false; LC_MoreStartAt := None |}
  | Some lastRec =>
      let lastCreatedAt := claim_CreatedAt lastRec in
      let filter := cf_set_created_at filter (comp, lastCreatedAt) in
      match FindOne (claim_matches filter) (claimsCol s) with
      | Some _ =>
          {| LC_Claims := map toPbClaim claims;
             LC_More := true; LC_MoreStartAt := Some lastCreatedAt |}
      | None =>
          {| LC_Claims := map toPbClaim claims;
             LC_More := false; LC_MoreStartAt := None |}
      end
  end.

(** ** A client that pages

    The client starts from a request, and while the response says there
    is more it asks again with the cursor the response carried. *)

Definition LR_with_StartAt (req : ListRewardsRequest) (c : option time)
  : ListRewardsRequest :=
  {| LR_OrgKeyFilter := LR_OrgKeyFilter req;
     LR_DevKeyFilter := LR_DevKeyFilter req;
     LR_RewardTypeFilter := LR_RewardTypeFilter req;
     LR_Ascending := LR_Ascending req;
     LR_StartAt := c;
     LR_Limit := LR_Limit req |}.

Definition LR_unbounded (req : ListRewardsRequest) : ListRewardsRequest :=
  {| LR_OrgKeyFilter := LR_OrgKeyFilter req;
     LR_DevKeyFilter := LR_DevKeyFilter req;
     LR_RewardTypeFilter := LR_RewardTypeFilter req;
     LR_Ascending := LR_Ascending req;
     LR_StartAt := None;
     LR_Limit := 0 |}.

Fixpoint all_reward_pages (fuel : nat) (s : Service) (req : ListRewardsRequest)
  : option (list pb_Reward) :=
  match fuel with
  | O => None
  | S fuel =>
      let res := ListRewards s req in
      if LR_More res then
        match all_reward_pages fuel s (LR_with_StartAt req (LR_MoreStartAt res)) with
        | Some rest => Some (LR_Rewards res ++ rest)
        | None => None
        end
      else Some (LR_Rewards res)
  end.

Definition LC_with_StartAt (req : ListClaimsRequest) (c : option time)
  : ListClaimsRequest :=
  {| LC_OrgKeyFilter := LC_OrgKeyFilter req;
     LC_ClaimedByFilter := LC_ClaimedByFilter req;
     LC_Ascending := LC_Ascending req;
     LC_StartAt := c;
     LC_Limit := LC_Limit req |}.

Definition LC_unbounded (req : ListClaimsRequest) : ListClaimsRequest :=
  {| LC_OrgKeyFilter := LC_OrgKeyFilter req;
     LC_ClaimedByFilter := LC_ClaimedByFilter req;
     LC_Ascending := LC_Ascending req;
     LC_StartAt := None;
     LC_Limit := 0 |}.

Fixpoint all_claim_pages (fuel : nat) (s : Service) (req : ListClaimsRequest)
  : option (list pb_Claim) :=
  match fuel with
  | O => None
  | S fuel =>
      let res := ListClaims s req in
      if LC_More res then
        match all_claim_pages fuel s (LC_with_StartAt req (LC_MoreStartAt res)) with
        | Some rest => Some (LC_Claims res ++ rest)
        | None => None
        end
      else Some (LC_Claims res)
  end.

(** ** Sample data *)

Definition mk_reward (o d : string) (t : RewardType) (f b : Z) (c : time)
  : reward :=
  {| reward_OrgKey := o; reward_DevKey := d; reward_Type := t;
     reward_Factor := f; reward_BaseAttoFILReward := b;
     reward_CreatedAt := c |}.

Definition mk_claim (o by_ : string) (a : Z) (c : time) : claim :=
  {| claim_OrgKey := o; claim_ClaimedBy := by_; claim_Amount := a;
     claim_CreatedAt := c |}.

Definition mk_service (rs : list reward) (cs : list claim) (base : Z)
  : Service :=
  {| rewardsCol := rs; claimsCol := cs;
     rewardsCacheOrg := ∅; rewardsCacheDev := ∅;
     baseAttoFILReward := base |}.

(** ** The ledgers' totals

    What the two ledgers hold for an organization key, computed by a
    scan: the sum of factor times base amount over its Reward records
    and the sum of the amounts of its Claim records. *)

Definition org_rewards (s : Service) (k : string) : list reward :=
  List.filter (fun r => String.eqb (reward_OrgKey r) k) (rewardsCol s).

Definition org_claims (s : Service) (k : string) : list claim :=
  List.filter (fun c => String.eqb (claim_OrgKey c) k) (claimsCol s).

Definition reward_amount (r : reward) : Z :=
  reward_Factor r * reward_BaseAttoFILReward r.

Fixpoint sum_Z (l : list Z) : Z :=
  match l with
  | [] => 0
  | x :: l' => x + sum_Z l'
  end.

Definition ledger_rewarded (s : Service) (k : string) : Z :=
  sum_Z (map reward_amount (org_rewards s k)).

Definition ledger_claimed (s : Service) (k : string) : Z :=
  sum_Z (map claim_Amount (org_claims s k)).

Definition ledger_available (s : Service) (k : string) : Z :=
  ledger_rewarded s k - ledger_claimed s k.

(** One organization with one reward of 2 x 100 and one claim of 50. *)
Definition one_reward_one_claim : Service :=
  mk_service
    [mk_reward "org1" "dev1" REWARD_TYPE_FIRST_BUCKET_CREATED 2 100 10]
    [mk_claim "org1" "alice" 50 20] 100.

(** A store with no records at all. *)
Definition empty_store : Service := mk_service [] [] 100.

(** One organization with one reward of 2 x 100 and no claim yet. *)
Definition one_reward : Service :=
  mk_service
    [mk_reward "org1" "dev1" REWARD_TYPE_FIRST_BUCKET_CREATED 2 100 10]
    [] 100.

Definition claim_request (k by_ : string) (a : Z) : ClaimRequest :=
  {| ClaimRequest_OrgKey := k; ClaimRequest_ClaimedBy := by_;
     ClaimRequest_Amount := a |}.

(** ** Vocabulary for the grant protocol *)

(** Two caches mark the same pairs. *)
Definition marks_equal (c c' : cache) : Prop :=
  forall k t, cache_has c k t = cache_has c' k t.

(** The state after the two [ensureKeyRewardCache] calls of
    [ProcessAnalyticsEvent]. *)
Definition ensured (s : Service) (req : ProcessAnalyticsEventRequest) : Service :=
  with_caches s
    (ensureKeyRewardCache (rewardsCacheOrg s) (Request_OrgKey req))
    (ensureKeyRewardCache (rewardsCacheDev s) (Request_DevKey req)).

(** A request that reaches the ledger append: it passes the two argument
    checks, its event maps to a reward type, and neither of its pairs is
    marked. *)
Definition grant_attempt (s : Service) (req : ProcessAnalyticsEventRequest)
  : Prop :=
  Request_OrgKey req <> ""
  /\ Request_AnalyticsEvent req <> EVENT_UNSPECIFIED
  /\ reward_type_of (Request_AnalyticsEvent req) <> REWARD_TYPE_UNSPECIFIED
  /\ cache_has (rewardsCacheOrg s) (Request_OrgKey req)
       (reward_type_of (Request_AnalyticsEvent req)) = false
  /\ cache_has (rewardsCacheDev s) (Request_DevKey req)
       (reward_type_of (Request_AnalyticsEvent req)) = false.

(** Every marked pair of a cache has a Reward record with that key on
    the cache's dimension and that type. *)
Definition org_cache_sound (s : Service) : Prop :=
  forall k t, cache_has (rewardsCacheOrg s) k t = true ->
    exists r, In r (rewardsCol s) /\ reward_OrgKey r = k /\ reward_Type r = t.

Definition dev_cache_sound (s : Service) : Prop :=
  forall k t, cache_has (rewardsCacheDev s) k t = true ->
    exists r, In r (rewardsCol s) /\ reward_DevKey r = k /\ reward_Type r = t.

Definition event_request (o d : string) (e : Event)
  : ProcessAnalyticsEventRequest :=
  {| Request_OrgKey := o; Request_DevKey := d; Request_AnalyticsEvent := e |}.

Definition config100 : Config := {| Config_BaseAttoFILReward := 100 |}.

(** ** Descending pages, for either ledger

    What [ListRewards] and [ListClaims] compute for a request that does
    not ask for ascending order, over any collection: [base] is the
    filter without a cursor and [c] the cursor of the request. *)

Definition more_of (next : option time) : bool :=
  match next with Some _ => true | None => false end.

Section DescendingPage.
Context {A : Type} (created_at : A -> time) (base : A -> bool).

Definition older_than (c : option time) (a : A) : bool :=
  match c with
  | Some t => created_at a <? t
  | None => true
  end.

Definition before_cursor (c : option time) (a : A) : bool :=
  base a && older_than c a.

Definition descending_page (col : list A) (limit : Z) (c : option time)
  : list A * option time :=
  let items :=
    Find created_at (before_cursor c) (-1) (limit_of limit) col in
  match last items with
  | None => (items, None)
  | Some lastRec =>
      match FindOne (before_cursor (Some (created_at lastRec))) col with
      | Some _ => (items, Some (created_at lastRec))
      | None => (items, None)
      end
  end.

Fixpoint descending_pages (fuel : nat) (col : list A) (limit : Z)
    (c : option time) : option (list A) :=
  match fuel with
  | O => None
  | S fuel =>
      match descending_page col limit c with
      | (items, Some c') =>
          match descending_pages fuel col limit (Some c') with
          | Some rest => Some (items ++ rest)
          | None => None
          end
      | (items, None) => Some items
      end
  end.
End DescendingPage.

(** Five rewards of one organization, created at times 1 to 5, and
    three of its claims. *)
Definition five_rewards : Service :=
  mk_service
    [ mk_reward "org1" "dev1" REWARD_TYPE_FIRST_KEY_ACCOUNT_CREATED 3 100 1;
      mk_reward "org1" "dev1" REWARD_TYPE_FIRST_ORG_CREATED 3 100 2;
      mk_reward "org1" "dev1" REWARD_TYPE_FIRST_BUCKET_CREATED 2 100 3;
      mk_reward "org1" "dev1" REWARD_TYPE_FIRST_MAILBOX_CREATED 1 100 4;
      mk_reward "org1" "dev1" REWARD_TYPE_FIRST_THREAD_DB_CREATED 1 100 5 ]
    [ mk_claim "org1" "alice" 10 6;
      mk_claim "org1" "bob" 20 7;
      mk_claim "org1" "alice" 30 8 ]
    100.

(** Two rewards of one organization created at the same time. *)
Definition two_rewards_same_time : Service :=
  mk_service
    [ mk_reward "org1" "dev1" REWARD_TYPE_FIRST_ORG_CREATED 3 100 5;
      mk_reward "org1" "dev1" REWARD_TYPE_FIRST_BUCKET_CREATED 2 100 5 ]
    [] 100.

Definition list_rewards_request (o : string) (asc : bool) (limit : Z)
  : ListRewardsRequest :=
  {| LR_OrgKeyFilter := o; LR_DevKeyFilter := "";
     LR_RewardTypeFilter := REWARD_TYPE_UNSPECIFIED;
     LR_Ascending := asc; LR_StartAt := None; LR_Limit := limit |}.

Definition list_claims_request (o : string) (asc : bool) (limit : Z)
  : ListClaimsRequest :=
  {| LC_OrgKeyFilter := o; LC_ClaimedByFilter := "";
     LC_Ascending := asc; LC_StartAt := None; LC_Limit := limit |}.

(** A ledger with one reward whose developer key differs from its
    organization key, and one with a reward granted to a developer under
    its own key followed by a reward that developer earned for another
    organization. *)
Definition ledger_org1_dev1 : list reward :=
  [ mk_reward "org1" "dev1" REWARD_TYPE_FIRST_BUCKET_CREATED 2 100 10 ].

Definition ledger_d_then_o : list reward :=
  [ mk_reward "d" "d" REWARD_TYPE_FIRST_ORG_CREATED 3 100 1;
    mk_reward "o" "d" REWARD_TYPE_FIRST_BUCKET_CREATED 2 100 2 ].

(** The service started on an empty store, two events processed, and
    the service started again on what the store then holds. *)
Definition restarted : outcome string Service :=
  match New [] [] config100 with
  | Ok s0 =>
      let s1 := snd (ProcessAnalyticsEvent s0
                       (event_request "d" "d" EVENT_ORG_CREATED) 1 true) in
      let s2 := snd (ProcessAnalyticsEvent s1
                       (event_request "o" "d" EVENT_BUCKET_CREATED) 2 true) in
      New (rewardsCol s2) (claimsCol s2) config100
  | Err e => Err e
  | Panic => Panic
  end.

Definition service_of (o : outcome string Service) : Service :=
  match o with
  | Ok s => s
  | _ => empty_store
  end.

(** ** [get] *)

(** [get]: the first reward with the organization key and the type, or
    the error of [FindOne] when no document matches. Both keys are
    always part of the filter, also for the empty organization key. *)
Definition get (s : Service) (orgKey : string) (t : RewardType)
  : outcome string reward :=
  let filter := {| rf_org_key := Some orgKey; rf_dev_key := None;
                   rf_type := Some t; rf_created_at := None |} in
  match FindOne (reward_matches filter) (rewardsCol s) with
  | None => Err "mongo: no documents in result"
  | Some r => Ok r
  end.

(** ** Runs of events *)

Record event_call := {
  call_request : ProcessAnalyticsEventRequest;
  call_now : time;
  call_up : bool
}.

Fixpoint process_events (s : Service) (calls : list event_call) : Service :=
  match calls with
  | [] => s
  | c :: rest =>
      process_events
        (snd (ProcessAnalyticsEvent s (call_request c) (call_now c) (call_up c)))
        rest
  end.

(** The five ways a call of [ProcessAnalyticsEvent] ends, with the
    state it leaves. *)
Inductive event_outcome (s : Service) (req : ProcessAnalyticsEventRequest)
    (now : time) (up : bool)
  : outcome codes ProcessAnalyticsEventResponse * Service -> Prop :=
| outcome_rejected :
    Request_OrgKey req = "" \/ Request_AnalyticsEvent req = EVENT_UNSPECIFIED ->
    event_outcome s req now up (Err InvalidArgument, s)
| outcome_unmapped :
    Request_OrgKey req <> "" ->
    Request_AnalyticsEvent req <> EVENT_UNSPECIFIED ->
    reward_type_of (Request_AnalyticsEvent req) = REWARD_TYPE_UNSPECIFIED ->
    event_outcome s req now up (Ok {| Response_Reward := None |}, s)
| outcome_duplicate :
    Request_OrgKey req <> "" ->
    Request_AnalyticsEvent req <> EVENT_UNSPECIFIED ->
    reward_type_of (Request_AnalyticsEvent req) <> REWARD_TYPE_UNSPECIFIED ->
    cache_has (rewardsCacheOrg s) (Request_OrgKey req)
      (reward_type_of (Request_AnalyticsEvent req)) = true
    \/ cache_has (rewardsCacheDev s) (Request_DevKey req)
         (reward_type_of (Request_AnalyticsEvent req)) = true ->
    event_outcome s req now up
      (Ok {| Response_Reward := None |}, ensured s req)
| outcome_insert_failed :
    grant_attempt s req ->
    insert_reward up (rewardsCol s)
      (new_reward s req (reward_type_of (Request_AnalyticsEvent req)) now)
    = None ->
    event_outcome s req now up (Err Internal, ensured s req)
| outcome_granted cacheOrg cacheDev :
    grant_attempt s req ->
    up = true ->
    duplicate_key (rewardsCol s)
      (new_reward s req (reward_type_of (Request_AnalyticsEvent req)) now)
    = false ->
    cache_set (ensureKeyRewardCache (rewardsCacheOrg s) (Request_OrgKey req))
      (Request_OrgKey req) (reward_type_of (Request_AnalyticsEvent req))
    = Some cacheOrg ->
    cache_set (ensureKeyRewardCache (rewardsCacheDev s) (Request_DevKey req))
      (Request_DevKey req) (reward_type_of (Request_AnalyticsEvent req))
    = Some cacheDev ->
    event_outcome s req now up
      (Ok {| Response_Reward :=
               Some (toPbReward
                       (new_reward s req
                          (reward_type_of (Request_AnalyticsEvent req)) now)) |},
       with_caches
         (with_rewards s
            (rewardsCol s
             ++ [new_reward s req
                   (reward_type_of (Request_AnalyticsEvent req)) now]))
         cacheOrg cacheDev).

(** The unique indexes, read as a property of a collection: two
    positions holding the same type under the same non-empty key are
    one position. *)
Definition org_unique (col : list reward) : Prop :=
  forall (i j : nat) (r1 r2 : reward),
    col !! i = Some r1 -> col !! j = Some r2 ->
    reward_OrgKey r1 <> "" ->
    reward_OrgKey r1 = reward_OrgKey r2 ->
    reward_Type r1 = reward_Type r2 ->
    i = j.

Definition dev_unique (col : list reward) : Prop :=
  forall (i j : nat) (r1 r2 : reward),
    col !! i = Some r1 -> col !! j = Some r2 ->
    reward_DevKey r1 <> "" ->
    reward_DevKey r1 = reward_DevKey r2 ->
    reward_Type r1 = reward_Type r2 ->
    i = j.

(** Every record of the ledger has its pair marked in the cache of the
    dimension. *)
Definition org_cache_complete (s : Service) : Prop :=
  forall r, In r (rewardsCol s) ->
    cache_has (rewardsCacheOrg s) (reward_OrgKey r) (reward_Type r) = true.

Definition dev_cache_complete (s : Service) : Prop :=
  forall r, In r (rewardsCol s) ->
    cache_has (rewardsCacheDev s) (reward_DevKey r) (reward_Type r) = true.

(** Every record's developer key is the organization key of that record
    or of a record before it. *)
Definition dev_keys_seen (recs : list reward) : Prop :=
  forall l1 r l2, recs = l1 ++ r :: l2 ->
    exists r', In r' (l1 ++ [r]) /\ reward_OrgKey r' = reward_DevKey r.

(** The amounts of a list of rewards, and their total, are all within
    32 bits. *)
Definition rewarded_fits (l : list reward) : bool :=
  forallb (fun r => in_int32 (reward_amount r)) l
  && in_int32 (sum_Z (map reward_amount l)).

(** ** The query of a list request

    The comparison operator, the filter with the request's cursor and
    the sort direction, as [ListRewards] and [ListClaims] set them up
    for their first query. *)

Definition LR_comp (req : ListRewardsRequest) : string :=
  match LR_StartAt req with
  | Some _ => if LR_Ascending req then "$gt" else "$lt"
  | None => "$lt"
  end.

Definition LR_query_filter (req : ListRewardsRequest) : reward_filter :=
  match LR_StartAt req with
  | Some t => rf_set_created_at (LR_filter req) (LR_comp req, t)
  | None => LR_filter req
  end.

Definition LR_sort (req : ListRewardsRequest) : Z :=
  if LR_Ascending req then 1 else -1.

Definition LC_comp (req : ListClaimsRequest) : string :=
  match LC_StartAt req with
  | Some _ => if LC_Ascending req then "$gt" else "$lt"
  | None => "$lt"
  end.

Definition LC_query_filter (req : ListClaimsRequest) : claim_filter :=
  match LC_StartAt req with
  | Some t => cf_set_created_at (LC_filter req) (LC_comp req, t)
  | None => LC_filter req
  end.

Definition LC_sort (req : ListClaimsRequest) : Z :=
  if LC_Ascending req then 1 else -1.

(** Timestamps in the order of a direction. *)
Definition in_direction (ascending : bool) (a b : time) : Prop :=
  if ascending then a <= b else b <= a.

(** A timestamp strictly beyond a cursor in a direction. *)
Definition beyond (ascending : bool) (cursor x : time) : Prop :=
  if ascending then cursor < x else x < cursor.

(** ** Ascending pages from a cursor, for either ledger

    What [ListRewards] and [ListClaims] compute for a request that asks
    for ascending order and carries a cursor [t]. *)

Section AscendingPage.
Context {A : Type} (created_at : A -> time) (base : A -> bool).

Definition after_cursor (t : time) (a : A) : bool :=
  base a && (t <? created_at a).

Definition ascending_page (col : list A) (limit : Z) (t : time)
  : list A * option time :=
  let items := Find created_at (after_cursor t) 1 (limit_of limit) col in
  match last items with
  | None => (items, None)
  | Some lastRec =>
      match FindOne (after_cursor (created_at lastRec)) col with
      | Some _ => (items, Some (created_at lastRec))
      | None => (items, None)
      end
  end.

Fixpoint ascending_pages (fuel : nat) (col : list A) (limit : Z) (t : time)
  : option (list A) :=
  match fuel with
  | O => None
  | S fuel =>
      match ascending_page col limit t with
      | (items, Some t') =>
          match ascending_pages fuel col limit t' with
          | Some rest => Some (items ++ rest)
          | None => None
          end
      | (items, None) => Some items
      end
  end.
End AscendingPage.

(** * Properties *)

(** ** Aggregation *)

Lemma stage_match_org_key (k : string) (rs : list reward) :
  stage_match "org_key" (BString k) (map reward_bson rs)
  = map reward_bson (List.filter (fun r => String.eqb (reward_OrgKey r) k) rs).
Proof.
  induction rs as [|r rs IH]; [reflexivity|].
  cbn [map List.filter]. unfold stage_match in *. cbn [List.filter].
  rewrite IH.
  change (doc_get (reward_bson r) "org_key") with (Some (BString (reward_OrgKey r))).
  cbn [bval_eqb]. destruct (String.eqb (reward_OrgKey r) k); reflexivity.
Qed.

Lemma sum_field_amount_rewards (rs : list reward) (a : Z * bool) :
  fold_left (fun a d => sum_step a (doc_get d "amount")) (map reward_bson rs) a = a.
Proof.
  revert a. induction rs as [|r rs IH]; intros a; [reflexivity|].
  cbn [map fold_left].
  change (doc_get (reward_bson r) "amount") with (@None bval).
  cbn [sum_step]. apply IH.
Qed.

(** What [totalClaimed] returns depends on the rewards collection only:
    zero when the organization has a Reward record, an error when not. *)
Lemma totalClaimed_eq (s : Service) (k : string) :
  totalClaimed s k
  = match org_rewards s k with
    | [] => Err "no total claimed calculation found"
    | _ :: _ => Ok 0
    end.
Proof.
  unfold totalClaimed, org_rewards. rewrite stage_match_org_key.
  destruct (List.filter _ (rewardsCol s)) as [|r rs]; [reflexivity|].
  unfold stage_group_sum, sum_field.
  rewrite sum_field_amount_rewards. reflexivity.
Qed.

Lemma totalClaimed_with_claims (s : Service) (cs : list claim) (k : string) :
  totalClaimed (with_claims s cs) k = totalClaimed s k.
Proof. reflexivity. Qed.

Lemma totalRewarded_with_claims (s : Service) (cs : list claim) (k : string) :
  totalRewarded (with_claims s cs) k = totalRewarded s k.
Proof. reflexivity. Qed.

Lemma totalRewarded_none (s : Service) (k : string) :
  org_rewards s k = [] ->
  totalRewarded s k = Err "no total rewarded calculation found".
Proof.
  unfold totalRewarded, org_rewards. rewrite stage_match_org_key.
  intros ->. reflexivity.
Qed.

Lemma sum_field_amt (rs : list reward) (a : Z) :
  Forall (fun r => in_int32 (reward_amount r) = true) rs ->
  fold_left (fun a d => sum_step a (doc_get d "amt"))
    (stage_project_multiply "amt" "factor" "base_atto_fil_reward"
       (map reward_bson rs)) (a, false)
  = (a + sum_Z (map reward_amount rs), false).
Proof.
  intros H. revert a. induction H as [|r rs Hr _ IH]; intros a.
  - cbn. f_equal. lia.
  - cbn [map stage_project_multiply fold_left].
    change (doc_get (reward_bson r) "factor") with (Some (BInt32 (reward_Factor r))).
    change (doc_get (reward_bson r) "base_atto_fil_reward")
      with (Some (BInt32 (reward_BaseAttoFILReward r))).
    cbn [bson_multiply]. unfold int_or_long.
    unfold reward_amount in Hr. rewrite Hr.
    change (doc_get [("amt", BInt32 (reward_Factor r * reward_BaseAttoFILReward r))] "amt")
      with (Some (BInt32 (reward_Factor r * reward_BaseAttoFILReward r))).
    cbn [sum_step fst snd].
    unfold stage_project_multiply in IH. rewrite IH.
    cbn [sum_Z]. unfold reward_amount. f_equal. lia.
Qed.

(** When the organization has a Reward record and neither a product nor
    the total leaves the int32 range, [totalRewarded] returns the sum of
    factor times base amount over its records. *)
Lemma totalRewarded_sum (s : Service) (k : string) :
  org_rewards s k <> [] ->
  Forall (fun r => in_int32 (reward_amount r) = true) (org_rewards s k) ->
  in_int32 (ledger_rewarded s k) = true ->
  totalRewarded s k = Ok (ledger_rewarded s k).
Proof.
  unfold totalRewarded, ledger_rewarded, org_rewards.
  rewrite stage_match_org_key.
  destruct (List.filter _ (rewardsCol s)) as [|r rs] eqn:E; [congruence|].
  intros _ Hall Htot.
  unfold stage_group_sum.
  cbn [map stage_project_multiply].
  change (?d :: map ?f (map reward_bson rs))
    with (stage_project_multiply "amt" "factor" "base_atto_fil_reward"
            (map reward_bson (r :: rs))).
  unfold sum_field. rewrite (sum_field_amt (r :: rs) 0 Hall).
  unfold sum_result. cbn [fst snd]. unfold int_or_long.
  rewrite Z.add_0_l, Htot. reflexivity.
Qed.

(** C1 (rewarded and claimed totals). The claimed total the service
    computes is not the sum of the organization's Claim records:
    [totalClaimed] aggregates over the rewards collection, whose
    documents have no amount. With one reward of 2 x 100 and one claim
    of 50 in the ledgers the service reports claimed 0 and available
    200, where the ledgers hold claimed 50 and available 150. *)
Theorem C1_claimed_total_ignores_claims :
  ledger_rewarded one_reward_one_claim "org1" = 200
  /\ ledger_claimed one_reward_one_claim "org1" = 50
  /\ totalRewarded one_reward_one_claim "org1" = Ok 200
  /\ totalClaimed one_reward_one_claim "org1" = Ok 0
  /\ Balance one_reward_one_claim "org1"
     = Ok {| Rewarded := 200; Claimed := 0; Available := 200 |}.
Proof. repeat split; vm_compute; reflexivity. Qed.

(** C2, as stated, fails on the store with no records: the organization
    has no Reward record, yet the rewarded aggregation does not return
    zero and [Balance] fails. *)
Lemma C2_no_rows_counterexample :
  org_rewards empty_store "org1" = []
  /\ totalRewarded empty_store "org1" <> Ok 0
  /\ Balance empty_store "org1" = Err Internal.
Proof. repeat split; vm_compute; congruence. Qed.

(** C2 (amended). For an organization key with no Reward record the
    rewarded aggregation yields no row and [totalRewarded] reports an
    error; [Balance] and [Claim] then fail with an internal error, and
    [Claim] writes nothing. *)
Theorem C2_no_rewards_is_an_error (s : Service) (k : string) :
  org_rewards s k = [] ->
  totalRewarded s k = Err "no total rewarded calculation found"
  /\ Balance s k = Err Internal
  /\ forall req now up,
       ClaimRequest_OrgKey req = k -> Claim s req now up = (Err Internal, s).
Proof.
  intros H. pose proof (totalRewarded_none s k H) as E.
  split; [exact E|]. split.
  - unfold Balance. rewrite E. reflexivity.
  - intros req now up Hk. unfold Claim. rewrite Hk, E. reflexivity.
Qed.

(** The store with no records, organization org1. *)
Lemma C2_no_rewards_is_an_error_witness :
  org_rewards empty_store "org1" = []
  /\ (totalRewarded empty_store "org1" = Err "no total rewarded calculation found"
      /\ Balance empty_store "org1" = Err Internal
      /\ forall req now up,
           ClaimRequest_OrgKey req = "org1" ->
           Claim empty_store req now up = (Err Internal, empty_store)).
Proof.
  split; [reflexivity|].
  apply (C2_no_rewards_is_an_error empty_store "org1"). reflexivity.
Defined.

(** ** Claim *)

(** A request within the computed balance is accepted as it is, whatever
    its key and the sign of its amount, as long as the store takes the
    insert. *)
Lemma Claim_accepts (s : Service) (req : ClaimRequest) (now : time) (r c : Z) :
  totalRewarded s (ClaimRequest_OrgKey req) = Ok r ->
  totalClaimed s (ClaimRequest_OrgKey req) = Ok c ->
  ClaimRequest_Amount req <= sub32 r c ->
  Claim s req now true
  = (Ok tt, with_claims s (claimsCol s ++ [new_claim req now])).
Proof.
  intros Hr Hc Hle. unfold Claim. rewrite Hr, Hc.
  destruct (Z.ltb_spec (sub32 r c) (ClaimRequest_Amount req)); [lia|].
  reflexivity.
Qed.



(** C10 (no validation beyond the balance comparison). A negative claim
    is accepted and written, but it does not raise the balance the
    service computes afterwards: [totalClaimed] does not read the claims
    collection, so [Balance] answers the same before and after, while
    the ledgers' own available amount went from 200 to 250. *)
Theorem C10_negative_claim_leaves_balance :
  let req := claim_request "org1" "alice" (-50) in
  let s' := snd (Claim one_reward req 30 true) in
  fst (Claim one_reward req 30 true) = Ok tt
  /\ claimsCol s' = [mk_claim "org1" "alice" (-50) 30]
  /\ Balance one_reward "org1"
     = Ok {| Rewarded := 200; Claimed := 0; Available := 200 |}
  /\ Balance s' "org1"
     = Ok {| Rewarded := 200; Claimed := 0; Available := 200 |}
  /\ ledger_available one_reward "org1" = 200
  /\ ledger_available s' "org1" = 250.
Proof. repeat split; vm_compute; reflexivity. Qed.

(** ** The caches *)

Lemma cache_has_ensure (c : cache) (k k' : string) (t : RewardType) :
  cache_has (ensureKeyRewardCache c k) k' t = cache_has c k' t.
Proof.
  unfold ensureKeyRewardCache, cache_has.
  destruct (c !! k) eqn:E; [reflexivity|].
  destruct (decide (k = k')) as [<-|Hne].
  - rewrite lookup_insert_eq, E. apply bool_decide_eq_false, not_elem_of_empty.
  - rewrite lookup_insert_ne by done. reflexivity.
Qed.

Lemma cache_set_ensure (c : cache) (k : string) (t : RewardType) :
  exists c', cache_set (ensureKeyRewardCache c k) k t = Some c'.
Proof.
  unfold ensureKeyRewardCache, cache_set.
  destruct (c !! k) eqn:E.
  - rewrite E. eauto.
  - rewrite lookup_insert_eq. eauto.
Qed.

Lemma cache_has_set (c c' : cache) (k k' : string) (t t' : RewardType) :
  cache_set c k t = Some c' ->
  cache_has c' k' t' = bool_decide (k' = k /\ t' = t) || cache_has c k' t'.
Proof.
  unfold cache_set, cache_has. destruct (c !! k) as [types|] eqn:E; [|done].
  intros [= <-].
  destruct (decide (k' = k)) as [->|Hne].
  - rewrite lookup_insert_eq, E. rewrite <- bool_decide_or.
    apply bool_decide_ext.
    rewrite elem_of_union, elem_of_singleton. tauto.
  - rewrite lookup_insert_ne by done.
    rewrite (bool_decide_eq_false_2 (k' = k /\ t' = t)) by (intros [? _]; done).
    reflexivity.
Qed.

Lemma cache_has_set_same (c c' : cache) (k : string) (t : RewardType) :
  cache_set c k t = Some c' -> cache_has c' k t = true.
Proof.
  intros H. rewrite (cache_has_set _ _ _ _ _ _ H).
  rewrite bool_decide_eq_true_2; done.
Qed.

(** The seeding loop never marks a pair in the developer cache. *)
Lemma populate_dev_unmarked (recs : list reward) (co cd co' cd' : cache) :
  populate recs co cd = Ok (co', cd') -> marks_equal cd' cd.
Proof.
  revert co cd. induction recs as [|rec rest IH]; intros co cd H.
  - injection H as <- <-. intros k t. reflexivity.
  - cbn [populate] in H.
    destruct (cache_set _ (reward_OrgKey rec) _) as [co1|]; [|discriminate].
    destruct (cache_set co1 (reward_DevKey rec) _) as [co2|]; [|discriminate].
    specialize (IH _ _ H). intros k t. rewrite IH. apply cache_has_ensure.
Qed.

(** A service that started holds the configured base amount and the
    collections it was started on. *)
Lemma New_fields rewards claims config s :
  New rewards claims config = Ok s ->
  baseAttoFILReward s = Config_BaseAttoFILReward config
  /\ rewardsCol s = rewards /\ claimsCol s = claims.
Proof.
  unfold New. destruct (populate rewards ∅ ∅) as [[co cd]|e|]; [|discriminate..].
  intros [= <-]. auto.
Qed.

(** ** The outcomes of [ProcessAnalyticsEvent] *)

Lemma PAE_rejected s req now up :
  Request_OrgKey req = "" \/ Request_AnalyticsEvent req = EVENT_UNSPECIFIED ->
  ProcessAnalyticsEvent s req now up = (Err InvalidArgument, s).
Proof.
  unfold ProcessAnalyticsEvent. intros [H|H]; rewrite H.
  - reflexivity.
  - destruct (String.eqb _ _); reflexivity.
Qed.

Lemma PAE_past_checks s req now up :
  Request_OrgKey req <> "" ->
  Request_AnalyticsEvent req <> EVENT_UNSPECIFIED ->
  ProcessAnalyticsEvent s req now up
  = let t := reward_type_of (Request_AnalyticsEvent req) in
    if bool_decide (t = REWARD_TYPE_UNSPECIFIED) then
      (Ok {| Response_Reward := None |}, s)
    else if cache_has (rewardsCacheOrg s) (Request_OrgKey req) t then
      (Ok {| Response_Reward := None |}, ensured s req)
    else if cache_has (rewardsCacheDev s) (Request_DevKey req) t then
      (Ok {| Response_Reward := None |}, ensured s req)
    else
      match insert_reward up (rewardsCol s) (new_reward s req t now) with
      | None => (Err Internal, ensured s req)
      | Some col =>
          match cache_set (rewardsCacheOrg (ensured s req)) (Request_OrgKey req) t,
                cache_set (rewardsCacheDev (ensured s req)) (Request_DevKey req) t with
          | Some cacheOrg, Some cacheDev =>
              (Ok {| Response_Reward := Some (toPbReward (new_reward s req t now)) |},
               with_caches (with_rewards (ensured s req) col) cacheOrg cacheDev)
          | _, _ => (Panic, s)
          end
      end.
Proof.
  intros Hk He. unfold ProcessAnalyticsEvent.
  apply String.eqb_neq in Hk. rewrite Hk.
  rewrite (bool_decide_eq_false_2 _ He). cbv zeta.
  destruct (bool_decide _); [reflexivity|].
  fold (ensured s req). cbn [rewardsCacheOrg rewardsCacheDev ensured with_caches].
  rewrite !cache_has_ensure.
  destruct (cache_has (rewardsCacheOrg s) _ _); [reflexivity|].
  destruct (cache_has (rewardsCacheDev s) _ _); [reflexivity|].
  change (rewardsCol (with_caches s _ _)) with (rewardsCol s).
  change (new_reward (with_caches s _ _) req) with (new_reward s req).
  destruct (insert_reward _ _ _); [|reflexivity].
  unfold ensured.
  cbn [rewardsCacheOrg rewardsCacheDev with_rewards with_caches].
  destruct (cache_set_ensure (rewardsCacheOrg s) (Request_OrgKey req)
              (reward_type_of (Request_AnalyticsEvent req))) as [co ->].
  destruct (cache_set_ensure (rewardsCacheDev s) (Request_DevKey req)
              (reward_type_of (Request_AnalyticsEvent req))) as [cd ->].
  reflexivity.
Qed.

Lemma marks_equal_ensure (c : cache) (k : string) :
  marks_equal (ensureKeyRewardCache c k) c.
Proof. intros k' t. apply cache_has_ensure. Qed.

Lemma reward_type_of_factor (e : Event) :
  reward_type_of e <> REWARD_TYPE_UNSPECIFIED ->
  rewardTypeMeta (reward_type_of e)
  = Some {| factor := factor (meta_of (reward_type_of e)) |}.
Proof. destruct e; cbn; intros H; try reflexivity; contradiction. Qed.

(** Granting keeps both caches within the ledger. *)
Lemma grant_preserves_sound s req now up :
  org_cache_sound s -> dev_cache_sound s ->
  org_cache_sound (snd (ProcessAnalyticsEvent s req now up))
  /\ dev_cache_sound (snd (ProcessAnalyticsEvent s req now up)).
Proof.
  intros Ho Hd.
  destruct (decide (Request_OrgKey req = "")) as [Hk|Hk];
    [rewrite PAE_rejected by auto; auto|].
  destruct (decide (Request_AnalyticsEvent req = EVENT_UNSPECIFIED)) as [He|He];
    [rewrite PAE_rejected by auto; auto|].
  rewrite (PAE_past_checks s req now up Hk He). cbv zeta.
  assert (Hens : org_cache_sound (ensured s req) /\ dev_cache_sound (ensured s req)).
  { split; intros k t; cbn; rewrite cache_has_ensure; auto. }
  destruct (bool_decide _); [auto|].
  destruct (cache_has (rewardsCacheOrg s) _ _); [exact Hens|].
  destruct (cache_has (rewardsCacheDev s) _ _); [exact Hens|].
  unfold insert_reward.
  destruct (up && negb _); [|exact Hens].
  destruct (cache_set (rewardsCacheOrg _) _ _) as [co|] eqn:Eo; [|auto].
  destruct (cache_set (rewardsCacheDev _) _ _) as [cd|] eqn:Ed; [|auto].
  cbn [snd]. destruct Hens as [Ho' Hd'].
  split; intros k t; cbn [rewardsCacheOrg rewardsCacheDev rewardsCol
                          with_caches with_rewards ensured].
  - rewrite (cache_has_set _ _ _ _ _ _ Eo). intros H.
    apply orb_prop in H as [H|H].
    + apply bool_decide_eq_true in H as [-> ->].
      eexists. split; [apply in_or_app; right; left; reflexivity|]. done.
    + destruct (Ho' k t H) as (r & Hin & ?).
      exists r. split; [apply in_or_app; left; exact Hin|]. done.
  - rewrite (cache_has_set _ _ _ _ _ _ Ed). intros H.
    apply orb_prop in H as [H|H].
    + apply bool_decide_eq_true in H as [-> ->].
      eexists. split; [apply in_or_app; right; left; reflexivity|]. done.
    + destruct (Hd' k t H) as (r & Hin & ?).
      exists r. split; [apply in_or_app; left; exact Hin|]. done.
Qed.

(** C7 (append and cache update go together). For a request that
    reaches the ledger append: when the append fails the call returns an
    internal error, the ledger is unchanged, neither pair of the request
    is marked and both caches mark exactly the pairs they marked before;
    when it succeeds the record is
    appended, it is returned, and both the organization pair and the
    developer pair are marked. *)
Theorem C7_append_and_marks_go_together (s : Service)
    (req : ProcessAnalyticsEventRequest) (now : time) (up : bool) :
  grant_attempt s req ->
  let t := reward_type_of (Request_AnalyticsEvent req) in
  let r := new_reward s req t now in
  let res := fst (ProcessAnalyticsEvent s req now up) in
  let s' := snd (ProcessAnalyticsEvent s req now up) in
  match insert_reward up (rewardsCol s) r with
  | None =>
      res = Err Internal
      /\ rewardsCol s' = rewardsCol s
      /\ cache_has (rewardsCacheOrg s') (Request_OrgKey req) t = false
      /\ cache_has (rewardsCacheDev s') (Request_DevKey req) t = false
      /\ marks_equal (rewardsCacheOrg s') (rewardsCacheOrg s)
      /\ marks_equal (rewardsCacheDev s') (rewardsCacheDev s)
  | Some col =>
      res = Ok {| Response_Reward := Some (toPbReward r) |}
      /\ col = rewardsCol s ++ [r]
      /\ rewardsCol s' = rewardsCol s ++ [r]
      /\ cache_has (rewardsCacheOrg s') (Request_OrgKey req) t = true
      /\ cache_has (rewardsCacheDev s') (Request_DevKey req) t = true
  end.
Proof.
  intros (Hk & He & Ht & Hco & Hcd). cbv zeta.
  rewrite (PAE_past_checks s req now up Hk He). cbv zeta.
  rewrite (bool_decide_eq_false_2 _ Ht), Hco, Hcd.
  destruct (insert_reward up (rewardsCol s) _) as [col|] eqn:Ei.
  - destruct (cache_set (rewardsCacheOrg _) _ _) as [co|] eqn:Eo.
    2:{ destruct (cache_set_ensure (rewardsCacheOrg s) (Request_OrgKey req)
                    (reward_type_of (Request_AnalyticsEvent req))) as [c' Hc'].
        cbn in Eo. congruence. }
    destruct (cache_set (rewardsCacheDev _) _ _) as [cd|] eqn:Ed.
    2:{ destruct (cache_set_ensure (rewardsCacheDev s) (Request_DevKey req)
                    (reward_type_of (Request_AnalyticsEvent req))) as [c' Hc'].
        cbn in Ed. congruence. }
    cbn [fst snd rewardsCol rewardsCacheOrg rewardsCacheDev with_caches with_rewards].
    unfold insert_reward in Ei.
    destruct (up && negb _); [|discriminate]. injection Ei as <-.
    repeat split; eauto using cache_has_set_same.
  - cbn [fst snd]. split; [reflexivity|]. split; [reflexivity|].
    split; [cbn; rewrite cache_has_ensure; exact Hco|].
    split; [cbn; rewrite cache_has_ensure; exact Hcd|].
    split; cbn; apply marks_equal_ensure.
Qed.

(** A first-bucket event on the store with no records, while the store
    refuses the insert. *)
Lemma C7_append_and_marks_go_together_witness :
  grant_attempt empty_store (event_request "org1" "dev1" EVENT_BUCKET_CREATED)
  /\ fst (ProcessAnalyticsEvent empty_store
            (event_request "org1" "dev1" EVENT_BUCKET_CREATED) 7 false)
     = Err Internal.
Proof.
  assert (H : grant_attempt empty_store
                (event_request "org1" "dev1" EVENT_BUCKET_CREATED)).
  { repeat split; cbn; congruence. }
  split; [exact H|].
  exact (proj1 (C7_append_and_marks_go_together empty_store
                  (event_request "org1" "dev1" EVENT_BUCKET_CREATED) 7 false H)).
Defined.

(** C8, as stated, fails on two requests whose event maps to no reward
    type: one with an empty organization key, and one whose event is the
    unspecified one. Both are answered with invalid-argument. *)
Lemma C8_rejected_requests_counterexample :
  reward_type_of EVENT_FIL_CLAIM = REWARD_TYPE_UNSPECIFIED
  /\ fst (ProcessAnalyticsEvent empty_store
            (event_request "" "dev1" EVENT_FIL_CLAIM) 7 true)
     = Err InvalidArgument
  /\ reward_type_of EVENT_UNSPECIFIED = REWARD_TYPE_UNSPECIFIED
  /\ fst (ProcessAnalyticsEvent empty_store
            (event_request "org1" "dev1" EVENT_UNSPECIFIED) 7 true)
     = Err InvalidArgument.
Proof. repeat split. Qed.

(** C8 (amended). For a request with a non-empty organization key and a
    specified event: when the event maps to no reward type, or the
    organization pair or the developer pair is already marked, the call
    returns the empty response without error and appends no record. *)
Theorem C8_no_reward_path (s : Service) (req : ProcessAnalyticsEventRequest)
    (now : time) (up : bool) :
  Request_OrgKey req <> "" ->
  Request_AnalyticsEvent req <> EVENT_UNSPECIFIED ->
  let t := reward_type_of (Request_AnalyticsEvent req) in
  t = REWARD_TYPE_UNSPECIFIED
  \/ cache_has (rewardsCacheOrg s) (Request_OrgKey req) t = true
  \/ cache_has (rewardsCacheDev s) (Request_DevKey req) t = true ->
  fst (ProcessAnalyticsEvent s req now up) = Ok {| Response_Reward := None |}
  /\ rewardsCol (snd (ProcessAnalyticsEvent s req now up)) = rewardsCol s
  /\ claimsCol (snd (ProcessAnalyticsEvent s req now up)) = claimsCol s.
Proof.
  intros Hk He t H. rewrite (PAE_past_checks s req now up Hk He). cbv zeta.
  fold t. destruct (bool_decide_reflect (t = REWARD_TYPE_UNSPECIFIED)) as [Ht|Ht];
    [auto|].
  destruct (cache_has (rewardsCacheOrg s) _ _) eqn:Eo; [auto|].
  destruct (cache_has (rewardsCacheDev s) _ _) eqn:Ed; [auto|].
  destruct H as [H|[H|H]]; congruence.
Qed.

(** An event that maps to no reward type, for organization org1. *)
Lemma C8_no_reward_path_witness :
  fst (ProcessAnalyticsEvent empty_store
         (event_request "org1" "dev1" EVENT_FIL_CLAIM) 7 true)
  = Ok {| Response_Reward := None |}
  /\ rewardsCol (snd (ProcessAnalyticsEvent empty_store
                        (event_request "org1" "dev1" EVENT_FIL_CLAIM) 7 true))
     = rewardsCol empty_store
  /\ claimsCol (snd (ProcessAnalyticsEvent empty_store
                       (event_request "org1" "dev1" EVENT_FIL_CLAIM) 7 true))
     = claimsCol empty_store.
Proof.
  apply (C8_no_reward_path empty_store
           (event_request "org1" "dev1" EVENT_FIL_CLAIM) 7 true).
  - cbn. congruence.
  - cbn. congruence.
  - left. reflexivity.
Defined.

(** C9 (what a granted record stores). Whenever the call returns a
    reward, exactly one record was appended to the ledger and the
    response carries that record field by field: the request's
    organization key and developer key, the reward type of the event,
    the factor the static table gives for that type, and the service's
    configured base amount, in the record and in the response alike;
    the table gives factor 2 to the first-bucket-created type. *)
Theorem C9_granted_record (s : Service) (req : ProcessAnalyticsEventRequest)
    (now : time) (up : bool) (granted : pb_Reward) :
  fst (ProcessAnalyticsEvent s req now up)
  = Ok {| Response_Reward := Some granted |} ->
  (exists r,
     rewardsCol (snd (ProcessAnalyticsEvent s req now up)) = rewardsCol s ++ [r]
     /\ granted = toPbReward r
     /\ reward_OrgKey r = Request_OrgKey req
     /\ reward_DevKey r = Request_DevKey req
     /\ reward_Type r = reward_type_of (Request_AnalyticsEvent req)
     /\ rewardTypeMeta (reward_Type r) = Some {| factor := reward_Factor r |}
     /\ reward_BaseAttoFILReward r = baseAttoFILReward s
     /\ pb_Reward_OrgKey granted = reward_OrgKey r
     /\ pb_Reward_DevKey granted = reward_DevKey r
     /\ pb_Reward_Type granted = reward_Type r
     /\ pb_Reward_Factor granted = reward_Factor r
     /\ pb_Reward_BaseAttoFilReward granted = reward_BaseAttoFILReward r
     /\ pb_Reward_CreatedAt granted = reward_CreatedAt r)
  /\ (pb_Reward_OrgKey granted = Request_OrgKey req
      /\ pb_Reward_DevKey granted = Request_DevKey req
      /\ pb_Reward_Type granted = reward_type_of (Request_AnalyticsEvent req)
      /\ rewardTypeMeta (pb_Reward_Type granted)
         = Some {| factor := pb_Reward_Factor granted |}
      /\ pb_Reward_BaseAttoFilReward granted = baseAttoFILReward s)
  /\ rewardTypeMeta REWARD_TYPE_FIRST_BUCKET_CREATED = Some {| factor := 2 |}.
Proof.
  intros H. split; [|split; [|reflexivity]];
  (destruct (decide (Request_OrgKey req = "")) as [Hk|Hk];
    [rewrite PAE_rejected in H by auto; discriminate H|];
  destruct (decide (Request_AnalyticsEvent req = EVENT_UNSPECIFIED)) as [He|He];
    [rewrite PAE_rejected in H by auto; discriminate H|];
  rewrite (PAE_past_checks s req now up Hk He) in *; cbv zeta in *;
  destruct (bool_decide_reflect
              (reward_type_of (Request_AnalyticsEvent req) = REWARD_TYPE_UNSPECIFIED))
    as [Ht|Ht]; [discriminate H|];
  destruct (cache_has (rewardsCacheOrg s) _ _); [discriminate H|];
  destruct (cache_has (rewardsCacheDev s) _ _); [discriminate H|];
  unfold insert_reward in *;
  destruct (up && negb _); [|discriminate H];
  destruct (cache_set (rewardsCacheOrg _) _ _); [|discriminate H];
  destruct (cache_set (rewardsCacheDev _) _ _); [|discriminate H];
  cbn [fst snd] in *; injection H as <-;
  pose proof (reward_type_of_factor _ Ht) as Hf).
  - eexists. split; [reflexivity|]. repeat split. exact Hf.
  - repeat split. exact Hf.
Qed.

(** The first-bucket event of organization org1 on the store with no
    records, base amount 100: the record and the response have factor 2
    and base 100. *)
Lemma C9_granted_record_witness :
  let req := event_request "org1" "dev1" EVENT_BUCKET_CREATED in
  let granted :=
    {| pb_Reward_OrgKey := "org1"; pb_Reward_DevKey := "dev1";
       pb_Reward_Type := REWARD_TYPE_FIRST_BUCKET_CREATED;
       pb_Reward_Factor := 2; pb_Reward_BaseAttoFilReward := 100;
       pb_Reward_CreatedAt := 7 |} in
  fst (ProcessAnalyticsEvent empty_store req 7 true)
  = Ok {| Response_Reward := Some granted |}
  /\ (exists r,
        rewardsCol (snd (ProcessAnalyticsEvent empty_store req 7 true))
        = rewardsCol empty_store ++ [r]
        /\ granted = toPbReward r
        /\ pb_Reward_Factor granted = reward_Factor r
        /\ pb_Reward_BaseAttoFilReward granted = reward_BaseAttoFILReward r)
  /\ rewardTypeMeta (pb_Reward_Type granted)
     = Some {| factor := pb_Reward_Factor granted |}
  /\ pb_Reward_BaseAttoFilReward granted = baseAttoFILReward empty_store.
Proof.
  cbv zeta. split; [reflexivity|].
  destruct (C9_granted_record empty_store
              (event_request "org1" "dev1" EVENT_BUCKET_CREATED) 7 true _ eq_refl)
    as ((r & Hcol & Hg & _ & _ & _ & _ & _ & _ & _ & _ & Hfac & Hbase & _)
        & (_ & _ & _ & Hmeta & Hb) & _).
  split; [exists r; auto|]. split; assumption.
Defined.

(** ** Sorting by creation time *)

Section SortFacts.
Context {A : Type} (key : A -> time).

Local Abbreviation first_of sort := (fun x y => goes_first key sort x y = true).
Local Abbreviation newer := (fun x y : A => key y < key x).

Lemma goes_first_total sort x y :
  goes_first key sort x y = false -> goes_first key sort y x = true.
Proof.
  unfold goes_first. destruct (sort =? 1);
    rewrite Z.leb_gt, Z.leb_le; lia.
Qed.

Lemma goes_first_trans sort x y z :
  goes_first key sort x y = true -> goes_first key sort y z = true ->
  goes_first key sort x z = true.
Proof.
  unfold goes_first. destruct (sort =? 1); rewrite !Z.leb_le; lia.
Qed.

Lemma sort_insert_In sort x l y :
  In y (sort_insert key sort x l) <-> y = x \/ In y l.
Proof.
  induction l as [|z l IH]; cbn.
  - intuition.
  - destruct (goes_first key sort x z); cbn; rewrite ?IH; intuition.
Qed.

Lemma sort_insert_first sort x l :
  (forall z, In z l -> goes_first key sort x z = true) ->
  sort_insert key sort x l = x :: l.
Proof.
  destruct l as [|z l]; [reflexivity|]. intros H. cbn.
  rewrite (H z) by (left; reflexivity). reflexivity.
Qed.

Lemma sort_insert_sorted sort x l :
  StronglySorted (first_of sort) l ->
  StronglySorted (first_of sort) (sort_insert key sort x l).
Proof.
  induction 1 as [|z l Hl IH Hz]; cbn.
  - repeat constructor.
  - destruct (goes_first key sort x z) eqn:E.
    + constructor; [constructor; assumption|].
      constructor; [exact E|].
      revert Hz. apply List.Forall_impl. intros w Hw.
      eapply goes_first_trans; eassumption.
    + constructor; [exact IH|].
      apply List.Forall_forall. intros w Hw.
      apply sort_insert_In in Hw as [->|Hw].
      * apply goes_first_total, E.
      * rewrite List.Forall_forall in Hz. auto.
Qed.

Lemma sort_sorted sort l :
  StronglySorted (first_of sort) (sort_by_created_at key sort l).
Proof.
  induction l as [|x l IH]; cbn; [constructor|].
  apply sort_insert_sorted, IH.
Qed.

Lemma sort_insert_perm sort x l :
  Permutation (sort_insert key sort x l) (x :: l).
Proof.
  induction l as [|z l IH]; cbn; [reflexivity|].
  destruct (goes_first key sort x z); [reflexivity|].
  rewrite IH. apply perm_swap.
Qed.

Lemma sort_perm sort l : Permutation (sort_by_created_at key sort l) l.
Proof.
  induction l as [|x l IH]; cbn; [reflexivity|].
  rewrite sort_insert_perm. constructor. exact IH.
Qed.

Lemma filter_sort_insert (q : A -> bool) sort x l :
  StronglySorted (first_of sort) l ->
  List.filter q (sort_insert key sort x l)
  = if q x then sort_insert key sort x (List.filter q l) else List.filter q l.
Proof.
  induction 1 as [|z l Hl IH Hz]; cbn.
  - destruct (q x); reflexivity.
  - destruct (goes_first key sort x z) eqn:E.
    + cbn [List.filter]. destruct (q x) eqn:Ex; [|reflexivity].
      symmetry. apply sort_insert_first.
      intros w Hw. rewrite List.Forall_forall in Hz.
      destruct (q z); [destruct Hw as [<-|Hw]|]; auto;
        apply List.filter_In in Hw as [Hw _];
        eapply goes_first_trans; eauto.
    + cbn [List.filter]. rewrite IH.
      destruct (q z), (q x); cbn; rewrite ?E; reflexivity.
Qed.

Lemma filter_sort (q : A -> bool) sort l :
  List.filter q (sort_by_created_at key sort l)
  = sort_by_created_at key sort (List.filter q l).
Proof.
  induction l as [|x l IH]; cbn; [reflexivity|].
  rewrite filter_sort_insert by apply sort_sorted.
  rewrite IH. destruct (q x); reflexivity.
Qed.

Lemma descending_strict l :
  StronglySorted (first_of (-1)) l -> NoDup (map key l) ->
  StronglySorted newer l.
Proof.
  induction 1 as [|x l Hl IH Hx]; intros Hnd; [constructor|].
  cbn in Hnd. apply NoDup_cons in Hnd as [Hx' Hnd].
  constructor; [auto|].
  apply List.Forall_forall. intros w Hw.
  rewrite List.Forall_forall in Hx. specialize (Hx w Hw).
  unfold goes_first in Hx. cbn in Hx. apply Z.leb_le in Hx.
  assert (key w <> key x).
  { intros E. apply Hx'. rewrite <- E. apply list_elem_of_In, in_map, Hw. }
  lia.
Qed.

Lemma strict_filter (q : A -> bool) l :
  StronglySorted newer l -> StronglySorted newer (List.filter q l).
Proof.
  induction 1 as [|x l Hl IH Hx]; cbn; [constructor|].
  destruct (q x); [|exact IH]. constructor; [exact IH|].
  apply List.Forall_forall. intros w Hw.
  apply List.filter_In in Hw as [Hw _].
  rewrite List.Forall_forall in Hx. auto.
Qed.

Lemma filter_none (q : A -> bool) l :
  (forall x, In x l -> q x = false) -> List.filter q l = [].
Proof.
  induction l as [|x l IH]; intros H; cbn; [reflexivity|].
  rewrite (H x) by (left; reflexivity).
  apply IH. intros y Hy. apply H. right. exact Hy.
Qed.

Lemma filter_all (q : A -> bool) l :
  (forall x, In x l -> q x = true) -> List.filter q l = l.
Proof.
  induction l as [|x l IH]; intros H; cbn; [reflexivity|].
  rewrite (H x) by (left; reflexivity). f_equal.
  apply IH. intros y Hy. apply H. right. exact Hy.
Qed.

(** In a list with strictly decreasing timestamps, the records older
    than the last record of a prefix are the rest of the list. *)
Lemma older_than_last_of_prefix (P Q : list A) (a : A) :
  StronglySorted newer (P ++ Q) -> last P = Some a ->
  List.filter (fun x => key x <? key a) (P ++ Q) = Q.
Proof.
  intros Hs Hl. apply last_Some in Hl as [P' ->].
  apply StronglySorted_app in Hs as (Hpq & Hp & _).
  apply StronglySorted_app in Hp as (Hp & _ & _).
  rewrite List.filter_app, filter_none, filter_all; [reflexivity| |].
  - intros x Hx. apply Z.ltb_lt.
    apply (Hpq a x); [|apply list_elem_of_In, Hx].
    apply list_elem_of_In, in_or_app. right. left. reflexivity.
  - intros x Hx. apply Z.ltb_ge. apply in_app_or in Hx as [Hx|[<-|[]]]; [|lia].
    apply Z.lt_le_incl, (Hp x a); [apply list_elem_of_In, Hx|].
    apply list_elem_of_In. left. reflexivity.
Qed.
End SortFacts.

(** ** Descending pages *)

Lemma filter_andb {A : Type} (f g : A -> bool) (l : list A) :
  List.filter (fun a => f a && g a) l = List.filter g (List.filter f l).
Proof.
  induction l as [|x l IH]; cbn; [reflexivity|].
  destruct (f x); cbn; [destruct (g x)|]; rewrite IH; reflexivity.
Qed.

Lemma find_none_filter {A : Type} (f : A -> bool) (l : list A) :
  List.find f l = None <-> List.filter f l = [].
Proof.
  induction l as [|x l IH]; cbn; [tauto|].
  destruct (f x); [split; discriminate|exact IH].
Qed.

Lemma find_ext {A : Type} (f g : A -> bool) (l : list A) :
  (forall a, f a = g a) -> List.find f l = List.find g l.
Proof.
  intros H. induction l as [|x l IH]; cbn; [reflexivity|].
  rewrite H, IH. reflexivity.
Qed.

Lemma Find_ext {A : Type} (key : A -> time) (f g : A -> bool) sort limit col :
  (forall a, f a = g a) -> Find key f sort limit col = Find key g sort limit col.
Proof. intros H. unfold Find. rewrite (List.filter_ext f g H). reflexivity. Qed.

Lemma last_map {A B : Type} (f : A -> B) (l : list A) :
  last (map f l) = option_map f (last l).
Proof.
  induction l as [|x [|y l] IH]; [reflexivity..|].
  cbn [map] in *. rewrite !last_cons_cons. exact IH.
Qed.

Lemma apply_limit_split {A : Type} (limit : Z) (l : list A) :
  exists rest,
    l = apply_limit (limit_of limit) l ++ rest
    /\ (apply_limit (limit_of limit) l = [] -> l = []).
Proof.
  unfold limit_of. destruct (Z.ltb_spec 0 limit) as [Hpos|Hle]; cbn.
  - exists (drop (Z.to_nat limit) l). split; [symmetry; apply take_drop|].
    destruct (Z.to_nat limit) eqn:E; [lia|].
    destruct l; [reflexivity|discriminate].
  - exists []. split; [symmetry; apply app_nil_r|auto].
Qed.

Section DescendingFacts.
Context {A : Type} (key : A -> time) (base : A -> bool) (col : list A).
Hypothesis distinct : NoDup (map key (List.filter base col)).

Local Abbreviation newer := (fun x y : A => key y < key x).
Local Abbreviation all_matches :=
  (sort_by_created_at key (-1) (List.filter base col)).

Lemma all_matches_strict : StronglySorted newer all_matches.
Proof.
  apply descending_strict; [apply sort_sorted|].
  eapply (NoDup_Permutation_proper _ _); [|exact distinct].
  apply Permutation_map, sort_perm.
Qed.

Lemma Find_descending c limit :
  Find key (before_cursor key base c) (-1) limit col
  = apply_limit limit (List.filter (older_than key c) all_matches).
Proof.
  unfold Find, before_cursor. rewrite filter_andb, filter_sort. reflexivity.
Qed.

Lemma FindOne_none c :
  FindOne (before_cursor key base c) col = None
  <-> List.filter (older_than key c) all_matches = [].
Proof.
  unfold FindOne, before_cursor.
  rewrite find_none_filter, filter_andb, filter_sort.
  split; intros H.
  - rewrite H. reflexivity.
  - apply Permutation_nil. rewrite <- H. apply sort_perm.
Qed.

(** The records beyond the last record [a] of a page that was cut
    from the records beyond cursor [c]. *)
Lemma older_than_narrows c a :
  In a (List.filter (older_than key c) all_matches) ->
  List.filter (older_than key (Some (key a))) all_matches
  = List.filter (fun x => key x <? key a)
      (List.filter (older_than key c) all_matches).
Proof.
  intros Ha. apply List.filter_In in Ha as [_ Ha].
  rewrite <- filter_andb. apply List.filter_ext. intros x. cbn.
  destruct (Z.ltb_spec (key x) (key a)) as [Hlt|Hge];
    [|apply eq_sym, andb_false_r].
  destruct c as [t|]; cbn in *; [|reflexivity].
  apply Z.ltb_lt in Ha. symmetry. rewrite andb_true_r. apply Z.ltb_lt. lia.
Qed.

Lemma descending_pages_from limit fuel c :
  (length (List.filter (older_than key c) all_matches) < fuel)%nat ->
  descending_pages key base fuel col limit c
  = Some (List.filter (older_than key c) all_matches).
Proof.
  revert c. induction fuel as [|fuel IH]; intros c Hlen; [lia|].
  cbn [descending_pages]. unfold descending_page.
  rewrite Find_descending.
  set (B := List.filter (older_than key c) all_matches) in *.
  destruct (apply_limit_split limit B) as (Q & HB & Hnil).
  set (P := apply_limit (limit_of limit) B) in *.
  destruct (last P) as [a|] eqn:El.
  - assert (Ha : In a B).
    { rewrite HB. apply in_or_app. left.
      apply list_elem_of_In, last_Some_elem_of, El. }
    assert (HQ : List.filter (older_than key (Some (key a))) all_matches = Q).
    { rewrite (older_than_narrows c a Ha). fold B. rewrite HB.
      apply older_than_last_of_prefix; [|exact El].
      rewrite <- HB. apply strict_filter, all_matches_strict. }
    destruct (FindOne _ col) eqn:Ef.
    + rewrite IH, HQ; [rewrite <- HB; reflexivity|].
      rewrite HQ. rewrite HB, length_app in Hlen.
      destruct P; [discriminate El|]. cbn in Hlen. lia.
    + apply FindOne_none in Ef. rewrite HQ in Ef. rewrite Ef in HB.
      rewrite app_nil_r in HB. rewrite <- HB. reflexivity.
  - apply last_None in El. rewrite (Hnil El), El. reflexivity.
Qed.

Lemma descending_pages_all limit fuel :
  (length col < fuel)%nat ->
  descending_pages key base fuel col limit None = Some all_matches.
Proof.
  intros Hlen.
  assert (E : List.filter (older_than key None) all_matches = all_matches).
  { apply filter_all. reflexivity. }
  rewrite descending_pages_from; rewrite E; [reflexivity|].
  rewrite (Permutation_length (sort_perm key (-1) _)).
  eapply Nat.le_lt_trans; [apply List.filter_length_le|exact Hlen].
Qed.

Lemma descending_page_unbounded :
  fst (descending_page key base col 0 None) = all_matches.
Proof.
  unfold descending_page. rewrite Find_descending. cbn [limit_of Z.ltb Z.compare apply_limit].
  rewrite filter_all by reflexivity.
  destruct (last _); [destruct (FindOne _ _)|]; reflexivity.
Qed.
End DescendingFacts.

(** Whether a page announces more, read off the page and the
    collection: the announced cursor is the timestamp of the page's
    last record, and it is announced exactly when a record matching the
    filter is strictly older than that. *)
Lemma descending_page_more {A : Type} (key : A -> time) (base : A -> bool)
    (col : list A) (limit : Z) (c : option time) :
  let pg := descending_page key base col limit c in
  (snd pg = option_map key (last (fst pg)) \/ snd pg = None)
  /\ (is_Some (snd pg)
      <-> exists a r, last (fst pg) = Some a /\ In r col
                      /\ base r = true /\ key r < key a).
Proof.
  cbv zeta. unfold descending_page.
  destruct (last _) as [a|] eqn:El.
  - destruct (FindOne _ col) as [r|] eqn:Ef; cbn [fst snd]; rewrite El.
    + split; [left; reflexivity|]. split; [|intros _; eexists; reflexivity].
      intros _. apply List.find_some in Ef as [Hin Hr].
      apply andb_prop in Hr as [Hb Ho]. apply Z.ltb_lt in Ho.
      exists a, r. auto.
    + split; [right; reflexivity|]. split; [intros [? [=]]|].
      intros (a' & r & [= <-] & Hin & Hb & Hlt).
      apply (List.find_none _ _ Ef) in Hin.
      unfold before_cursor, older_than in Hin. rewrite Hb in Hin. cbn in Hin.
      apply Z.ltb_ge in Hin. lia.
  - cbn [fst snd]. rewrite El. split; [right; reflexivity|].
    split; [intros [? [=]]|intros (a & r & [=] & _)].
Qed.

(** ** The two list handlers, descending *)

Lemma reward_matches_no_cursor (f : reward_filter) (r : reward) :
  rf_created_at f = None ->
  reward_matches f r = before_cursor reward_CreatedAt (reward_matches f) None r.
Proof. intros _. unfold before_cursor. cbn. symmetry. apply andb_true_r. Qed.

Lemma reward_matches_lt (f : reward_filter) (t : time) (r : reward) :
  rf_created_at f = None ->
  reward_matches (rf_set_created_at f ("$lt", t)) r
  = before_cursor reward_CreatedAt (reward_matches f) (Some t) r.
Proof.
  intros H. unfold before_cursor, reward_matches. rewrite H. cbn.
  rewrite andb_true_r. reflexivity.
Qed.

Lemma ListRewards_descending (s : Service) (req : ListRewardsRequest)
    (c : option time) :
  LR_Ascending req = false ->
  ListRewards s (LR_with_StartAt req c)
  = let pg := descending_page reward_CreatedAt (reward_matches (LR_filter req))
                (rewardsCol s) (LR_Limit req) c in
    {| LR_Rewards := map toPbReward (fst pg);
       LR_More := more_of (snd pg);
       LR_MoreStartAt := snd pg |}.
Proof.
  intros Hasc. unfold ListRewards, descending_page. cbv zeta.
  cbn [LR_with_StartAt LR_Ascending LR_StartAt LR_Limit].
  change (LR_filter (LR_with_StartAt req c)) with (LR_filter req).
  rewrite Hasc.
  assert (Hf : rf_created_at (LR_filter req) = None) by reflexivity.
  destruct c as [t|].
  - rewrite (Find_ext _ _ _ _ _ _ (fun r => reward_matches_lt _ t r Hf)).
    destruct (last _) as [lastRec|]; [|reflexivity].
    unfold FindOne.
    rewrite (find_ext _ _ _
               (fun r => reward_matches_lt _ (reward_CreatedAt lastRec) r Hf)).
    destruct (List.find _ _); reflexivity.
  - rewrite (Find_ext _ _ _ _ _ _ (fun r => reward_matches_no_cursor _ r Hf)).
    destruct (last _) as [lastRec|]; [|reflexivity].
    unfold FindOne.
    rewrite (find_ext _ _ _
               (fun r => reward_matches_lt _ (reward_CreatedAt lastRec) r Hf)).
    destruct (List.find _ _); reflexivity.
Qed.

Lemma all_reward_pages_descending (s : Service) (req : ListRewardsRequest)
    (fuel : nat) (c : option time) :
  LR_Ascending req = false ->
  all_reward_pages fuel s (LR_with_StartAt req c)
  = option_map (map toPbReward)
      (descending_pages reward_CreatedAt (reward_matches (LR_filter req))
         fuel (rewardsCol s) (LR_Limit req) c).
Proof.
  intros Hasc. revert c. induction fuel as [|fuel IH]; intros c; [reflexivity|].
  cbn [all_reward_pages descending_pages].
  rewrite (ListRewards_descending s req c Hasc). cbv zeta.
  destruct (descending_page _ _ _ _ c) as [items [c'|]]; cbn; [|reflexivity].
  change (LR_with_StartAt (LR_with_StartAt req c) (Some c'))
    with (LR_with_StartAt req (Some c')).
  rewrite IH. destruct (descending_pages _ _ _ _ _ _); cbn; [|reflexivity].
  rewrite List.map_app. reflexivity.
Qed.

Lemma claim_matches_no_cursor (f : claim_filter) (x : claim) :
  cf_created_at f = None ->
  claim_matches f x = before_cursor claim_CreatedAt (claim_matches f) None x.
Proof. intros _. unfold before_cursor. cbn. symmetry. apply andb_true_r. Qed.

Lemma claim_matches_lt (f : claim_filter) (t : time) (x : claim) :
  cf_created_at f = None ->
  claim_matches (cf_set_created_at f ("$lt", t)) x
  = before_cursor claim_CreatedAt (claim_matches f) (Some t) x.
Proof.
  intros H. unfold before_cursor, claim_matches. rewrite H. cbn.
  rewrite andb_true_r. reflexivity.
Qed.

Lemma ListClaims_descending (s : Service) (req : ListClaimsRequest)
    (c : option time) :
  LC_Ascending req = false ->
  ListClaims s (LC_with_StartAt req c)
  = let pg := descending_page claim_CreatedAt (claim_matches (LC_filter req))
                (claimsCol s) (LC_Limit req) c in
    {| LC_Claims := map toPbClaim (fst pg);
       LC_More := more_of (snd pg);
       LC_MoreStartAt := snd pg |}.
Proof.
  intros Hasc. unfold ListClaims, descending_page. cbv zeta.
  cbn [LC_with_StartAt LC_Ascending LC_StartAt LC_Limit].
  change (LC_filter (LC_with_StartAt req c)) with (LC_filter req).
  rewrite Hasc.
  assert (Hf : cf_created_at (LC_filter req) = None) by reflexivity.
  destruct c as [t|].
  - rewrite (Find_ext _ _ _ _ _ _ (fun x => claim_matches_lt _ t x Hf)).
    destruct (last _) as [lastRec|]; [|reflexivity].
    unfold FindOne.
    rewrite (find_ext _ _ _
               (fun x => claim_matches_lt _ (claim_CreatedAt lastRec) x Hf)).
    destruct (List.find _ _); reflexivity.
  - rewrite (Find_ext _ _ _ _ _ _ (fun x => claim_matches_no_cursor _ x Hf)).
    destruct (last _) as [lastRec|]; [|reflexivity].
    unfold FindOne.
    rewrite (find_ext _ _ _
               (fun x => claim_matches_lt _ (claim_CreatedAt lastRec) x Hf)).
    destruct (List.find _ _); reflexivity.
Qed.

Lemma all_claim_pages_descending (s : Service) (req : ListClaimsRequest)
    (fuel : nat) (c : option time) :
  LC_Ascending req = false ->
  all_claim_pages fuel s (LC_with_StartAt req c)
  = option_map (map toPbClaim)
      (descending_pages claim_CreatedAt (claim_matches (LC_filter req))
         fuel (claimsCol s) (LC_Limit req) c).
Proof.
  intros Hasc. revert c. induction fuel as [|fuel IH]; intros c; [reflexivity|].
  cbn [all_claim_pages descending_pages].
  rewrite (ListClaims_descending s req c Hasc). cbv zeta.
  destruct (descending_page _ _ _ _ c) as [items [c'|]]; cbn; [|reflexivity].
  change (LC_with_StartAt (LC_with_StartAt req c) (Some c'))
    with (LC_with_StartAt req (Some c')).
  rewrite IH. destruct (descending_pages _ _ _ _ _ _); cbn; [|reflexivity].
  rewrite List.map_app. reflexivity.
Qed.

Lemma LR_more_iff (s : Service) (req : ListRewardsRequest) (c : option time) :
  LR_Ascending req = false ->
  let res := ListRewards s (LR_with_StartAt req c) in
  (LR_More res = true
   <-> exists lastItem r,
         last (LR_Rewards res) = Some lastItem
         /\ In r (rewardsCol s)
         /\ reward_matches (LR_filter req) r = true
         /\ reward_CreatedAt r < pb_Reward_CreatedAt lastItem)
  /\ (LR_More res = true ->
      LR_MoreStartAt res = option_map pb_Reward_CreatedAt (last (LR_Rewards res))).
Proof.
  intros Hasc. cbv zeta. rewrite (ListRewards_descending s req c Hasc). cbv zeta.
  cbn [LR_More LR_Rewards LR_MoreStartAt].
  destruct (descending_page_more reward_CreatedAt (reward_matches (LR_filter req))
              (rewardsCol s) (LR_Limit req) c) as [Hnext Hmore].
  set (pg := descending_page _ _ _ _ _) in *.
  rewrite last_map. split.
  - assert (E : more_of (snd pg) = true <-> is_Some (snd pg)).
    { destruct (snd pg) as [t|]; cbn; split; intros H;
        [eexists; reflexivity | reflexivity | discriminate H
        | destruct H as [? H]; discriminate H]. }
    rewrite E, Hmore. split.
    + intros (a & r & El & H). exists (toPbReward a), r. rewrite El. auto.
    + intros (p & r & El & H). destruct (last (fst pg)) as [a|]; [|discriminate].
      injection El as <-. exists a, r. auto.
  - intros Hm. destruct Hnext as [E|E]; rewrite E in *;
      [|cbn in Hm; discriminate Hm].
    destruct (last (fst pg)); reflexivity.
Qed.

Lemma LC_more_iff (s : Service) (req : ListClaimsRequest) (c : option time) :
  LC_Ascending req = false ->
  let res := ListClaims s (LC_with_StartAt req c) in
  (LC_More res = true
   <-> exists lastItem x,
         last (LC_Claims res) = Some lastItem
         /\ In x (claimsCol s)
         /\ claim_matches (LC_filter req) x = true
         /\ claim_CreatedAt x < pb_Claim_CreatedAt lastItem)
  /\ (LC_More res = true ->
      LC_MoreStartAt res = option_map pb_Claim_CreatedAt (last (LC_Claims res))).
Proof.
  intros Hasc. cbv zeta. rewrite (ListClaims_descending s req c Hasc). cbv zeta.
  cbn [LC_More LC_Claims LC_MoreStartAt].
  destruct (descending_page_more claim_CreatedAt (claim_matches (LC_filter req))
              (claimsCol s) (LC_Limit req) c) as [Hnext Hmore].
  set (pg := descending_page _ _ _ _ _) in *.
  rewrite last_map. split.
  - assert (E : more_of (snd pg) = true <-> is_Some (snd pg)).
    { destruct (snd pg) as [t|]; cbn; split; intros H;
        [eexists; reflexivity | reflexivity | discriminate H
        | destruct H as [? H]; discriminate H]. }
    rewrite E, Hmore. split.
    + intros (a & r & El & H). exists (toPbClaim a), r. rewrite El. auto.
    + intros (p & r & El & H). destruct (last (fst pg)) as [a|]; [|discriminate].
      injection El as <-. exists a, r. auto.
  - intros Hm. destruct Hnext as [E|E]; rewrite E in *;
      [|cbn in Hm; discriminate Hm].
    destruct (last (fst pg)); reflexivity.
Qed.

Lemma LR_round_trip (s : Service) (req : ListRewardsRequest) (fuel : nat) :
  LR_Ascending req = false ->
  NoDup (map reward_CreatedAt
           (List.filter (reward_matches (LR_filter req)) (rewardsCol s))) ->
  (length (rewardsCol s) < fuel)%nat ->
  all_reward_pages fuel s (LR_with_StartAt req None)
  = Some (LR_Rewards (ListRewards s (LR_unbounded req))).
Proof.
  intros Hasc Hnd Hlen.
  rewrite (all_reward_pages_descending s req fuel None Hasc).
  rewrite (descending_pages_all _ _ _ Hnd (LR_Limit req) fuel Hlen).
  change (LR_unbounded req) with (LR_with_StartAt (LR_unbounded req) None).
  rewrite (ListRewards_descending s (LR_unbounded req) None Hasc). cbv zeta.
  cbn [LR_Rewards LR_Limit LR_unbounded].
  change (LR_filter (LR_unbounded req)) with (LR_filter req).
  rewrite descending_page_unbounded. reflexivity.
Qed.

Lemma LC_round_trip (s : Service) (req : ListClaimsRequest) (fuel : nat) :
  LC_Ascending req = false ->
  NoDup (map claim_CreatedAt
           (List.filter (claim_matches (LC_filter req)) (claimsCol s))) ->
  (length (claimsCol s) < fuel)%nat ->
  all_claim_pages fuel s (LC_with_StartAt req None)
  = Some (LC_Claims (ListClaims s (LC_unbounded req))).
Proof.
  intros Hasc Hnd Hlen.
  rewrite (all_claim_pages_descending s req fuel None Hasc).
  rewrite (descending_pages_all _ _ _ Hnd (LC_Limit req) fuel Hlen).
  change (LC_unbounded req) with (LC_with_StartAt (LC_unbounded req) None).
  rewrite (ListClaims_descending s (LC_unbounded req) None Hasc). cbv zeta.
  cbn [LC_Claims LC_Limit LC_unbounded].
  change (LC_filter (LC_unbounded req)) with (LC_filter req).
  rewrite descending_page_unbounded. reflexivity.
Qed.

(** C5, as stated, fails when two matching records carry the same
    timestamp: of two rewards created at time 5, paging with limit 1 in
    descending order returns the first and reports that nothing is
    left, while the unbounded query returns both. *)
Lemma C5_same_timestamp_counterexample :
  let req := list_rewards_request "org1" false 1 in
  length (LR_Rewards (ListRewards two_rewards_same_time (LR_unbounded req))) = 2%nat
  /\ (exists only, all_reward_pages 10 two_rewards_same_time req = Some [only])
  /\ forall fuel,
       all_reward_pages fuel two_rewards_same_time req
       <> Some (LR_Rewards (ListRewards two_rewards_same_time (LR_unbounded req))).
Proof.
  cbv zeta. split; [reflexivity|]. split; [eexists; reflexivity|].
  intros [|fuel]; [discriminate|].
  cbn [all_reward_pages].
  set (res := ListRewards _ (list_rewards_request _ _ _)).
  vm_compute in res. subst res. cbn [LR_More LR_Rewards].
  vm_compute. discriminate.
Qed.

(** C5 (amended). In descending order, over either ledger, when the
    records matching the filter have pairwise distinct creation
    timestamps: the pages obtained by starting without a cursor and
    passing back the returned cursor while more is announced, put end
    to end, are exactly the answer of one unbounded query with the same
    filter, for any limit; and a page announces more exactly when a
    record matching the filter is strictly older than the page's last
    item, the cursor it then returns being that item's timestamp. *)
Theorem C5_descending_round_trip (s : Service) (rreq : ListRewardsRequest)
    (creq : ListClaimsRequest) :
  LR_Ascending rreq = false ->
  LC_Ascending creq = false ->
  NoDup (map reward_CreatedAt
           (List.filter (reward_matches (LR_filter rreq)) (rewardsCol s))) ->
  NoDup (map claim_CreatedAt
           (List.filter (claim_matches (LC_filter creq)) (claimsCol s))) ->
  (forall fuel, (length (rewardsCol s) < fuel)%nat ->
     all_reward_pages fuel s (LR_with_StartAt rreq None)
     = Some (LR_Rewards (ListRewards s (LR_unbounded rreq))))
  /\ (forall fuel, (length (claimsCol s) < fuel)%nat ->
        all_claim_pages fuel s (LC_with_StartAt creq None)
        = Some (LC_Claims (ListClaims s (LC_unbounded creq))))
  /\ (forall c,
        let res := ListRewards s (LR_with_StartAt rreq c) in
        (LR_More res = true
         <-> exists lastItem r,
               last (LR_Rewards res) = Some lastItem
               /\ In r (rewardsCol s)
               /\ reward_matches (LR_filter rreq) r = true
               /\ reward_CreatedAt r < pb_Reward_CreatedAt lastItem)
        /\ (LR_More res = true ->
            LR_MoreStartAt res
            = option_map pb_Reward_CreatedAt (last (LR_Rewards res))))
  /\ (forall c,
        let res := ListClaims s (LC_with_StartAt creq c) in
        (LC_More res = true
         <-> exists lastItem x,
               last (LC_Claims res) = Some lastItem
               /\ In x (claimsCol s)
               /\ claim_matches (LC_filter creq) x = true
               /\ claim_CreatedAt x < pb_Claim_CreatedAt lastItem)
        /\ (LC_More res = true ->
            LC_MoreStartAt res
            = option_map pb_Claim_CreatedAt (last (LC_Claims res)))).
Proof.
  intros Hr Hc Hndr Hndc. repeat apply conj.
  - intros fuel. apply LR_round_trip; assumption.
  - intros fuel. apply LC_round_trip; assumption.
  - intros c. apply LR_more_iff, Hr.
  - intros c. apply LC_more_iff, Hc.
Qed.

(** Five rewards and three claims with distinct timestamps, paged two
    at a time. *)
Lemma C5_descending_round_trip_witness :
  let rreq := list_rewards_request "org1" false 2 in
  let creq := list_claims_request "org1" false 2 in
  LR_Ascending rreq = false
  /\ LC_Ascending creq = false
  /\ NoDup (map reward_CreatedAt
              (List.filter (reward_matches (LR_filter rreq))
                 (rewardsCol five_rewards)))
  /\ NoDup (map claim_CreatedAt
              (List.filter (claim_matches (LC_filter creq))
                 (claimsCol five_rewards)))
  /\ all_reward_pages 6 five_rewards rreq
     = Some (LR_Rewards (ListRewards five_rewards (LR_unbounded rreq)))
  /\ all_claim_pages 4 five_rewards creq
     = Some (LC_Claims (ListClaims five_rewards (LC_unbounded creq))).
Proof.
  cbv zeta.
  assert (Hr : NoDup (map reward_CreatedAt
             (List.filter (reward_matches (LR_filter (list_rewards_request "org1" false 2)))
                (rewardsCol five_rewards)))).
  { apply (bool_decide_unpack _). vm_compute. exact I. }
  assert (Hc : NoDup (map claim_CreatedAt
             (List.filter (claim_matches (LC_filter (list_claims_request "org1" false 2)))
                (claimsCol five_rewards)))).
  { apply (bool_decide_unpack _). vm_compute. exact I. }
  destruct (C5_descending_round_trip five_rewards
              (list_rewards_request "org1" false 2)
              (list_claims_request "org1" false 2) eq_refl eq_refl Hr Hc)
    as (Hrew & Hcl & _).
  split; [reflexivity|]. split; [reflexivity|].
  split; [exact Hr|]. split; [exact Hc|]. split.
  - apply (Hrew 6%nat). cbn. lia.
  - apply (Hcl 4%nat). cbn. lia.
Defined.

(** In ascending order the first request carries no cursor, and the
    handler then probes with the descending comparison: with limit 1 it
    finds nothing older than the oldest record and announces no more,
    although four records follow. *)
Example ascending_first_page_stops :
  let res := ListRewards five_rewards (list_rewards_request "org1" true 1) in
  map pb_Reward_CreatedAt (LR_Rewards res) = [1]
  /\ LR_More res = false
  /\ length (LR_Rewards (ListRewards five_rewards
                           (LR_unbounded (list_rewards_request "org1" true 1))))
     = 5%nat.
Proof. repeat split. Qed.

(** ** Seeding *)

(** C3 (cache after the seed scan). The seed scan marks both keys of a
    record in the organization mapping and nothing in the developer
    mapping. On a ledger whose only record has organization key org1
    and developer key dev1 the second write goes through a key the
    organization mapping does not have, and [New] panics. On the ledger
    (d, d, first-org-created), (o, d, first-bucket-created) [New]
    returns: the developer mapping marks neither pair of d, and the
    organization mapping marks (d, first-bucket-created), a pair no
    record carries on the organization key. *)
Theorem C3_seed_writes_developer_key_to_org_cache :
  New ledger_org1_dev1 [] config100 = Panic
  /\ New ledger_d_then_o [] config100
     = Ok (service_of (New ledger_d_then_o [] config100))
  /\ (let s := service_of (New ledger_d_then_o [] config100) in
      cache_has (rewardsCacheDev s) "d" REWARD_TYPE_FIRST_ORG_CREATED = false
      /\ cache_has (rewardsCacheDev s) "d" REWARD_TYPE_FIRST_BUCKET_CREATED = false
      /\ cache_has (rewardsCacheOrg s) "d" REWARD_TYPE_FIRST_BUCKET_CREATED = true
      /\ cache_has (rewardsCacheOrg s) "d" REWARD_TYPE_FIRST_ORG_CREATED = true
      /\ cache_has (rewardsCacheOrg s) "o" REWARD_TYPE_FIRST_BUCKET_CREATED = true).
Proof. repeat split; vm_compute; reflexivity. Qed.

(** C4 (cache within the ledger). The state reached by starting on an
    empty store, granting first-org-created to (d, d) and
    first-bucket-created to (o, d), and starting again, marks (d,
    first-bucket-created) in the organization mapping although no
    Reward record has organization key d with that type: the cache is
    not within the ledger. *)
Theorem C4_restart_marks_pair_outside_ledger :
  restarted = Ok (service_of restarted)
  /\ rewardsCol (service_of restarted) = ledger_d_then_o
  /\ cache_has (rewardsCacheOrg (service_of restarted)) "d"
       REWARD_TYPE_FIRST_BUCKET_CREATED = true
  /\ (forall r, In r (rewardsCol (service_of restarted)) ->
        ~ (reward_OrgKey r = "d"
           /\ reward_Type r = REWARD_TYPE_FIRST_BUCKET_CREATED))
  /\ ~ org_cache_sound (service_of restarted).
Proof.
  assert (Hcol : rewardsCol (service_of restarted) = ledger_d_then_o)
    by (vm_compute; reflexivity).
  assert (Hhas : cache_has (rewardsCacheOrg (service_of restarted)) "d"
                   REWARD_TYPE_FIRST_BUCKET_CREATED = true)
    by (vm_compute; reflexivity).
  assert (Hno : forall r, In r (rewardsCol (service_of restarted)) ->
                  ~ (reward_OrgKey r = "d"
                     /\ reward_Type r = REWARD_TYPE_FIRST_BUCKET_CREATED)).
  { rewrite Hcol. intros r [<-|[<-|[]]] [Hk Ht]; cbn in *; discriminate. }
  repeat apply conj; try assumption.
  - vm_compute. reflexivity.
  - intros Hsound. destruct (Hsound _ _ Hhas) as (r & Hin & Hk & Ht).
    apply (Hno r Hin). auto.
Qed.

(** * Further properties *)

(** ** How a call of [ProcessAnalyticsEvent] ends *)

Lemma event_outcome_holds s req now up :
  event_outcome s req now up (ProcessAnalyticsEvent s req now up).
Proof.
  destruct (decide (Request_OrgKey req = "")) as [Hk|Hk];
    [rewrite PAE_rejected by auto; constructor; auto|].
  destruct (decide (Request_AnalyticsEvent req = EVENT_UNSPECIFIED)) as [He|He];
    [rewrite PAE_rejected by auto; constructor; auto|].
  rewrite (PAE_past_checks s req now up Hk He). cbv zeta.
  destruct (bool_decide_reflect
              (reward_type_of (Request_AnalyticsEvent req) = REWARD_TYPE_UNSPECIFIED))
    as [Ht|Ht]; [apply outcome_unmapped; assumption|].
  destruct (cache_has (rewardsCacheOrg s) _ _) eqn:Eo;
    [apply outcome_duplicate; auto|].
  destruct (cache_has (rewardsCacheDev s) _ _) eqn:Ed;
    [apply outcome_duplicate; auto|].
  assert (Hg : grant_attempt s req) by (repeat split; assumption).
  destruct (insert_reward up (rewardsCol s) _) as [col|] eqn:Ei;
    [|apply outcome_insert_failed; assumption].
  unfold insert_reward in Ei.
  destruct up; [|discriminate Ei].
  destruct (duplicate_key (rewardsCol s) _) eqn:Edup; [discriminate Ei|].
  cbn in Ei. injection Ei as <-.
  unfold ensured. cbn [rewardsCacheOrg rewardsCacheDev with_caches].
  destruct (cache_set_ensure (rewardsCacheOrg s) (Request_OrgKey req)
              (reward_type_of (Request_AnalyticsEvent req))) as [co Hco].
  destruct (cache_set_ensure (rewardsCacheDev s) (Request_DevKey req)
              (reward_type_of (Request_AnalyticsEvent req))) as [cd Hcd].
  rewrite Hco, Hcd.
  apply (outcome_granted s req now true co cd); auto.
Qed.

Lemma duplicate_key_false (col : list reward) (r x : reward) :
  duplicate_key col r = false -> In x col ->
  same_org_type r x = false /\ same_dev_type r x = false.
Proof.
  unfold duplicate_key. intros H Hin.
  destruct (same_org_type r x || same_dev_type r x) eqn:E.
  - assert (existsb (fun x => same_org_type r x || same_dev_type r x) col = true)
      by (apply List.existsb_exists; eauto).
    congruence.
  - apply orb_false_elim in E. exact E.
Qed.

Lemma same_org_type_true (r x : reward) :
  reward_OrgKey r <> "" -> reward_OrgKey x = reward_OrgKey r ->
  reward_Type x = reward_Type r -> same_org_type r x = true.
Proof.
  intros Hk Ho Ht. unfold same_org_type.
  apply String.eqb_neq in Hk. rewrite Hk, Ho, String.eqb_refl.
  rewrite bool_decide_eq_true_2 by exact Ht. reflexivity.
Qed.

Lemma same_dev_type_true (r x : reward) :
  reward_DevKey r <> "" -> reward_DevKey x = reward_DevKey r ->
  reward_Type x = reward_Type r -> same_dev_type r x = true.
Proof.
  intros Hk Ho Ht. unfold same_dev_type.
  apply String.eqb_neq in Hk. rewrite Hk, Ho, String.eqb_refl.
  rewrite bool_decide_eq_true_2 by exact Ht. reflexivity.
Qed.

(** X1. [ProcessAnalyticsEvent] never panics: after the two
    [ensureKeyRewardCache] calls both cache writes go through existing
    keys. *)
Theorem event_never_panics (s : Service) (req : ProcessAnalyticsEventRequest)
    (now : time) (up : bool) :
  fst (ProcessAnalyticsEvent s req now up) <> Panic.
Proof.
  destruct (event_outcome_holds s req now up); cbn; discriminate.
Qed.

(** X2. What a call of [ProcessAnalyticsEvent] leaves alone: the claims
    collection and the base amount never change; the rewards collection
    is unchanged or longer by the one record the response carries; and
    the marks of either cache differ after the call exactly when a
    record was appended. *)
Theorem event_frame (s : Service) (req : ProcessAnalyticsEventRequest)
    (now : time) (up : bool) :
  let res := fst (ProcessAnalyticsEvent s req now up) in
  let s' := snd (ProcessAnalyticsEvent s req now up) in
  claimsCol s' = claimsCol s
  /\ baseAttoFILReward s' = baseAttoFILReward s
  /\ ((rewardsCol s' = rewardsCol s
       /\ marks_equal (rewardsCacheOrg s') (rewardsCacheOrg s)
       /\ marks_equal (rewardsCacheDev s') (rewardsCacheDev s)
       /\ (res = Ok {| Response_Reward := None |} \/ exists c, res = Err c))
      \/ (exists r,
            rewardsCol s' = rewardsCol s ++ [r]
            /\ res = Ok {| Response_Reward := Some (toPbReward r) |}
            /\ cache_has (rewardsCacheOrg s) (reward_OrgKey r) (reward_Type r)
               = false
            /\ cache_has (rewardsCacheOrg s') (reward_OrgKey r) (reward_Type r)
               = true
            /\ cache_has (rewardsCacheDev s) (reward_DevKey r) (reward_Type r)
               = false
            /\ cache_has (rewardsCacheDev s') (reward_DevKey r) (reward_Type r)
               = true)).
Proof.
  cbv zeta.
  destruct (event_outcome_holds s req now up)
    as [H|Hk He Ht|Hk He Ht Hc|Hg Hi|co cd Hg Hup Hdup Hco Hcd]; cbn [fst snd].
  - repeat split; try reflexivity. left. repeat split; eauto.
  - repeat split; try reflexivity. left. repeat split; eauto.
  - repeat split; try reflexivity. left.
    split; [reflexivity|]. split; [apply marks_equal_ensure|].
    split; [apply marks_equal_ensure|]. eauto.
  - repeat split; try reflexivity. left.
    split; [reflexivity|]. split; [apply marks_equal_ensure|].
    split; [apply marks_equal_ensure|]. eauto.
  - destruct Hg as (_ & _ & _ & Ho & Hd).
    split; [reflexivity|]. split; [reflexivity|]. right.
    eexists. split; [reflexivity|]. split; [reflexivity|].
    cbn [reward_OrgKey reward_DevKey reward_Type new_reward
         rewardsCacheOrg rewardsCacheDev with_caches].
    split; [exact Ho|]. split; [exact (cache_has_set_same _ _ _ _ Hco)|].
    split; [exact Hd|]. exact (cache_has_set_same _ _ _ _ Hcd).
Qed.



(** ** The unique indexes along the ledger *)

Lemma org_unique_snoc (col : list reward) (r : reward) :
  org_unique col ->
  (forall x, In x col -> same_org_type r x = false) ->
  org_unique (col ++ [r]).
Proof.
  intros Hu Hr i j r1 r2 Hi Hj Hk Ho Ht.
  apply lookup_app_Some in Hi as [Hi|[Hli Hi]];
    apply lookup_app_Some in Hj as [Hj|[Hlj Hj]].
  - eauto.
  - apply list_lookup_singleton_Some in Hj as [_ <-].
    assert (Hin : In r1 col)
      by (apply list_elem_of_In, list_elem_of_lookup; eauto).
    pose proof (Hr r1 Hin) as E.
    rewrite same_org_type_true in E by congruence. discriminate E.
  - apply list_lookup_singleton_Some in Hi as [_ <-].
    assert (Hin : In r2 col)
      by (apply list_elem_of_In, list_elem_of_lookup; eauto).
    pose proof (Hr r2 Hin) as E.
    rewrite same_org_type_true in E by congruence. discriminate E.
  - apply list_lookup_singleton_Some in Hi as [Hi _].
    apply list_lookup_singleton_Some in Hj as [Hj _]. lia.
Qed.

Lemma dev_unique_snoc (col : list reward) (r : reward) :
  dev_unique col ->
  (forall x, In x col -> same_dev_type r x = false) ->
  dev_unique (col ++ [r]).
Proof.
  intros Hu Hr i j r1 r2 Hi Hj Hk Ho Ht.
  apply lookup_app_Some in Hi as [Hi|[Hli Hi]];
    apply lookup_app_Some in Hj as [Hj|[Hlj Hj]].
  - eauto.
  - apply list_lookup_singleton_Some in Hj as [_ <-].
    assert (Hin : In r1 col)
      by (apply list_elem_of_In, list_elem_of_lookup; eauto).
    pose proof (Hr r1 Hin) as E.
    rewrite same_dev_type_true in E by congruence. discriminate E.
  - apply list_lookup_singleton_Some in Hi as [_ <-].
    assert (Hin : In r2 col)
      by (apply list_elem_of_In, list_elem_of_lookup; eauto).
    pose proof (Hr r2 Hin) as E.
    rewrite same_dev_type_true in E by congruence. discriminate E.
  - apply list_lookup_singleton_Some in Hi as [Hi _].
    apply list_lookup_singleton_Some in Hj as [Hj _]. lia.
Qed.

Lemma unique_step (s : Service) (req : ProcessAnalyticsEventRequest)
    (now : time) (up : bool) :
  org_unique (rewardsCol s) -> dev_unique (rewardsCol s) ->
  org_unique (rewardsCol (snd (ProcessAnalyticsEvent s req now up)))
  /\ dev_unique (rewardsCol (snd (ProcessAnalyticsEvent s req now up))).
Proof.
  intros Ho Hd.
  destruct (event_outcome_holds s req now up)
    as [?|?|?|?|co cd Hg Hup Hdup Hco Hcd]; cbn [snd]; auto.
  cbn [rewardsCol with_caches with_rewards]. split.
  - apply org_unique_snoc; [exact Ho|].
    intros x Hx. apply (duplicate_key_false _ _ _ Hdup Hx).
  - apply dev_unique_snoc; [exact Hd|].
    intros x Hx. apply (duplicate_key_false _ _ _ Hdup Hx).
Qed.

(** X4. A call of [ProcessAnalyticsEvent] keeps the ledger within its
    unique indexes: if no two records shared a type under the same
    non-empty organization key, or under the same non-empty developer
    key, before the call, none do after it. *)
Theorem event_keeps_unique (s : Service) (req : ProcessAnalyticsEventRequest)
    (now : time) (up : bool) :
  org_unique (rewardsCol s) -> dev_unique (rewardsCol s) ->
  org_unique (rewardsCol (snd (ProcessAnalyticsEvent s req now up)))
  /\ dev_unique (rewardsCol (snd (ProcessAnalyticsEvent s req now up))).
Proof. apply unique_step. Qed.

Lemma org_unique_nil : org_unique [].
Proof. intros i j r1 r2 Hi. rewrite lookup_nil in Hi. discriminate Hi. Qed.

Lemma dev_unique_nil : dev_unique [].
Proof. intros i j r1 r2 Hi. rewrite lookup_nil in Hi. discriminate Hi. Qed.

Lemma org_unique_one (r : reward) : org_unique [r].
Proof. apply (org_unique_snoc [] r org_unique_nil). intros x []. Qed.

Lemma dev_unique_one (r : reward) : dev_unique [r].
Proof. apply (dev_unique_snoc [] r dev_unique_nil). intros x []. Qed.

(** A ledger holding the first-bucket reward of (org1, dev1), caches
    empty. The first-org event of (org1, dev2) appends a second record
    under the same organization key, and the two are still unique; the
    first-bucket event of (org2, dev1) would be a second record of that
    type under developer key dev1, it is refused, and the ledger is
    still unique. *)
Lemma event_keeps_unique_witness :
  let second := snd (ProcessAnalyticsEvent one_reward
                       (event_request "org1" "dev2" EVENT_ORG_CREATED) 11 true) in
  let refused := snd (ProcessAnalyticsEvent one_reward
                        (event_request "org2" "dev1" EVENT_BUCKET_CREATED) 11 true) in
  (org_unique (rewardsCol one_reward) /\ dev_unique (rewardsCol one_reward))
  /\ (length (rewardsCol second) = 2%nat
      /\ org_unique (rewardsCol second) /\ dev_unique (rewardsCol second))
  /\ (length (rewardsCol refused) = 1%nat
      /\ org_unique (rewardsCol refused) /\ dev_unique (rewardsCol refused)).
Proof.
  cbv zeta.
  assert (Ho : org_unique (rewardsCol one_reward)) by apply org_unique_one.
  assert (Hd : dev_unique (rewardsCol one_reward)) by apply dev_unique_one.
  split; [split; assumption|]. split.
  - split; [reflexivity|].
    exact (event_keeps_unique one_reward
             (event_request "org1" "dev2" EVENT_ORG_CREATED) 11 true Ho Hd).
  - split; [reflexivity|].
    exact (event_keeps_unique one_reward
             (event_request "org2" "dev1" EVENT_BUCKET_CREATED) 11 true Ho Hd).
Defined.

(** X5. The unique indexes back the caches up: when the ledger already
    holds a record of the event's reward type under the request's
    organization key, or under its non-empty developer key, the call
    appends nothing whatever the caches say; it answers with the empty
    response or with an error. *)
Theorem existing_record_blocks_grant (s : Service)
    (req : ProcessAnalyticsEventRequest) (now : time) (up : bool)
    (x : reward) :
  In x (rewardsCol s) ->
  reward_Type x = reward_type_of (Request_AnalyticsEvent req) ->
  reward_OrgKey x = Request_OrgKey req
  \/ (reward_DevKey x = Request_DevKey req /\ Request_DevKey req <> "") ->
  rewardsCol (snd (ProcessAnalyticsEvent s req now up)) = rewardsCol s
  /\ (fst (ProcessAnalyticsEvent s req now up) = Ok {| Response_Reward := None |}
      \/ exists c, fst (ProcessAnalyticsEvent s req now up) = Err c).
Proof.
  intros Hin Ht Hkey.
  destruct (event_outcome_holds s req now up)
    as [?|?|?|?|co cd Hg Hup Hdup Hco Hcd]; cbn [fst snd]; eauto.
  exfalso. destruct Hg as (Hk & _).
  destruct (duplicate_key_false _ _ _ Hdup Hin) as [Eo Ed].
  destruct Hkey as [Hkey|[Hkey Hne]].
  - rewrite same_org_type_true in Eo; [discriminate Eo|exact Hk|exact Hkey|exact Ht].
  - rewrite same_dev_type_true in Ed; [discriminate Ed|exact Hne|exact Hkey|exact Ht].
Qed.

(** A ledger holding the first-bucket reward of (org1, dev1), caches
    empty: the same event of (org2, dev1) is refused by the index. *)
Lemma existing_record_blocks_grant_witness :
  rewardsCol (snd (ProcessAnalyticsEvent one_reward
                     (event_request "org2" "dev1" EVENT_BUCKET_CREATED) 11 true))
  = rewardsCol one_reward
  /\ (fst (ProcessAnalyticsEvent one_reward
             (event_request "org2" "dev1" EVENT_BUCKET_CREATED) 11 true)
      = Ok {| Response_Reward := None |}
      \/ exists c,
           fst (ProcessAnalyticsEvent one_reward
                  (event_request "org2" "dev1" EVENT_BUCKET_CREATED) 11 true)
           = Err c).
Proof.
  apply (existing_record_blocks_grant one_reward
           (event_request "org2" "dev1" EVENT_BUCKET_CREATED) 11 true
           (mk_reward "org1" "dev1" REWARD_TYPE_FIRST_BUCKET_CREATED 2 100 10)).
  - left. reflexivity.
  - reflexivity.
  - right. split; [reflexivity|]. cbn. congruence.
Defined.

(** ** Caches and ledger in step *)

Lemma event_keeps_complete s req now up :
  org_cache_complete s -> dev_cache_complete s ->
  org_cache_complete (snd (ProcessAnalyticsEvent s req now up))
  /\ dev_cache_complete (snd (ProcessAnalyticsEvent s req now up)).
Proof.
  intros Ho Hd.
  assert (Hens : org_cache_complete (ensured s req)
                 /\ dev_cache_complete (ensured s req)).
  { split; intros r Hr; cbn; rewrite cache_has_ensure; auto. }
  destruct (event_outcome_holds s req now up)
    as [?|?|?|?|co cd Hg Hup Hdup Hco Hcd]; cbn [snd]; auto.
  split; intros r Hr;
    cbn [rewardsCol rewardsCacheOrg rewardsCacheDev with_caches with_rewards] in *.
  - rewrite (cache_has_set _ _ _ _ _ _ Hco), cache_has_ensure.
    apply in_app_or in Hr as [Hr|[<-|[]]].
    + rewrite (Ho r Hr). apply orb_true_r.
    + cbn. rewrite bool_decide_eq_true_2 by done. reflexivity.
  - rewrite (cache_has_set _ _ _ _ _ _ Hcd), cache_has_ensure.
    apply in_app_or in Hr as [Hr|[<-|[]]].
    + rewrite (Hd r Hr). apply orb_true_r.
    + cbn. rewrite bool_decide_eq_true_2 by done. reflexivity.
Qed.

(** X6. A call of [ProcessAnalyticsEvent] keeps the caches in step with
    the ledger: if, before the call, each cache marked exactly the
    (key, type) pairs of the Reward records on its dimension, it does
    so after the call. *)
Theorem event_keeps_caches_exact (s : Service)
    (req : ProcessAnalyticsEventRequest) (now : time) (up : bool) :
  org_cache_sound s -> dev_cache_sound s ->
  org_cache_complete s -> dev_cache_complete s ->
  let s' := snd (ProcessAnalyticsEvent s req now up) in
  org_cache_sound s' /\ dev_cache_sound s'
  /\ org_cache_complete s' /\ dev_cache_complete s'.
Proof.
  intros Hso Hsd Hco Hcd. cbv zeta.
  destruct (grant_preserves_sound s req now up Hso Hsd).
  destruct (event_keeps_complete s req now up Hco Hcd).
  auto.
Qed.

Lemma cache_has_empty (k : string) (t : RewardType) : cache_has ∅ k t = false.
Proof. unfold cache_has. rewrite lookup_empty. reflexivity. Qed.

Lemma empty_store_sound_complete :
  org_cache_sound empty_store /\ dev_cache_sound empty_store
  /\ org_cache_complete empty_store /\ dev_cache_complete empty_store.
Proof.
  split; [|split; [|split]].
  - intros k t H. cbn in H. rewrite cache_has_empty in H. discriminate H.
  - intros k t H. cbn in H. rewrite cache_has_empty in H. discriminate H.
  - intros r [].
  - intros r [].
Qed.

(** One event on the store with no records. *)
Lemma event_keeps_caches_exact_witness :
  let s' := snd (ProcessAnalyticsEvent empty_store
                   (event_request "org1" "dev1" EVENT_BUCKET_CREATED) 7 true) in
  org_cache_sound s' /\ dev_cache_sound s'
  /\ org_cache_complete s' /\ dev_cache_complete s'.
Proof.
  destruct empty_store_sound_complete as (H1 & H2 & H3 & H4).
  exact (event_keeps_caches_exact empty_store
           (event_request "org1" "dev1" EVENT_BUCKET_CREATED) 7 true
           H1 H2 H3 H4).
Defined.

Lemma process_events_invariant (P : Service -> Prop) :
  (forall s req now up, P s -> P (snd (ProcessAnalyticsEvent s req now up))) ->
  forall calls s, P s -> P (process_events s calls).
Proof.
  intros Hstep calls. induction calls as [|c calls IH]; intros s Hs; cbn; auto.
Qed.

(** X7. A service started on an empty rewards collection and fed any
    sequence of events, with the store failing whenever it likes: at
    every point each cache marks exactly the (key, type) pairs of the
    records on its dimension, no two records share a type under the
    same organization key or under the same non-empty developer key,
    and no record has an empty organization key. *)
Theorem run_from_empty_ledger (claims : list claim) (config : Config)
    (s0 : Service) (calls : list event_call) :
  New [] claims config = Ok s0 ->
  let s := process_events s0 calls in
  (forall k t, cache_has (rewardsCacheOrg s) k t = true
     <-> exists r, In r (rewardsCol s)
                   /\ reward_OrgKey r = k /\ reward_Type r = t)
  /\ (forall k t, cache_has (rewardsCacheDev s) k t = true
       <-> exists r, In r (rewardsCol s)
                     /\ reward_DevKey r = k /\ reward_Type r = t)
  /\ (forall (i j : nat) r1 r2,
        rewardsCol s !! i = Some r1 -> rewardsCol s !! j = Some r2 ->
        reward_OrgKey r1 = reward_OrgKey r2 ->
        reward_Type r1 = reward_Type r2 -> i = j)
  /\ dev_unique (rewardsCol s)
  /\ (forall r, In r (rewardsCol s) -> reward_OrgKey r <> "").
Proof.
  intros HN. cbv zeta.
  set (P := fun s : Service =>
    (org_cache_sound s /\ dev_cache_sound s
     /\ org_cache_complete s /\ dev_cache_complete s)
    /\ (org_unique (rewardsCol s) /\ dev_unique (rewardsCol s))
    /\ (forall r, In r (rewardsCol s) -> reward_OrgKey r <> "")).
  assert (HP : P (process_events s0 calls)).
  { apply process_events_invariant.
    - intros s req now up ((H1 & H2 & H3 & H4) & (H5 & H6) & H7).
      split.
      { destruct (grant_preserves_sound s req now up H1 H2).
        destruct (event_keeps_complete s req now up H3 H4). auto. }
      split; [apply unique_step; assumption|].
      destruct (event_outcome_holds s req now up)
        as [?|?|?|?|co cd Hg Hup Hdup Hco Hcd]; cbn [snd]; auto.
      cbn [rewardsCol with_caches with_rewards].
      intros r Hr. apply in_app_or in Hr as [Hr|[<-|[]]]; [auto|].
      apply Hg.
    - unfold New in HN. cbn in HN. injection HN as <-.
      split; [|split].
      + split; [|split; [|split]].
        * intros k t H. cbn in H. rewrite cache_has_empty in H. discriminate H.
        * intros k t H. cbn in H. rewrite cache_has_empty in H. discriminate H.
        * intros r [].
        * intros r [].
      + split; [apply org_unique_nil|apply dev_unique_nil].
      + intros r [].
  }
  destruct HP as ((H1 & H2 & H3 & H4) & (H5 & H6) & H7).
  split; [|split; [|split; [|split]]]; try assumption.
  - intros k t. split; [apply H1|].
    intros (r & Hr & <- & <-). apply H3, Hr.
  - intros k t. split; [apply H2|].
    intros (r & Hr & <- & <-). apply H4, Hr.
  - intros i j r1 r2 Hi Hj. apply (H5 i j r1 r2 Hi Hj).
    apply H7, list_elem_of_In, list_elem_of_lookup. eauto.
Qed.

(** Two events on a service started on an empty store. *)
Lemma run_from_empty_ledger_witness :
  let s := process_events (service_of (New [] [] config100))
             [ {| call_request := event_request "d" "d" EVENT_ORG_CREATED;
                  call_now := 1; call_up := true |};
               {| call_request := event_request "o" "d" EVENT_ORG_CREATED;
                  call_now := 2; call_up := true |} ] in
  dev_unique (rewardsCol s)
  /\ (forall r, In r (rewardsCol s) -> reward_OrgKey r <> "").
Proof.
  cbv zeta.
  destruct (run_from_empty_ledger [] config100
              (service_of (New [] [] config100))
              [ {| call_request := event_request "d" "d" EVENT_ORG_CREATED;
                   call_now := 1; call_up := true |};
                {| call_request := event_request "o" "d" EVENT_ORG_CREATED;
                   call_now := 2; call_up := true |} ] eq_refl)
    as (_ & _ & _ & H4 & H5).
  split; assumption.
Defined.

(** X8. A granted reward never carries the unspecified type or the zero
    factor of a missing table entry: its factor is 1, 2 or 3, its
    organization key is not empty, and its creation time is the time of
    the call. *)
Theorem granted_reward_shape (s : Service) (req : ProcessAnalyticsEventRequest)
    (now : time) (up : bool) (granted : pb_Reward) :
  fst (ProcessAnalyticsEvent s req now up)
  = Ok {| Response_Reward := Some granted |} ->
  pb_Reward_Type granted <> REWARD_TYPE_UNSPECIFIED
  /\ 1 <= pb_Reward_Factor granted <= 3
  /\ pb_Reward_OrgKey granted <> ""
  /\ pb_Reward_CreatedAt granted = now.
Proof.
  intros H.
  destruct (event_outcome_holds s req now up)
    as [?|?|?|?|co cd Hg Hup Hdup Hco Hcd]; try discriminate H.
  cbn [fst] in H. injection H as <-.
  destruct Hg as (Hk & _ & Ht & _).
  cbn [toPbReward new_reward pb_Reward_Type pb_Reward_Factor pb_Reward_OrgKey
       pb_Reward_CreatedAt reward_OrgKey reward_DevKey reward_Type
       reward_Factor reward_BaseAttoFILReward reward_CreatedAt].
  repeat split; try assumption;
    destruct (Request_AnalyticsEvent req); cbn in *; try lia; contradiction.
Qed.

(** The first-bucket event of (org1, dev1) on the store with no
    records. *)
Lemma granted_reward_shape_witness :
  let granted := toPbReward (mk_reward "org1" "dev1"
                               REWARD_TYPE_FIRST_BUCKET_CREATED 2 100 7) in
  fst (ProcessAnalyticsEvent empty_store
         (event_request "org1" "dev1" EVENT_BUCKET_CREATED) 7 true)
  = Ok {| Response_Reward := Some granted |}
  /\ pb_Reward_Type granted <> REWARD_TYPE_UNSPECIFIED
  /\ 1 <= pb_Reward_Factor granted <= 3
  /\ pb_Reward_OrgKey granted <> ""
  /\ pb_Reward_CreatedAt granted = 7.
Proof.
  cbv zeta. split; [reflexivity|].
  exact (granted_reward_shape empty_store
           (event_request "org1" "dev1" EVENT_BUCKET_CREATED) 7 true
           (toPbReward (mk_reward "org1" "dev1"
                          REWARD_TYPE_FIRST_BUCKET_CREATED 2 100 7))
           eq_refl).
Defined.

(** ** [get] *)

Lemma find_snoc_none {A : Type} (f : A -> bool) (l : list A) (y : A) :
  (forall x, In x l -> f x = false) ->
  List.find f (l ++ [y]) = if f y then Some y else None.
Proof.
  induction l as [|x l IH]; intros H; cbn; [reflexivity|].
  rewrite (H x) by (left; reflexivity).
  apply IH. intros z Hz. apply H. right. exact Hz.
Qed.

Lemma get_filter_matches (k : string) (t : RewardType) (r : reward) :
  reward_matches {| rf_org_key := Some k; rf_dev_key := None;
                    rf_type := Some t; rf_created_at := None |} r = true
  <-> reward_OrgKey r = k /\ reward_Type r = t.
Proof.
  unfold reward_matches. cbn. rewrite !andb_true_r, andb_true_iff.
  rewrite String.eqb_eq, bool_decide_eq_true. reflexivity.
Qed.

(** X9. [get] answers with a record of the ledger that has the
    organization key and the type asked for, and it fails exactly when
    the ledger has no such record. *)
Theorem get_correct (s : Service) (k : string) (t : RewardType) :
  match get s k t with
  | Ok r => In r (rewardsCol s) /\ reward_OrgKey r = k /\ reward_Type r = t
  | Err _ =>
      ~ exists r, In r (rewardsCol s) /\ reward_OrgKey r = k /\ reward_Type r = t
  | Panic => False
  end.
Proof.
  unfold get, FindOne.
  destruct (List.find _ (rewardsCol s)) as [r|] eqn:E.
  - apply List.find_some in E as [Hin Hm].
    apply get_filter_matches in Hm. auto.
  - intros (r & Hin & Hk & Ht).
    pose proof (List.find_none _ _ E r Hin) as Hm.
    assert (Hm' : reward_matches
                    {| rf_org_key := Some k; rf_dev_key := None;
                       rf_type := Some t; rf_created_at := None |} r = true)
      by (apply get_filter_matches; auto).
    congruence.
Qed.

(** X10. Grant, then look up: after a call that returned a reward, [get]
    with the request's organization key and the granted type returns a
    record that agrees with the response on organization key, developer
    key, type, factor and base amount. (The creation time is left out:
    the store keeps it at its own resolution.) *)
Theorem get_after_grant (s : Service) (req : ProcessAnalyticsEventRequest)
    (now : time) (up : bool) (granted : pb_Reward) :
  fst (ProcessAnalyticsEvent s req now up)
  = Ok {| Response_Reward := Some granted |} ->
  exists r,
    get (snd (ProcessAnalyticsEvent s req now up))
      (Request_OrgKey req) (pb_Reward_Type granted) = Ok r
    /\ reward_OrgKey r = pb_Reward_OrgKey granted
    /\ reward_DevKey r = pb_Reward_DevKey granted
    /\ reward_Type r = pb_Reward_Type granted
    /\ reward_Factor r = pb_Reward_Factor granted
    /\ reward_BaseAttoFILReward r = pb_Reward_BaseAttoFilReward granted.
Proof.
  intros H.
  destruct (event_outcome_holds s req now up)
    as [?|?|?|?|co cd Hg Hup Hdup Hco Hcd]; try discriminate H.
  cbn [fst snd] in *. injection H as <-.
  destruct Hg as (Hk & _).
  eexists. split; [|repeat split].
  unfold get, FindOne. cbn [rewardsCol with_caches with_rewards].
  rewrite find_snoc_none.
  - cbn [toPbReward pb_Reward_Type new_reward reward_Type].
    rewrite (proj2 (get_filter_matches _ _ _)) by (split; reflexivity).
    reflexivity.
  - intros x Hx.
    destruct (duplicate_key_false _ _ _ Hdup Hx) as [Eo _].
    destruct (reward_matches _ x) eqn:Em; [|reflexivity].
    apply get_filter_matches in Em as [Exk Ext].
    rewrite same_org_type_true in Eo; [discriminate Eo|exact Hk|exact Exk|exact Ext].
Qed.

(** Five rewards of org1 in the ledger, among them its first-bucket
    reward; the first-bucket event of (org2, dev2) is granted, and
    [get] for org2 finds the new record, not the one of org1. *)
Lemma get_after_grant_witness :
  let req := event_request "org2" "dev2" EVENT_BUCKET_CREATED in
  let granted := toPbReward (mk_reward "org2" "dev2"
                               REWARD_TYPE_FIRST_BUCKET_CREATED 2 100 9) in
  fst (ProcessAnalyticsEvent five_rewards req 9 true)
  = Ok {| Response_Reward := Some granted |}
  /\ exists r,
       get (snd (ProcessAnalyticsEvent five_rewards req 9 true))
         "org2" REWARD_TYPE_FIRST_BUCKET_CREATED = Ok r
       /\ reward_OrgKey r = "org2"
       /\ reward_DevKey r = "dev2"
       /\ reward_Type r = REWARD_TYPE_FIRST_BUCKET_CREATED
       /\ reward_Factor r = 2
       /\ reward_BaseAttoFILReward r = 100.
Proof.
  cbv zeta. split; [reflexivity|].
  exact (get_after_grant five_rewards
           (event_request "org2" "dev2" EVENT_BUCKET_CREATED) 9 true
           (toPbReward (mk_reward "org2" "dev2"
                          REWARD_TYPE_FIRST_BUCKET_CREATED 2 100 9))
           eq_refl).
Defined.

(** ** Starting the service *)

Lemma ensure_lookup (c : cache) (k k' : string) :
  is_Some (ensureKeyRewardCache c k !! k') <-> k' = k \/ is_Some (c !! k').
Proof.
  unfold ensureKeyRewardCache. destruct (c !! k) eqn:E.
  - split; [auto|]. intros [->|H]; [rewrite E; eauto|exact H].
  - destruct (decide (k' = k)) as [->|Hne].
    + rewrite lookup_insert_eq. split; eauto.
    + rewrite lookup_insert_ne by done. split; [auto|]. intros [?|?]; done.
Qed.

Lemma cache_set_lookup (c c' : cache) (k k' : string) (t : RewardType) :
  cache_set c k t = Some c' -> (is_Some (c' !! k') <-> is_Some (c !! k')).
Proof.
  unfold cache_set. destruct (c !! k) as [types|] eqn:E; [|discriminate].
  intros [= <-]. destruct (decide (k' = k)) as [->|Hne].
  - rewrite lookup_insert_eq, E. split; eauto.
  - rewrite lookup_insert_ne by done. reflexivity.
Qed.

Lemma cache_set_some_iff (c : cache) (k : string) (t : RewardType) :
  (exists c', cache_set c k t = Some c') <-> is_Some (c !! k).
Proof.
  unfold cache_set. destruct (c !! k); split; eauto.
  - intros [c' H]. discriminate H.
  - intros [x H]. discriminate H.
Qed.

(** The seeding loop returns exactly when every developer key it meets
    is already a key of the organization cache: a key it started with,
    or the organization key of the record or of one before it. *)
Lemma populate_returns_iff (recs : list reward) (co cd : cache) :
  (exists res, populate recs co cd = Ok res)
  <-> forall l1 r l2, recs = l1 ++ r :: l2 ->
        is_Some (co !! reward_DevKey r)
        \/ exists r', In r' (l1 ++ [r]) /\ reward_OrgKey r' = reward_DevKey r.
Proof.
  revert co cd. induction recs as [|rec rest IH]; intros co cd.
  - split; [|eauto]. intros _ l1 r l2 H. destruct l1; discriminate H.
  - cbn [populate].
    destruct (cache_set_ensure co (reward_OrgKey rec) (reward_Type rec))
      as [co2 Hco2]. rewrite Hco2.
    assert (Hkeys : forall x, is_Some (co2 !! x)
                      <-> x = reward_OrgKey rec \/ is_Some (co !! x)).
    { intros x. rewrite (cache_set_lookup _ _ _ x _ Hco2). apply ensure_lookup. }
    destruct (cache_set co2 (reward_DevKey rec) (reward_Type rec))
      as [co3|] eqn:Hco3.
    + assert (Hdev : is_Some (co2 !! reward_DevKey rec))
        by (apply (proj1 (cache_set_some_iff co2 _ (reward_Type rec))); eauto).
      assert (Hkeys3 : forall x, is_Some (co3 !! x)
                         <-> x = reward_OrgKey rec \/ is_Some (co !! x)).
      { intros x. rewrite (cache_set_lookup _ _ _ x _ Hco3). apply Hkeys. }
      rewrite IH. split.
      * intros H l1 r l2 E. destruct l1 as [|x l1]; injection E as <- ->.
        -- destruct (proj1 (Hkeys _) Hdev) as [Hd|Hd]; [right|left; exact Hd].
           exists rec. split; [left; reflexivity|symmetry; exact Hd].
        -- destruct (H l1 r l2 eq_refl) as [Hs|(r' & Hin & Hr')].
           ++ destruct (proj1 (Hkeys3 _) Hs) as [Hs'|Hs'];
                [right|left; exact Hs'].
              exists rec. split; [left; reflexivity|symmetry; exact Hs'].
           ++ right. exists r'. split; [right; exact Hin|exact Hr'].
      * intros H l1 r l2 ->.
        destruct (H (rec :: l1) r l2 eq_refl) as [Hs|(r' & [<-|Hin] & Hr')].
        -- left. apply (proj2 (Hkeys3 _)). auto.
        -- left. apply (proj2 (Hkeys3 _)). auto.
        -- right. eauto.
    + split; [intros [res H]; discriminate H|].
      intros H. exfalso.
      assert (Hdev : is_Some (co2 !! reward_DevKey rec)).
      { apply (proj2 (Hkeys _)).
        destruct (H [] rec rest eq_refl) as [Hs|(r' & [<-|[]] & Hr')]; auto. }
      destruct (proj2 (cache_set_some_iff co2 _ (reward_Type rec)) Hdev)
        as [c' Hc']. rewrite Hc' in Hco3.
      discriminate Hco3.
Qed.

Lemma populate_never_errs (recs : list reward) (co cd : cache) (e : string) :
  populate recs co cd <> Err e.
Proof.
  revert co cd. induction recs as [|rec rest IH]; intros co cd; cbn [populate];
    [discriminate|].
  destruct (cache_set _ (reward_OrgKey rec) _); [|discriminate].
  destruct (cache_set _ (reward_DevKey rec) _); [|discriminate].
  apply IH.
Qed.

(** X11. On a rewards collection that satisfies the two unique indexes
    (so that creating them succeeds), [New] returns a service exactly
    when every record's developer key is the organization key of that
    record or of a record before it in the collection; on any other
    such collection the seeding loop writes through a key the
    organization cache does not have, and [New] panics. *)
Theorem New_returns_iff (rewards : list reward) (claims : list claim)
    (config : Config) :
  org_unique rewards -> dev_unique rewards ->
  ((exists s, New rewards claims config = Ok s) <-> dev_keys_seen rewards)
  /\ (New rewards claims config = Panic <-> ~ dev_keys_seen rewards).
Proof.
  intros _ _.
  assert (Hiff : (exists res, populate rewards ∅ ∅ = Ok res)
                 <-> dev_keys_seen rewards).
  { rewrite populate_returns_iff. unfold dev_keys_seen.
    split; intros H l1 r l2 E.
    - destruct (H l1 r l2 E) as [[x Hx]|Hr]; [|exact Hr].
      rewrite lookup_empty in Hx. discriminate Hx.
    - right. eauto. }
  unfold New.
  destruct (populate rewards ∅ ∅) as [[co cd]|e|] eqn:E.
  - split; [split; [intros _; apply Hiff; eauto|eauto]|].
    split; [discriminate|]. intros Hn. exfalso. apply Hn, Hiff. eauto.
  - exfalso. exact (populate_never_errs _ _ _ _ E).
  - split.
    + split; [intros [s H]; discriminate H|].
      intros H. apply Hiff in H as [res H]. discriminate H.
    + split; [|reflexivity]. intros _ H.
      apply Hiff in H as [res H]. discriminate H.
Qed.

(** Two collections within the indexes: on (d, d, first-org-created),
    (o, d, first-bucket-created) every developer key was seen as an
    organization key and [New] returns; on the single record (org1,
    dev1, first-bucket-created) it was not, and [New] panics. *)
Lemma New_returns_iff_witness :
  (org_unique ledger_d_then_o /\ dev_unique ledger_d_then_o
   /\ dev_keys_seen ledger_d_then_o
   /\ exists s, New ledger_d_then_o [] config100 = Ok s)
  /\ (org_unique ledger_org1_dev1 /\ dev_unique ledger_org1_dev1
      /\ New ledger_org1_dev1 [] config100 = Panic
      /\ ~ dev_keys_seen ledger_org1_dev1).
Proof.
  assert (Ho2 : org_unique ledger_d_then_o).
  { apply (org_unique_snoc
             [mk_reward "d" "d" REWARD_TYPE_FIRST_ORG_CREATED 3 100 1]);
      [apply org_unique_one|]. intros x [<-|[]]. reflexivity. }
  assert (Hd2 : dev_unique ledger_d_then_o).
  { apply (dev_unique_snoc
             [mk_reward "d" "d" REWARD_TYPE_FIRST_ORG_CREATED 3 100 1]);
      [apply dev_unique_one|]. intros x [<-|[]]. reflexivity. }
  assert (Ho1 : org_unique ledger_org1_dev1) by apply org_unique_one.
  assert (Hd1 : dev_unique ledger_org1_dev1) by apply dev_unique_one.
  split.
  - split; [exact Ho2|]. split; [exact Hd2|].
    assert (Hok : exists s, New ledger_d_then_o [] config100 = Ok s)
      by (eexists; vm_compute; reflexivity).
    split; [|exact Hok].
    exact (proj1 (proj1 (New_returns_iff ledger_d_then_o [] config100 Ho2 Hd2))
             Hok).
  - split; [exact Ho1|]. split; [exact Hd1|].
    assert (Hp : New ledger_org1_dev1 [] config100 = Panic)
      by (vm_compute; reflexivity).
    split; [exact Hp|].
    exact (proj1 (proj2 (New_returns_iff ledger_org1_dev1 [] config100 Ho1 Hd1))
             Hp).
Defined.

Lemma populate_org_marks (recs : list reward) (co cd co' cd' : cache) :
  populate recs co cd = Ok (co', cd') ->
  forall k t,
    cache_has co' k t = true
    <-> cache_has co k t = true
        \/ exists r, In r recs
                      /\ (reward_OrgKey r = k \/ reward_DevKey r = k)
                      /\ reward_Type r = t.
Proof.
  revert co cd. induction recs as [|rec rest IH]; intros co cd H k t.
  - injection H as <- <-. split; [auto|]. intros [?|(r & [] & _)]. assumption.
  - cbn [populate] in H.
    destruct (cache_set _ (reward_OrgKey rec) _) as [co2|] eqn:E2; [|discriminate].
    destruct (cache_set co2 (reward_DevKey rec) _) as [co3|] eqn:E3; [|discriminate].
    rewrite (IH _ _ H k t).
    rewrite (cache_has_set _ _ _ _ _ _ E3), (cache_has_set _ _ _ _ _ _ E2).
    rewrite cache_has_ensure, !orb_true_iff, !bool_decide_eq_true.
    split.
    + intros [[[-> ->]|[[-> ->]|Hc]]|(r & Hin & Hr)].
      * right. exists rec. split; [left; reflexivity|auto].
      * right. exists rec. split; [left; reflexivity|auto].
      * left. exact Hc.
      * right. exists r. split; [right; exact Hin|exact Hr].
    + intros [Hc|(r & [<-|Hin] & [Hk|Hk] & Ht)]; eauto 7.
Qed.

Lemma seeded_caches (rewards : list reward) (claims : list claim)
    (config : Config) (s : Service) :
  New rewards claims config = Ok s ->
  (forall k t,
     cache_has (rewardsCacheOrg s) k t = true
     <-> exists r, In r rewards
                   /\ (reward_OrgKey r = k \/ reward_DevKey r = k)
                   /\ reward_Type r = t)
  /\ (forall k t, cache_has (rewardsCacheDev s) k t = false)
  /\ rewardsCol s = rewards
  /\ claimsCol s = claims
  /\ baseAttoFILReward s = Config_BaseAttoFILReward config.
Proof.
  unfold New. destruct (populate rewards ∅ ∅) as [[co cd]|e|] eqn:E;
    [|discriminate..].
  intros [= <-]. cbn. split; [|split; [|auto]].
  - intros k t. rewrite (populate_org_marks _ _ _ _ _ E k t).
    rewrite cache_has_empty. split; [intros [H|H]; [discriminate H|exact H]|auto].
  - intros k t. rewrite (populate_dev_unmarked _ _ _ _ _ E k t).
    apply cache_has_empty.
Qed.

(** X12. What the caches of a started service mark: the organization
    cache marks (k, t) exactly when some record of type t has k as its
    organization key or as its developer key, and the developer cache
    marks nothing; the service holds the collections it was started on
    and the configured base amount. *)
Theorem New_caches (rewards : list reward) (claims : list claim)
    (config : Config) (s : Service) :
  New rewards claims config = Ok s ->
  (forall k t,
     cache_has (rewardsCacheOrg s) k t = true
     <-> exists r, In r rewards
                   /\ (reward_OrgKey r = k \/ reward_DevKey r = k)
                   /\ reward_Type r = t)
  /\ (forall k t, cache_has (rewardsCacheDev s) k t = false)
  /\ rewardsCol s = rewards
  /\ claimsCol s = claims
  /\ baseAttoFILReward s = Config_BaseAttoFILReward config.
Proof. apply seeded_caches. Qed.

(** A ledger on which [New] returns. *)
Lemma New_caches_witness :
  New ledger_d_then_o [] config100
  = Ok (service_of (New ledger_d_then_o [] config100))
  /\ forall k t,
       cache_has (rewardsCacheDev (service_of (New ledger_d_then_o [] config100)))
         k t = false.
Proof.
  split; [vm_compute; reflexivity|].
  refine (proj1 (proj2 (New_caches ledger_d_then_o [] config100
                          (service_of (New ledger_d_then_o [] config100)) _))).
  vm_compute. reflexivity.
Defined.

(** X13. Organization-level idempotency survives a restart: on a service
    just started, an event whose reward type the ledger already holds
    under the request's organization key gets the empty response and
    appends nothing. *)
Theorem restart_keeps_org_idempotency (rewards : list reward)
    (claims : list claim) (config : Config) (s : Service)
    (req : ProcessAnalyticsEventRequest) (now : time) (up : bool)
    (r : reward) :
  New rewards claims config = Ok s ->
  In r rewards ->
  Request_OrgKey req <> "" ->
  Request_AnalyticsEvent req <> EVENT_UNSPECIFIED ->
  reward_OrgKey r = Request_OrgKey req ->
  reward_Type r = reward_type_of (Request_AnalyticsEvent req) ->
  fst (ProcessAnalyticsEvent s req now up) = Ok {| Response_Reward := None |}
  /\ rewardsCol (snd (ProcessAnalyticsEvent s req now up)) = rewards.
Proof.
  intros HN Hin Hk He Hok Ht.
  destruct (seeded_caches _ _ _ _ HN) as (Hmarks & _ & Hcol & _).
  assert (Hc : cache_has (rewardsCacheOrg s) (Request_OrgKey req)
                 (reward_type_of (Request_AnalyticsEvent req)) = true).
  { apply Hmarks. exists r. auto. }
  rewrite (PAE_past_checks s req now up Hk He). cbv zeta. rewrite Hc.
  destruct (bool_decide _); cbn; auto.
Qed.

(** Started on the ledger (d, d, first-org-created), (o, d,
    first-bucket-created): organization o's first-bucket event. *)
Lemma restart_keeps_org_idempotency_witness :
  fst (ProcessAnalyticsEvent (service_of (New ledger_d_then_o [] config100))
         (event_request "o" "x" EVENT_BUCKET_CREATED) 9 true)
  = Ok {| Response_Reward := None |}
  /\ rewardsCol (snd (ProcessAnalyticsEvent
                        (service_of (New ledger_d_then_o [] config100))
                        (event_request "o" "x" EVENT_BUCKET_CREATED) 9 true))
     = ledger_d_then_o.
Proof.
  apply (restart_keeps_org_idempotency ledger_d_then_o [] config100
           (service_of (New ledger_d_then_o [] config100))
           (event_request "o" "x" EVENT_BUCKET_CREATED) 9 true
           (mk_reward "o" "d" REWARD_TYPE_FIRST_BUCKET_CREATED 2 100 2)).
  - vm_compute. reflexivity.
  - right. left. reflexivity.
  - cbn. congruence.
  - cbn. congruence.
  - reflexivity.
  - reflexivity.
Defined.

(** ** Totals *)

Lemma sum_field_amt_wide (rs : list reward) (a : Z) (w : bool) :
  fold_left (fun a d => sum_step a (doc_get d "amt"))
    (stage_project_multiply "amt" "factor" "base_atto_fil_reward"
       (map reward_bson rs)) (a, w)
  = (a + sum_Z (map reward_amount rs),
     w || negb (forallb (fun r => in_int32 (reward_amount r)) rs)).
Proof.
  revert a w. induction rs as [|r rs IH]; intros a w.
  - cbn. rewrite Z.add_0_r, orb_false_r. reflexivity.
  - cbn [map stage_project_multiply fold_left].
    change (doc_get (reward_bson r) "factor") with (Some (BInt32 (reward_Factor r))).
    change (doc_get (reward_bson r) "base_atto_fil_reward")
      with (Some (BInt32 (reward_BaseAttoFILReward r))).
    cbn [bson_multiply]. unfold int_or_long.
    fold (reward_amount r). cbn [forallb sum_Z].
    unfold stage_project_multiply in IH.
    destruct (in_int32 (reward_amount r)) eqn:E.
    + change (doc_get [("amt", BInt32 (reward_amount r))] "amt")
        with (Some (BInt32 (reward_amount r))).
      cbn [sum_step fst snd]. rewrite IH. cbn [andb]. f_equal. lia.
    + change (doc_get [("amt", BInt64 (reward_amount r))] "amt")
        with (Some (BInt64 (reward_amount r))).
      cbn [sum_step fst snd]. rewrite IH. cbn [andb negb].
      rewrite orb_true_r. f_equal. lia.
Qed.

Lemma totalRewarded_cases (s : Service) (k : string) :
  totalRewarded s k
  = match org_rewards s k with
    | [] => Err "no total rewarded calculation found"
    | _ :: _ =>
        if rewarded_fits (org_rewards s k) then Ok (ledger_rewarded s k)
        else Panic
    end.
Proof.
  unfold totalRewarded, ledger_rewarded, rewarded_fits, org_rewards.
  rewrite stage_match_org_key.
  destruct (List.filter _ (rewardsCol s)) as [|r rs]; [reflexivity|].
  unfold stage_group_sum. cbn [map stage_project_multiply].
  change (?d :: map ?f (map reward_bson rs))
    with (stage_project_multiply "amt" "factor" "base_atto_fil_reward"
            (map reward_bson (r :: rs))).
  unfold sum_field. rewrite sum_field_amt_wide.
  unfold sum_result. cbn [fst snd orb]. rewrite Z.add_0_l.
  destruct (forallb _ (r :: rs)); cbn [negb andb]; [|reflexivity].
  unfold int_or_long. destruct (in_int32 _); reflexivity.
Qed.

(** X14. What [totalRewarded] returns, in full: an error when the
    organization has no Reward record; the sum of factor times base
    amount over its records when every product and the sum fit 32 bits;
    and a panic otherwise, because the store then hands back a long and
    the total is read as an int32. It never returns a wrapped sum. *)
Theorem totalRewarded_eq (s : Service) (k : string) :
  totalRewarded s k
  = match org_rewards s k with
    | [] => Err "no total rewarded calculation found"
    | _ :: _ =>
        if rewarded_fits (org_rewards s k) then Ok (ledger_rewarded s k)
        else Panic
    end.
Proof. apply totalRewarded_cases. Qed.

Lemma wrap32_fits (z : Z) : in_int32 z = true -> wrap32 z = z.
Proof.
  unfold in_int32, wrap32, min_int32, max_int32.
  intros H. apply andb_prop in H as [H1 H2].
  apply Z.leb_le in H1, H2. rewrite Z.mod_small; lia.
Qed.

Lemma Balance_cases (s : Service) (k : string) :
  Balance s k
  = match org_rewards s k with
    | [] => Err Internal
    | _ :: _ =>
        if rewarded_fits (org_rewards s k) then
          Ok {| Rewarded := ledger_rewarded s k;
                Claimed := 0;
                Available := ledger_rewarded s k |}
        else Panic
    end.
Proof.
  unfold Balance. rewrite totalRewarded_cases, totalClaimed_eq.
  destruct (org_rewards s k) as [|r rs] eqn:E; [reflexivity|].
  destruct (rewarded_fits (r :: rs)) eqn:F; [|reflexivity].
  unfold sub32. rewrite Z.sub_0_r, wrap32_fits; [reflexivity|].
  unfold rewarded_fits in F. apply andb_prop in F as [_ F].
  unfold ledger_rewarded. rewrite E. exact F.
Qed.

(** X15. What [Balance] answers, in full: an internal error when the
    organization has no Reward record; otherwise, when the amounts fit
    32 bits, the ledger's rewarded total with claimed 0 and available
    equal to rewarded, whatever the claims collection holds; and a
    panic when they do not fit. *)
Theorem Balance_eq (s : Service) (k : string) :
  Balance s k
  = match org_rewards s k with
    | [] => Err Internal
    | _ :: _ =>
        if rewarded_fits (org_rewards s k) then
          Ok {| Rewarded := ledger_rewarded s k;
                Claimed := 0;
                Available := ledger_rewarded s k |}
        else Panic
    end.
Proof. apply Balance_cases. Qed.

(** X16. What [Claim] does, in full: with no Reward record for the
    organization it fails with an internal error; with amounts that do
    not fit 32 bits it panics; otherwise it compares the requested
    amount with the ledger's rewarded total alone, refuses a larger
    amount with invalid-argument, and else appends the claim (or fails
    with an internal error when the store refuses the insert). *)
Theorem Claim_eq (s : Service) (req : ClaimRequest) (now : time) (up : bool) :
  Claim s req now up
  = match org_rewards s (ClaimRequest_OrgKey req) with
    | [] => (Err Internal, s)
    | _ :: _ =>
        if rewarded_fits (org_rewards s (ClaimRequest_OrgKey req)) then
          if ledger_rewarded s (ClaimRequest_OrgKey req)
             <? ClaimRequest_Amount req
          then (Err InvalidArgument, s)
          else if up then
            (Ok tt, with_claims s (claimsCol s ++ [new_claim req now]))
          else (Err Internal, s)
        else (Panic, s)
    end.
Proof.
  unfold Claim. rewrite totalRewarded_cases, totalClaimed_eq.
  destruct (org_rewards s (ClaimRequest_OrgKey req)) as [|r rs] eqn:E;
    [reflexivity|].
  destruct (rewarded_fits (r :: rs)) eqn:F; [|reflexivity].
  unfold sub32. rewrite Z.sub_0_r, wrap32_fits.
  - destruct (_ <? _); [reflexivity|]. destruct up; reflexivity.
  - unfold rewarded_fits in F. apply andb_prop in F as [_ F].
    unfold ledger_rewarded. rewrite E. exact F.
Qed.

Lemma sum_Z_app (l1 l2 : list Z) : sum_Z (l1 ++ l2) = sum_Z l1 + sum_Z l2.
Proof. induction l1 as [|x l1 IH]; cbn; [reflexivity|]. rewrite IH. lia. Qed.

(** X17. A grant raises the ledger's rewarded total of the request's
    organization by factor times base amount of the granted reward, and
    leaves every other organization's records, and with them what
    [totalRewarded] and [Balance] answer for it, as they were. *)
Theorem grant_raises_rewarded (s : Service) (req : ProcessAnalyticsEventRequest)
    (now : time) (up : bool) (granted : pb_Reward) :
  fst (ProcessAnalyticsEvent s req now up)
  = Ok {| Response_Reward := Some granted |} ->
  let s' := snd (ProcessAnalyticsEvent s req now up) in
  ledger_rewarded s' (Request_OrgKey req)
  = ledger_rewarded s (Request_OrgKey req)
    + pb_Reward_Factor granted * pb_Reward_BaseAttoFilReward granted
  /\ forall k, k <> Request_OrgKey req ->
       org_rewards s' k = org_rewards s k
       /\ totalRewarded s' k = totalRewarded s k
       /\ Balance s' k = Balance s k.
Proof.
  intros H. cbv zeta.
  destruct (event_outcome_holds s req now up)
    as [?|?|?|?|co cd Hg Hup Hdup Hco Hcd]; try discriminate H.
  cbn [fst snd] in *. injection H as <-.
  assert (Hor : forall k,
            org_rewards
              (with_caches
                 (with_rewards s
                    (rewardsCol s
                     ++ [new_reward s req
                           (reward_type_of (Request_AnalyticsEvent req)) now]))
                 co cd) k
            = org_rewards s k
              ++ (if String.eqb (Request_OrgKey req) k
                  then [new_reward s req
                          (reward_type_of (Request_AnalyticsEvent req)) now]
                  else [])).
  { intros k. unfold org_rewards. cbn [rewardsCol with_caches with_rewards].
    rewrite List.filter_app. reflexivity. }
  split.
  - unfold ledger_rewarded. rewrite Hor, String.eqb_refl.
    rewrite List.map_app, sum_Z_app. cbn. unfold reward_amount. cbn. lia.
  - intros k Hk.
    assert (E : org_rewards
                  (with_caches
                     (with_rewards s
                        (rewardsCol s
                         ++ [new_reward s req
                               (reward_type_of (Request_AnalyticsEvent req)) now]))
                     co cd) k
                = org_rewards s k).
    { rewrite Hor. apply not_eq_sym, String.eqb_neq in Hk. rewrite Hk.
      apply app_nil_r. }
    split; [exact E|].
    rewrite !totalRewarded_cases, !Balance_cases. unfold ledger_rewarded.
    rewrite !E. split; reflexivity.
Qed.

(** The first-bucket event of (org1, dev1) on the store with no records:
    the rewarded total of org1 goes from 0 to 2 x 100. *)
Lemma grant_raises_rewarded_witness :
  let s' := snd (ProcessAnalyticsEvent empty_store
                   (event_request "org1" "dev1" EVENT_BUCKET_CREATED) 7 true) in
  ledger_rewarded s' "org1" = ledger_rewarded empty_store "org1" + 2 * 100.
Proof.
  exact (proj1 (grant_raises_rewarded empty_store
                  (event_request "org1" "dev1" EVENT_BUCKET_CREATED) 7 true
                  (toPbReward (mk_reward "org1" "dev1"
                                 REWARD_TYPE_FIRST_BUCKET_CREATED 2 100 7))
                  eq_refl)).
Defined.

(** ** Pages *)

Section FindFacts.
Context {A : Type} (key : A -> time).

Lemma apply_limit_prefix (limit : option Z) (l : list A) :
  exists rest, l = apply_limit limit l ++ rest.
Proof.
  destruct limit as [n|]; cbn.
  - exists (drop (Z.to_nat n) l). symmetry. apply take_drop.
  - exists []. symmetry. apply app_nil_r.
Qed.

Lemma Find_In (m : A -> bool) sort limit col x :
  In x (Find key m sort limit col) -> In x col /\ m x = true.
Proof.
  unfold Find. intros H. apply List.filter_In.
  apply (Permutation_in _ (sort_perm key sort _)).
  destruct (apply_limit_prefix limit
              (sort_by_created_at key sort (List.filter m col))) as [rest E].
  rewrite E. apply in_or_app. left. exact H.
Qed.

Lemma Find_sorted (m : A -> bool) sort limit col :
  StronglySorted (fun x y => goes_first key sort x y = true)
    (Find key m sort limit col).
Proof.
  unfold Find.
  destruct (apply_limit_prefix limit
              (sort_by_created_at key sort (List.filter m col))) as [rest E].
  pose proof (sort_sorted key sort (List.filter m col)) as Hs.
  rewrite E in Hs. exact (StronglySorted_app_1_l _ _ _ Hs).
Qed.

Lemma Find_length (m : A -> bool) sort (n : Z) col :
  (length (Find key m sort (Some n) col) <= Z.to_nat n)%nat.
Proof. unfold Find. cbn. rewrite length_take. lia. Qed.

End FindFacts.

Lemma StronglySorted_map {A B : Type} (f : A -> B) (R : B -> B -> Prop)
    (l : list A) :
  StronglySorted (fun x y => R (f x) (f y)) l -> StronglySorted R (map f l).
Proof.
  induction 1 as [|x l Hl IH Hx]; cbn; constructor; [exact IH|].
  apply List.Forall_map. exact Hx.
Qed.

Lemma StronglySorted_weaken {A : Type} (R R' : A -> A -> Prop) (l : list A) :
  (forall x y, R x y -> R' x y) -> StronglySorted R l -> StronglySorted R' l.
Proof.
  intros HR. induction 1 as [|x l Hl IH Hx]; constructor; [exact IH|].
  revert Hx. apply List.Forall_impl. apply HR.
Qed.

Lemma goes_first_direction {A : Type} (key : A -> time) (asc : bool) (x y : A) :
  goes_first key (if asc then 1 else -1) x y = true ->
  in_direction asc (key x) (key y).
Proof.
  unfold goes_first, in_direction. destruct asc; cbn; apply Z.leb_le.
Qed.

Lemma eq_or_any_string (f x : string) :
  eq_or_any String.eqb (if String.eqb f "" then None else Some f) x = true ->
  f <> "" -> x = f.
Proof.
  destruct (String.eqb_spec f ""); [contradiction|].
  cbn. intros H _. apply String.eqb_eq, H.
Qed.

Lemma compare_time_beyond (asc : bool) (x t : time) :
  compare_time (if asc then "$gt" else "$lt") x t = true -> beyond asc t x.
Proof.
  unfold beyond. destruct asc; cbn; apply Z.ltb_lt.
Qed.

Lemma LR_Rewards_eq (s : Service) (req : ListRewardsRequest) :
  LR_Rewards (ListRewards s req)
  = map toPbReward
      (Find reward_CreatedAt (reward_matches (LR_query_filter req))
         (LR_sort req) (limit_of (LR_Limit req)) (rewardsCol s)).
Proof.
  unfold ListRewards, LR_query_filter, LR_comp, LR_sort. cbv zeta.
  destruct (last _); [destruct (FindOne _ _)|]; reflexivity.
Qed.

Lemma LC_Claims_eq (s : Service) (req : ListClaimsRequest) :
  LC_Claims (ListClaims s req)
  = map toPbClaim
      (Find claim_CreatedAt (claim_matches (LC_query_filter req))
         (LC_sort req) (limit_of (LC_Limit req)) (claimsCol s)).
Proof.
  unfold ListClaims, LC_query_filter, LC_comp, LC_sort. cbv zeta.
  destruct (last _); [destruct (FindOne _ _)|]; reflexivity.
Qed.

Lemma LR_query_matches (req : ListRewardsRequest) (r : reward) :
  reward_matches (LR_query_filter req) r = true ->
  (LR_OrgKeyFilter req <> "" -> reward_OrgKey r = LR_OrgKeyFilter req)
  /\ (LR_DevKeyFilter req <> "" -> reward_DevKey r = LR_DevKeyFilter req)
  /\ (LR_RewardTypeFilter req <> REWARD_TYPE_UNSPECIFIED ->
      reward_Type r = LR_RewardTypeFilter req)
  /\ (forall t, LR_StartAt req = Some t ->
        beyond (LR_Ascending req) t (reward_CreatedAt r)).
Proof.
  unfold reward_matches, LR_query_filter, LR_comp.
  assert (Hfields :
    eq_or_any String.eqb (rf_org_key (LR_filter req)) (reward_OrgKey r)
    && eq_or_any String.eqb (rf_dev_key (LR_filter req)) (reward_DevKey r)
    && eq_or_any (fun x y => bool_decide (x = y)) (rf_type (LR_filter req))
         (reward_Type r) = true ->
    (LR_OrgKeyFilter req <> "" -> reward_OrgKey r = LR_OrgKeyFilter req)
    /\ (LR_DevKeyFilter req <> "" -> reward_DevKey r = LR_DevKeyFilter req)
    /\ (LR_RewardTypeFilter req <> REWARD_TYPE_UNSPECIFIED ->
        reward_Type r = LR_RewardTypeFilter req)).
  { cbn [LR_filter rf_org_key rf_dev_key rf_type].
    rewrite !andb_true_iff. intros [[Ho Hd] Ht].
    split; [apply eq_or_any_string, Ho|].
    split; [apply eq_or_any_string, Hd|].
    intros Hne. rewrite (bool_decide_eq_false_2 _ Hne) in Ht.
    cbn in Ht. apply bool_decide_eq_true in Ht. exact Ht. }
  destruct (LR_StartAt req) as [t|].
  - cbn [rf_set_created_at rf_org_key rf_dev_key rf_type rf_created_at].
    intros H. apply andb_prop in H as [Hf Hc].
    destruct (Hfields Hf) as (H1 & H2 & H3).
    repeat split; try assumption.
    intros t' [= <-]. apply compare_time_beyond, Hc.
  - intros H. apply andb_prop in H as [Hf _].
    destruct (Hfields Hf) as (H1 & H2 & H3).
    repeat split; try assumption. discriminate.
Qed.

Lemma LC_query_matches (req : ListClaimsRequest) (x : claim) :
  claim_matches (LC_query_filter req) x = true ->
  (LC_OrgKeyFilter req <> "" -> claim_OrgKey x = LC_OrgKeyFilter req)
  /\ (LC_ClaimedByFilter req <> "" ->
      claim_ClaimedBy x = LC_ClaimedByFilter req)
  /\ (forall t, LC_StartAt req = Some t ->
        beyond (LC_Ascending req) t (claim_CreatedAt x)).
Proof.
  unfold claim_matches, LC_query_filter, LC_comp.
  assert (Hfields :
    eq_or_any String.eqb (cf_org_key (LC_filter req)) (claim_OrgKey x)
    && eq_or_any String.eqb (cf_claimed_by (LC_filter req)) (claim_ClaimedBy x)
    = true ->
    (LC_OrgKeyFilter req <> "" -> claim_OrgKey x = LC_OrgKeyFilter req)
    /\ (LC_ClaimedByFilter req <> "" ->
        claim_ClaimedBy x = LC_ClaimedByFilter req)).
  { cbn [LC_filter cf_org_key cf_claimed_by].
    rewrite !andb_true_iff. intros [Ho Hd].
    split; [apply eq_or_any_string, Ho|apply eq_or_any_string, Hd]. }
  destruct (LC_StartAt req) as [t|].
  - cbn [cf_set_created_at cf_org_key cf_claimed_by cf_created_at].
    intros H. apply andb_prop in H as [Hf Hc].
    destruct (Hfields Hf) as (H1 & H2).
    repeat split; try assumption.
    intros t' [= <-]. apply compare_time_beyond, Hc.
  - intros H. apply andb_prop in H as [Hf _].
    destruct (Hfields Hf) as (H1 & H2).
    repeat split; try assumption. discriminate.
Qed.

(** X18. A page of [ListRewards], in either direction and with or
    without a cursor: with a positive limit it has at most that many
    items; every item is a record of the rewards collection that
    satisfies each filter field the request sets and lies strictly
    beyond the request's cursor in the request's direction; and the
    items are ordered by creation time in that direction. *)
Theorem ListRewards_page (s : Service) (req : ListRewardsRequest) :
  let items := LR_Rewards (ListRewards s req) in
  (0 < LR_Limit req -> (length items <= Z.to_nat (LR_Limit req))%nat)
  /\ (forall p, In p items ->
        exists r, In r (rewardsCol s) /\ p = toPbReward r
          /\ (LR_OrgKeyFilter req <> "" ->
              reward_OrgKey r = LR_OrgKeyFilter req)
          /\ (LR_DevKeyFilter req <> "" ->
              reward_DevKey r = LR_DevKeyFilter req)
          /\ (LR_RewardTypeFilter req <> REWARD_TYPE_UNSPECIFIED ->
              reward_Type r = LR_RewardTypeFilter req)
          /\ (forall t, LR_StartAt req = Some t ->
                beyond (LR_Ascending req) t (reward_CreatedAt r)))
  /\ StronglySorted (in_direction (LR_Ascending req))
       (map pb_Reward_CreatedAt items).
Proof.
  cbv zeta. rewrite LR_Rewards_eq. split; [|split].
  - intros Hpos. rewrite length_map. unfold limit_of.
    apply Z.ltb_lt in Hpos. rewrite Hpos. apply Find_length.
  - intros p Hp. apply in_map_iff in Hp as (r & <- & Hr).
    apply Find_In in Hr as [Hin Hm].
    exists r. split; [exact Hin|]. split; [reflexivity|].
    apply LR_query_matches, Hm.
  - rewrite List.map_map. apply StronglySorted_map.
    pose proof (Find_sorted reward_CreatedAt
                  (reward_matches (LR_query_filter req)) (LR_sort req)
                  (limit_of (LR_Limit req)) (rewardsCol s)) as Hs.
    revert Hs. apply StronglySorted_weaken.
    intros x y. apply goes_first_direction.
Qed.

(** X19. A page of [ListClaims], likewise: at most limit items under a
    positive limit; every item a record of the claims collection that
    satisfies the filter fields the request sets and lies strictly
    beyond the cursor in the request's direction; items ordered by
    creation time in that direction. *)
Theorem ListClaims_page (s : Service) (req : ListClaimsRequest) :
  let items := LC_Claims (ListClaims s req) in
  (0 < LC_Limit req -> (length items <= Z.to_nat (LC_Limit req))%nat)
  /\ (forall p, In p items ->
        exists x, In x (claimsCol s) /\ p = toPbClaim x
          /\ (LC_OrgKeyFilter req <> "" ->
              claim_OrgKey x = LC_OrgKeyFilter req)
          /\ (LC_ClaimedByFilter req <> "" ->
              claim_ClaimedBy x = LC_ClaimedByFilter req)
          /\ (forall t, LC_StartAt req = Some t ->
                beyond (LC_Ascending req) t (claim_CreatedAt x)))
  /\ StronglySorted (in_direction (LC_Ascending req))
       (map pb_Claim_CreatedAt items).
Proof.
  cbv zeta. rewrite LC_Claims_eq. split; [|split].
  - intros Hpos. rewrite length_map. unfold limit_of.
    apply Z.ltb_lt in Hpos. rewrite Hpos. apply Find_length.
  - intros p Hp. apply in_map_iff in Hp as (x & <- & Hx).
    apply Find_In in Hx as [Hin Hm].
    exists x. split; [exact Hin|]. split; [reflexivity|].
    apply LC_query_matches, Hm.
  - rewrite List.map_map. apply StronglySorted_map.
    pose proof (Find_sorted claim_CreatedAt
                  (claim_matches (LC_query_filter req)) (LC_sort req)
                  (limit_of (LC_Limit req)) (claimsCol s)) as Hs.
    revert Hs. apply StronglySorted_weaken.
    intros x y. apply goes_first_direction.
Qed.



(** ** Pages from a cursor *)

Section AscendingFacts.
Context {A : Type} (key : A -> time) (base : A -> bool) (col : list A).
Hypothesis distinct : NoDup (map key (List.filter base col)).

Local Abbreviation nkey := (fun a : A => - key a).

Lemma goes_first_negated (x y : A) :
  goes_first key 1 x y = goes_first nkey (-1) x y.
Proof.
  unfold goes_first. cbn.
  destruct (Z.leb_spec (key x) (key y)), (Z.leb_spec (- key y) (- key x));
    [reflexivity|lia|lia|reflexivity].
Qed.

Lemma sort_negated (l : list A) :
  sort_by_created_at key 1 l = sort_by_created_at nkey (-1) l.
Proof.
  induction l as [|x l IH]; [reflexivity|].
  cbn [sort_by_created_at]. rewrite IH.
  generalize (sort_by_created_at nkey (-1) l). intros m.
  induction m as [|y m IHm]; [reflexivity|].
  cbn [sort_insert]. rewrite goes_first_negated, IHm. reflexivity.
Qed.

Lemma after_cursor_negated (t : time) (a : A) :
  after_cursor key base t a = before_cursor nkey base (Some (- t)) a.
Proof.
  unfold after_cursor, before_cursor, older_than. f_equal.
  destruct (Z.ltb_spec t (key a)), (Z.ltb_spec (- key a) (- t));
    [reflexivity|lia|lia|reflexivity].
Qed.

Lemma Find_negated (t : time) (limit : option Z) :
  Find key (after_cursor key base t) 1 limit col
  = Find nkey (before_cursor nkey base (Some (- t))) (-1) limit col.
Proof.
  unfold Find.
  rewrite (List.filter_ext _ _ (after_cursor_negated t)), sort_negated.
  reflexivity.
Qed.

Lemma ascending_page_negated (limit : Z) (t : time) :
  ascending_page key base col limit t
  = (fst (descending_page nkey base col limit (Some (- t))),
     option_map Z.opp (snd (descending_page nkey base col limit (Some (- t))))).
Proof.
  unfold ascending_page, descending_page. rewrite Find_negated.
  destruct (last _) as [lastRec|]; [|reflexivity].
  unfold FindOne.
  rewrite (find_ext _ _ _ (after_cursor_negated (key lastRec))).
  destruct (List.find _ col); cbn; [|reflexivity].
  rewrite Z.opp_involutive. reflexivity.
Qed.

Lemma ascending_pages_negated (fuel : nat) (limit : Z) (t : time) :
  ascending_pages key base fuel col limit t
  = descending_pages nkey base fuel col limit (Some (- t)).
Proof.
  revert t. induction fuel as [|fuel IH]; intros t; [reflexivity|].
  cbn [ascending_pages descending_pages]. rewrite ascending_page_negated.
  destruct (descending_page nkey base col limit (Some (- t)))
    as [items [c'|]]; cbn [fst snd option_map]; [|reflexivity].
  rewrite IH, Z.opp_involutive. reflexivity.
Qed.

Lemma distinct_negated : NoDup (map nkey (List.filter base col)).
Proof.
  revert distinct. generalize (List.filter base col). intros l.
  induction l as [|x l IH]; cbn; [constructor|].
  rewrite !NoDup_cons. intros [Hx Hl]. split; [|exact (IH Hl)].
  intros Hin. apply Hx.
  apply list_elem_of_In, in_map_iff in Hin as (y & Hy & Hin).
  apply list_elem_of_In, in_map_iff. exists y. split; [lia|exact Hin].
Qed.

Lemma ascending_pages_from (limit : Z) (fuel : nat) (t : time) :
  (length col < fuel)%nat ->
  ascending_pages key base fuel col limit t
  = Some (fst (ascending_page key base col 0 t)).
Proof.
  intros Hlen. rewrite ascending_pages_negated, ascending_page_negated.
  cbn [fst].
  rewrite (descending_pages_from nkey base col distinct_negated).
  - unfold descending_page.
    rewrite (Find_descending nkey base col). cbn [limit_of Z.ltb Z.compare apply_limit].
    destruct (last _); [destruct (FindOne _ _)|]; reflexivity.
  - eapply Nat.le_lt_trans; [apply List.filter_length_le|].
    rewrite (Permutation_length (sort_perm nkey (-1) _)).
    eapply Nat.le_lt_trans; [apply List.filter_length_le|exact Hlen].
Qed.

Lemma descending_pages_from_cursor (limit : Z) (fuel : nat) (c : option time) :
  (length col < fuel)%nat ->
  descending_pages key base fuel col limit c
  = Some (fst (descending_page key base col 0 c)).
Proof.
  intros Hlen. rewrite (descending_pages_from key base col distinct).
  - unfold descending_page.
    rewrite (Find_descending key base col). cbn [limit_of Z.ltb Z.compare apply_limit].
    destruct (last _); [destruct (FindOne _ _)|]; reflexivity.
  - eapply Nat.le_lt_trans; [apply List.filter_length_le|].
    rewrite (Permutation_length (sort_perm key (-1) _)).
    eapply Nat.le_lt_trans; [apply List.filter_length_le|exact Hlen].
Qed.
End AscendingFacts.

Lemma ascending_page_more {A : Type} (key : A -> time) (base : A -> bool)
    (col : list A) (limit : Z) (t : time) :
  let pg := ascending_page key base col limit t in
  (snd pg = option_map key (last (fst pg)) \/ snd pg = None)
  /\ (is_Some (snd pg)
      <-> exists a r, last (fst pg) = Some a /\ In r col
                      /\ base r = true /\ key a < key r).
Proof.
  cbv zeta. unfold ascending_page.
  destruct (last _) as [a|] eqn:El.
  - destruct (FindOne _ col) as [r|] eqn:Ef; cbn [fst snd]; rewrite El.
    + split; [left; reflexivity|]. split; [|intros _; eexists; reflexivity].
      intros _. apply List.find_some in Ef as [Hin Hr].
      apply andb_prop in Hr as [Hb Ho]. apply Z.ltb_lt in Ho.
      exists a, r. auto.
    + split; [right; reflexivity|]. split; [intros [? [=]]|].
      intros (a' & r & [= <-] & Hin & Hb & Hlt).
      apply (List.find_none _ _ Ef) in Hin.
      unfold after_cursor in Hin. rewrite Hb in Hin. cbn in Hin.
      apply Z.ltb_ge in Hin. lia.
  - cbn [fst snd]. rewrite El. split; [right; reflexivity|].
    split; [intros [? [=]]|intros (a & r & [=] & _)].
Qed.

Lemma reward_matches_gt (f : reward_filter) (t : time) (r : reward) :
  rf_created_at f = None ->
  reward_matches (rf_set_created_at f ("$gt", t)) r
  = after_cursor reward_CreatedAt (reward_matches f) t r.
Proof.
  intros H. unfold after_cursor, reward_matches. rewrite H. cbn.
  rewrite andb_true_r. reflexivity.
Qed.

Lemma claim_matches_gt (f : claim_filter) (t : time) (x : claim) :
  cf_created_at f = None ->
  claim_matches (cf_set_created_at f ("$gt", t)) x
  = after_cursor claim_CreatedAt (claim_matches f) t x.
Proof.
  intros H. unfold after_cursor, claim_matches. rewrite H. cbn.
  rewrite andb_true_r. reflexivity.
Qed.

Lemma ListRewards_ascending (s : Service) (req : ListRewardsRequest)
    (t : time) :
  LR_Ascending req = true ->
  ListRewards s (LR_with_StartAt req (Some t))
  = let pg := ascending_page reward_CreatedAt (reward_matches (LR_filter req))
                (rewardsCol s) (LR_Limit req) t in
    {| LR_Rewards := map toPbReward (fst pg);
       LR_More := more_of (snd pg);
       LR_MoreStartAt := snd pg |}.
Proof.
  intros Hasc. unfold ListRewards, ascending_page. cbv zeta.
  cbn [LR_with_StartAt LR_Ascending LR_StartAt LR_Limit].
  change (LR_filter (LR_with_StartAt req (Some t))) with (LR_filter req).
  rewrite Hasc.
  assert (Hf : rf_created_at (LR_filter req) = None) by reflexivity.
  rewrite (Find_ext _ _ _ _ _ _ (fun r => reward_matches_gt _ t r Hf)).
  destruct (last _) as [lastRec|]; [|reflexivity].
  unfold FindOne.
  rewrite (find_ext _ _ _
             (fun r => reward_matches_gt _ (reward_CreatedAt lastRec) r Hf)).
  destruct (List.find _ _); reflexivity.
Qed.

Lemma ListClaims_ascending (s : Service) (req : ListClaimsRequest)
    (t : time) :
  LC_Ascending req = true ->
  ListClaims s (LC_with_StartAt req (Some t))
  = let pg := ascending_page claim_CreatedAt (claim_matches (LC_filter req))
                (claimsCol s) (LC_Limit req) t in
    {| LC_Claims := map toPbClaim (fst pg);
       LC_More := more_of (snd pg);
       LC_MoreStartAt := snd pg |}.
Proof.
  intros Hasc. unfold ListClaims, ascending_page. cbv zeta.
  cbn [LC_with_StartAt LC_Ascending LC_StartAt LC_Limit].
  change (LC_filter (LC_with_StartAt req (Some t))) with (LC_filter req).
  rewrite Hasc.
  assert (Hf : cf_created_at (LC_filter req) = None) by reflexivity.
  rewrite (Find_ext _ _ _ _ _ _ (fun x => claim_matches_gt _ t x Hf)).
  destruct (last _) as [lastRec|]; [|reflexivity].
  unfold FindOne.
  rewrite (find_ext _ _ _
             (fun x => claim_matches_gt _ (claim_CreatedAt lastRec) x Hf)).
  destruct (List.find _ _); reflexivity.
Qed.

Lemma all_reward_pages_ascending (s : Service) (req : ListRewardsRequest)
    (fuel : nat) (t : time) :
  LR_Ascending req = true ->
  all_reward_pages fuel s (LR_with_StartAt req (Some t))
  = option_map (map toPbReward)
      (ascending_pages reward_CreatedAt (reward_matches (LR_filter req))
         fuel (rewardsCol s) (LR_Limit req) t).
Proof.
  intros Hasc. revert t. induction fuel as [|fuel IH]; intros t; [reflexivity|].
  cbn [all_reward_pages ascending_pages].
  rewrite (ListRewards_ascending s req t Hasc). cbv zeta.
  destruct (ascending_page _ _ _ _ t) as [items [t'|]]; cbn; [|reflexivity].
  change (LR_with_StartAt (LR_with_StartAt req (Some t)) (Some t'))
    with (LR_with_StartAt req (Some t')).
  rewrite IH. destruct (ascending_pages _ _ _ _ _ _); cbn; [|reflexivity].
  rewrite List.map_app. reflexivity.
Qed.

Lemma all_claim_pages_ascending (s : Service) (req : ListClaimsRequest)
    (fuel : nat) (t : time) :
  LC_Ascending req = true ->
  all_claim_pages fuel s (LC_with_StartAt req (Some t))
  = option_map (map toPbClaim)
      (ascending_pages claim_CreatedAt (claim_matches (LC_filter req))
         fuel (claimsCol s) (LC_Limit req) t).
Proof.
  intros Hasc. revert t. induction fuel as [|fuel IH]; intros t; [reflexivity|].
  cbn [all_claim_pages ascending_pages].
  rewrite (ListClaims_ascending s req t Hasc). cbv zeta.
  destruct (ascending_page _ _ _ _ t) as [items [t'|]]; cbn; [|reflexivity].
  change (LC_with_StartAt (LC_with_StartAt req (Some t)) (Some t'))
    with (LC_with_StartAt req (Some t')).
  rewrite IH. destruct (ascending_pages _ _ _ _ _ _); cbn; [|reflexivity].
  rewrite List.map_app. reflexivity.
Qed.

Lemma LR_pages_from_cursor (s : Service) (req : ListRewardsRequest)
    (t : time) (fuel : nat) :
  NoDup (map reward_CreatedAt
           (List.filter (reward_matches (LR_filter req)) (rewardsCol s))) ->
  (length (rewardsCol s) < fuel)%nat ->
  all_reward_pages fuel s (LR_with_StartAt req (Some t))
  = Some (LR_Rewards
            (ListRewards s (LR_with_StartAt (LR_unbounded req) (Some t)))).
Proof.
  intros Hnd Hlen. destruct (LR_Ascending req) eqn:Hasc.
  - rewrite (all_reward_pages_ascending s req fuel t Hasc).
    rewrite (ascending_pages_from _ _ _ Hnd (LR_Limit req) fuel t Hlen).
    rewrite (ListRewards_ascending s (LR_unbounded req) t Hasc). reflexivity.
  - rewrite (all_reward_pages_descending s req fuel (Some t) Hasc).
    rewrite (descending_pages_from_cursor _ _ _ Hnd (LR_Limit req) fuel _ Hlen).
    rewrite (ListRewards_descending s (LR_unbounded req) (Some t) Hasc).
    reflexivity.
Qed.

Lemma LC_pages_from_cursor (s : Service) (req : ListClaimsRequest)
    (t : time) (fuel : nat) :
  NoDup (map claim_CreatedAt
           (List.filter (claim_matches (LC_filter req)) (claimsCol s))) ->
  (length (claimsCol s) < fuel)%nat ->
  all_claim_pages fuel s (LC_with_StartAt req (Some t))
  = Some (LC_Claims
            (ListClaims s (LC_with_StartAt (LC_unbounded req) (Some t)))).
Proof.
  intros Hnd Hlen. destruct (LC_Ascending req) eqn:Hasc.
  - rewrite (all_claim_pages_ascending s req fuel t Hasc).
    rewrite (ascending_pages_from _ _ _ Hnd (LC_Limit req) fuel t Hlen).
    rewrite (ListClaims_ascending s (LC_unbounded req) t Hasc). reflexivity.
  - rewrite (all_claim_pages_descending s req fuel (Some t) Hasc).
    rewrite (descending_pages_from_cursor _ _ _ Hnd (LC_Limit req) fuel _ Hlen).
    rewrite (ListClaims_descending s (LC_unbounded req) (Some t) Hasc).
    reflexivity.
Qed.

(** X21. Paging from a cursor, in either direction, over either ledger:
    when the records matching the filter have pairwise distinct
    creation timestamps, the pages obtained by starting at a cursor and
    passing back the returned cursor while more is announced, put end
    to end, are exactly the answer of one query without limit from the
    same cursor, for any limit. *)
Theorem pages_from_cursor (s : Service) (rreq : ListRewardsRequest)
    (creq : ListClaimsRequest) (t : time) :
  NoDup (map reward_CreatedAt
           (List.filter (reward_matches (LR_filter rreq)) (rewardsCol s))) ->
  NoDup (map claim_CreatedAt
           (List.filter (claim_matches (LC_filter creq)) (claimsCol s))) ->
  (forall fuel, (length (rewardsCol s) < fuel)%nat ->
     all_reward_pages fuel s (LR_with_StartAt rreq (Some t))
     = Some (LR_Rewards
               (ListRewards s (LR_with_StartAt (LR_unbounded rreq) (Some t)))))
  /\ (forall fuel, (length (claimsCol s) < fuel)%nat ->
        all_claim_pages fuel s (LC_with_StartAt creq (Some t))
        = Some (LC_Claims
                  (ListClaims s (LC_with_StartAt (LC_unbounded creq) (Some t))))).
Proof.
  intros Hr Hc. split; intros fuel Hlen.
  - apply LR_pages_from_cursor; assumption.
  - apply LC_pages_from_cursor; assumption.
Qed.

(** Five rewards and three claims, ascending from cursor 0, two at a
    time. *)
Lemma pages_from_cursor_witness :
  let rreq := list_rewards_request "org1" true 2 in
  let creq := list_claims_request "org1" true 2 in
  all_reward_pages 6 five_rewards (LR_with_StartAt rreq (Some 0))
  = Some (LR_Rewards
            (ListRewards five_rewards
               (LR_with_StartAt (LR_unbounded rreq) (Some 0))))
  /\ all_claim_pages 4 five_rewards (LC_with_StartAt creq (Some 0))
     = Some (LC_Claims
               (ListClaims five_rewards
                  (LC_with_StartAt (LC_unbounded creq) (Some 0)))).
Proof.
  cbv zeta.
  assert (Hr : NoDup (map reward_CreatedAt
             (List.filter (reward_matches (LR_filter (list_rewards_request "org1" true 2)))
                (rewardsCol five_rewards)))).
  { apply (bool_decide_unpack _). vm_compute. exact I. }
  assert (Hc : NoDup (map claim_CreatedAt
             (List.filter (claim_matches (LC_filter (list_claims_request "org1" true 2)))
                (claimsCol five_rewards)))).
  { apply (bool_decide_unpack _). vm_compute. exact I. }
  destruct (pages_from_cursor five_rewards
              (list_rewards_request "org1" true 2)
              (list_claims_request "org1" true 2) 0 Hr Hc) as [Hrew Hcl].
  split.
  - apply (Hrew 6%nat). cbn. lia.
  - apply (Hcl 4%nat). cbn. lia.
Defined.

(** X22. In ascending order with a cursor, a page of either handler
    announces more exactly when a record matching the filter is
    strictly newer than the page's last item, and the cursor it returns
    is then that item's creation time. *)
Theorem ascending_more_iff (s : Service) (rreq : ListRewardsRequest)
    (creq : ListClaimsRequest) (t : time) :
  LR_Ascending rreq = true ->
  LC_Ascending creq = true ->
  (let res := ListRewards s (LR_with_StartAt rreq (Some t)) in
   (LR_More res = true
    <-> exists lastItem r,
          last (LR_Rewards res) = Some lastItem
          /\ In r (rewardsCol s)
          /\ reward_matches (LR_filter rreq) r = true
          /\ pb_Reward_CreatedAt lastItem < reward_CreatedAt r)
   /\ (LR_More res = true ->
       LR_MoreStartAt res
       = option_map pb_Reward_CreatedAt (last (LR_Rewards res))))
  /\ (let res := ListClaims s (LC_with_StartAt creq (Some t)) in
      (LC_More res = true
       <-> exists lastItem x,
             last (LC_Claims res) = Some lastItem
             /\ In x (claimsCol s)
             /\ claim_matches (LC_filter creq) x = true
             /\ pb_Claim_CreatedAt lastItem < claim_CreatedAt x)
      /\ (LC_More res = true ->
          LC_MoreStartAt res
          = option_map pb_Claim_CreatedAt (last (LC_Claims res)))).
Proof.
  intros Hr Hc. cbv zeta. split.
  - rewrite (ListRewards_ascending s rreq t Hr). cbv zeta.
    cbn [LR_More LR_Rewards LR_MoreStartAt].
    destruct (ascending_page_more reward_CreatedAt
                (reward_matches (LR_filter rreq)) (rewardsCol s)
                (LR_Limit rreq) t) as [Hnext Hmore].
    set (pg := ascending_page _ _ _ _ _) in *.
    rewrite last_map. split.
    + assert (E : more_of (snd pg) = true <-> is_Some (snd pg)).
      { destruct (snd pg) as [c|]; cbn; split; intros H;
          [eexists; reflexivity | reflexivity | discriminate H
          | destruct H as [? H]; discriminate H]. }
      rewrite E, Hmore. split.
      * intros (a & r & El & H). exists (toPbReward a), r. rewrite El. auto.
      * intros (p & r & El & H). destruct (last (fst pg)) as [a|]; [|discriminate].
        injection El as <-. exists a, r. auto.
    + intros Hm. destruct Hnext as [E|E]; rewrite E in *;
        [|cbn in Hm; discriminate Hm].
      destruct (last (fst pg)); reflexivity.
  - rewrite (ListClaims_ascending s creq t Hc). cbv zeta.
    cbn [LC_More LC_Claims LC_MoreStartAt].
    destruct (ascending_page_more claim_CreatedAt
                (claim_matches (LC_filter creq)) (claimsCol s)
                (LC_Limit creq) t) as [Hnext Hmore].
    set (pg := ascending_page _ _ _ _ _) in *.
    rewrite last_map. split.
    + assert (E : more_of (snd pg) = true <-> is_Some (snd pg)).
      { destruct (snd pg) as [c|]; cbn; split; intros H;
          [eexists; reflexivity | reflexivity | discriminate H
          | destruct H as [? H]; discriminate H]. }
      rewrite E, Hmore. split.
      * intros (a & r & El & H). exists (toPbClaim a), r. rewrite El. auto.
      * intros (p & r & El & H). destruct (last (fst pg)) as [a|]; [|discriminate].
        injection El as <-. exists a, r. auto.
    + intros Hm. destruct Hnext as [E|E]; rewrite E in *;
        [|cbn in Hm; discriminate Hm].
      destruct (last (fst pg)); reflexivity.
Qed.

(** Five rewards and three claims, ascending from cursor 0, two at a
    time: the first page of rewards announces more from time 2. *)
Lemma ascending_more_iff_witness :
  let res := ListRewards five_rewards
               (LR_with_StartAt (list_rewards_request "org1" true 2) (Some 0)) in
  LR_More res = true /\ LR_MoreStartAt res = Some 2.
Proof.
  cbv zeta.
  destruct (ascending_more_iff five_rewards
              (list_rewards_request "org1" true 2)
              (list_claims_request "org1" true 2) 0 eq_refl eq_refl)
    as [[_ Hcur] _].
  split; [reflexivity|]. exact (eq_trans (Hcur eq_refl) eq_refl).
Defined.

(** ** Answers of [ProcessAnalyticsEvent], case by case *)

Lemma insert_reward_some_iff (up : bool) (col : list reward) (r : reward) :
  insert_reward up col r = Some (col ++ [r])
  <-> up = true /\ duplicate_key col r = false.
Proof.
  unfold insert_reward. destruct up, (duplicate_key col r); cbn;
    split; try discriminate; auto; intros [? ?]; discriminate.
Qed.

Lemma insert_reward_none_iff (up : bool) (col : list reward) (r : reward) :
  insert_reward up col r = None
  <-> up = false \/ duplicate_key col r = true.
Proof.
  unfold insert_reward. destruct up, (duplicate_key col r); cbn;
    split; try discriminate; auto; intros [?|?]; discriminate.
Qed.

(** X23. Which answer [ProcessAnalyticsEvent] gives: invalid-argument
    exactly when the organization key is empty or the event is the
    unspecified one; an internal error exactly when the request reaches
    the append (no argument error, a mapped event, neither pair marked)
    and the store is down or a unique index holds a record with the
    same type under the same non-empty key; a reward exactly when the
    request reaches the append, the store is up and no such record
    exists; the empty response in every other case. *)
Theorem event_answer_iff (s : Service) (req : ProcessAnalyticsEventRequest)
    (now : time) (up : bool) :
  let res := fst (ProcessAnalyticsEvent s req now up) in
  let r := new_reward s req (reward_type_of (Request_AnalyticsEvent req)) now in
  (res = Err InvalidArgument
   <-> Request_OrgKey req = ""
       \/ Request_AnalyticsEvent req = EVENT_UNSPECIFIED)
  /\ (res = Err Internal
      <-> grant_attempt s req
          /\ (up = false \/ duplicate_key (rewardsCol s) r = true))
  /\ (res = Ok {| Response_Reward := Some (toPbReward r) |}
      <-> grant_attempt s req
          /\ up = true /\ duplicate_key (rewardsCol s) r = false)
  /\ (res = Err InvalidArgument \/ res = Err Internal
      \/ res = Ok {| Response_Reward := None |}
      \/ res = Ok {| Response_Reward := Some (toPbReward r) |}).
Proof.
  cbv zeta.
  destruct (event_outcome_holds s req now up)
    as [H|Hk He Ht|Hk He Ht Hc|Hg Hi|co cd Hg Hup Hdup Hco Hcd]; cbn [fst].
  - split; [tauto|]. split; [|split; [|auto]].
    + split; [discriminate|]. intros [(Hk & He & _) _]. tauto.
    + split; [discriminate|]. intros [(Hk & He & _) _]. tauto.
  - split; [split; [discriminate|tauto]|].
    split; [|split; [|auto]].
    + split; [discriminate|]. intros [(_ & _ & Ht' & _) _]. tauto.
    + split; [discriminate|]. intros [(_ & _ & Ht' & _) _]. tauto.
  - split; [split; [discriminate|tauto]|].
    split; [|split; [|auto]].
    + split; [discriminate|]. intros [(_ & _ & _ & Ho & Hd) _].
      destruct Hc; congruence.
    + split; [discriminate|]. intros [(_ & _ & _ & Ho & Hd) _].
      destruct Hc; congruence.
  - pose proof Hg as (Hk & He & _).
    split; [split; [discriminate|tauto]|].
    split; [|split; [|auto]].
    + split; [|reflexivity]. intros _. split; [exact Hg|].
      apply insert_reward_none_iff, Hi.
    + split; [discriminate|]. intros (_ & Hup & Hdup).
      rewrite (proj2 (insert_reward_some_iff _ _ _) (conj Hup Hdup)) in Hi.
      discriminate Hi.
  - pose proof Hg as (Hk & He & _).
    split; [split; [discriminate|tauto]|].
    split; [|split; [|auto 6]].
    + split; [discriminate|]. intros [_ [Hf|Hf]]; congruence.
    + split; [auto|reflexivity].
Qed.

(** X24. A request that reaches the append although the ledger already
    holds a record of the event's reward type under its organization
    key, or under its non-empty developer key (the caches do not mark
    the pair, as after a restart for developer keys), is answered with
    an internal error, and nothing is appended. *)
Theorem unmarked_duplicate_is_internal (s : Service)
    (req : ProcessAnalyticsEventRequest) (now : time) (up : bool)
    (x : reward) :
  grant_attempt s req ->
  In x (rewardsCol s) ->
  reward_Type x = reward_type_of (Request_AnalyticsEvent req) ->
  reward_OrgKey x = Request_OrgKey req
  \/ (reward_DevKey x = Request_DevKey req /\ Request_DevKey req <> "") ->
  fst (ProcessAnalyticsEvent s req now up) = Err Internal
  /\ rewardsCol (snd (ProcessAnalyticsEvent s req now up)) = rewardsCol s.
Proof.
  intros Hg Hin Ht Hkey.
  pose proof Hg as (Hk & He & Htn & Hco & Hcd).
  destruct (event_outcome_holds s req now up)
    as [H|_ _ Ht'|_ _ _ Hc|_ Hi|co cd _ Hup Hdup _ _]; cbn [fst snd].
  - tauto.
  - contradiction.
  - destruct Hc; congruence.
  - split; reflexivity.
  - exfalso. destruct (duplicate_key_false _ _ _ Hdup Hin) as [Eo Ed].
    destruct Hkey as [Hkey|[Hkey Hne]].
    + rewrite same_org_type_true in Eo;
        [discriminate Eo|exact Hk|exact Hkey|exact Ht].
    + rewrite same_dev_type_true in Ed;
        [discriminate Ed|exact Hne|exact Hkey|exact Ht].
Qed.

(** A ledger holding the first-bucket reward of (org1, dev1), caches
    empty: the same event of (org2, dev1). *)
Lemma unmarked_duplicate_is_internal_witness :
  grant_attempt one_reward (event_request "org2" "dev1" EVENT_BUCKET_CREATED)
  /\ fst (ProcessAnalyticsEvent one_reward
            (event_request "org2" "dev1" EVENT_BUCKET_CREATED) 11 true)
     = Err Internal.
Proof.
  assert (Hg : grant_attempt one_reward
                 (event_request "org2" "dev1" EVENT_BUCKET_CREATED)).
  { repeat split; cbn; congruence. }
  split; [exact Hg|].
  refine (proj1 (unmarked_duplicate_is_internal one_reward
                   (event_request "org2" "dev1" EVENT_BUCKET_CREATED) 11 true
                   (mk_reward "org1" "dev1" REWARD_TYPE_FIRST_BUCKET_CREATED
                      2 100 10) Hg _ eq_refl _)).
  - left. reflexivity.
  - right. split; [reflexivity|]. cbn. congruence.
Defined.

(** X25. Marking a pair that is already marked changes nothing: the
    cache after the write is the cache before it. *)
Theorem cache_set_marked (c : cache) (k : string) (t : RewardType) :
  cache_has c k t = true -> cache_set c k t = Some c.
Proof.
  unfold cache_has, cache_set. destruct (c !! k) as [types|] eqn:E;
    [|discriminate].
  intros H. apply bool_decide_eq_true in H. f_equal.
  assert (Hu : {[t]} ∪ types = types).
  { apply subseteq_union_1_L, singleton_subseteq_l, H. }
  rewrite Hu. apply insert_id, E.
Qed.

(** The cache after one grant, marked again. *)
Lemma cache_set_marked_witness :
  let c := rewardsCacheOrg
             (snd (ProcessAnalyticsEvent empty_store
                     (event_request "org1" "dev1" EVENT_BUCKET_CREATED) 7 true)) in
  cache_has c "org1" REWARD_TYPE_FIRST_BUCKET_CREATED = true
  /\ cache_set c "org1" REWARD_TYPE_FIRST_BUCKET_CREATED = Some c.
Proof.
  cbv zeta. split; [vm_compute; reflexivity|].
  apply cache_set_marked. vm_compute. reflexivity.
Defined.

(** The five rewards, listed descending, two at a time, from cursor 4. *)
Lemma ListRewards_page_witness :
  let req := LR_with_StartAt (list_rewards_request "org1" false 2) (Some 4) in
  (length (LR_Rewards (ListRewards five_rewards req)) <= 2)%nat
  /\ StronglySorted (in_direction false)
       (map pb_Reward_CreatedAt (LR_Rewards (ListRewards five_rewards req))).
Proof.
  cbv zeta.
  destruct (ListRewards_page five_rewards
              (LR_with_StartAt (list_rewards_request "org1" false 2) (Some 4)))
    as (Hlen & _ & Hsorted).
  split; [apply Hlen; cbn; lia|exact Hsorted].
Defined.

(** The three claims, listed ascending, two at a time. *)
Lemma ListClaims_page_witness :
  let req := list_claims_request "org1" true 2 in
  (length (LC_Claims (ListClaims five_rewards req)) <= 2)%nat
  /\ StronglySorted (in_direction true)
       (map pb_Claim_CreatedAt (LC_Claims (ListClaims five_rewards req))).
Proof.
  cbv zeta.
  destruct (ListClaims_page five_rewards (list_claims_request "org1" true 2))
    as (Hlen & _ & Hsorted).
  split; [apply Hlen; cbn; lia|exact Hsorted].
Defined.
